(** * KEN4: offline-first survey data — synchronisation and aggregation

    A shallow embedding of the data gateway ([services/api.ts]), of the
    synchronisation route of the backend ([server.js]) and of the
    aggregation code of the dashboard ([components/AdminPanel.tsx]),
    followed by the properties proved about them.

    Conventions.
    - JavaScript numbers that hold identifiers, scores and milliseconds are
      integers of [Z].
    - [localStorage] is a finite map from keys to strings ([gmap]).
    - A JavaScript [Map], whose iteration order is insertion order, is an
      association list ([JsMap]).
    - An [async] function is a state-and-exception computation over the
      browser state: awaiting is sequencing, a rejected promise is a thrown
      exception.
    - The remote API is a parameter of the gateway, one effect on the world
      behind the network per route; for the sync route the backend's own
      handler is put behind it.

    Of the gateway, [createUser], [fetchAllResponses], [fetchUserResponses],
    [syncLocalToServer] and [clearLocalData] are embedded; of the backend,
    the sync route with the two tables it writes; of the dashboard,
    [loadData]'s row mapping, [studentSummaries], the totals of the student
    rows and the lines of [exportCSV] up to their rendering as text. *)

From Stdlib Require Import ZArith Lia Ascii String DecimalString DecimalZ
  Sorted.
From stdpp Require Import base option list gmap strings.

Open Scope string_scope.
Open Scope Z_scope.

(** ** Domain records ([types.ts]) *)

Module Question.
Record t := mk { id : Z; text : string; image_filename : string;
                 ruby_text : option string }.
End Question.

Module User.
Record t := mk { id : Z; name : string; avatar : string;
                 grade : string; gender : string }.
End User.

Module Response.
(** [id] is optional in [types.ts] ([id?: number]). *)
Record t := mk { id : option Z; user_id : Z; question_id : Z;
                 score : Z; timestamp : string }.
End Response.

(** A row of the admin listing as the API returns it: [AdminResponseView]
    without [question_text], which [loadData] adds. *)
Module ApiRow.
Record t := mk { user_id : Z; user_name : string; user_avatar : string;
                 user_grade : string; user_gender : string;
                 question_id : Z; score : Z; timestamp : string }.
End ApiRow.

Module AdminResponseView.
Record t := mk { user_id : Z; user_name : string; user_avatar : string;
                 user_grade : string; user_gender : string;
                 question_id : Z; question_text : string;
                 score : Z; timestamp : string }.
End AdminResponseView.

(** The document the sync route answers with, which [syncLocalToServer]
    hands on: [{ status, synced_users, synced_responses }]. The early
    return of [syncLocalToServer] has no [status] field. *)
Module SyncResult.
Record t := mk { status : option string;
                 synced_users : Z; synced_responses : Z }.
End SyncResult.

(** ** JavaScript values and control *)

(** Exceptions the modelled code can raise or meet. *)
Inductive exn :=
  | Error (message : string)   (* [new Error(message)] *)
  | FetchFailed                (* [fetch] rejected: no connection *)
  | AbortError                 (* [fetch] aborted by the timeout controller *)
  | SyntaxError                (* [JSON.parse] / [res.json()] on bad text *).

Inductive Result (A : Type) :=
  | Ok (a : A)
  | Throw (e : exn).
Arguments Ok {A} a.
Arguments Throw {A} e.

(** [a || b] on strings: the empty string is falsy. *)
Definition string_or (a b : string) : string :=
  match a with EmptyString => b | _ => a end.

(** [item || b] on what [getItem] returns: [null] and the empty string are
    falsy. *)
Definition item_or (item : option string) (b : string) : string :=
  match item with
  | Some a => string_or a b
  | None => b
  end.

(** [a || b] on a possibly undefined number: [undefined] and [0] are falsy. *)
Definition number_or (a : option Z) (b : Z) : Z :=
  match a with
  | Some x => if x =? 0 then b else x
  | None => b
  end.

(** [Array.prototype.sort(cmp)]: a stable sort; [x] stays in front of [y]
    unless [cmp x y > 0]. (For a comparator that is not a consistent order
    the language leaves the result open; this is one admissible result.) *)
Section Sort.
Context {A : Type} (cmp : A -> A -> Z).

Fixpoint sort_insert (x : A) (l : list A) : list A :=
  match l with
  | [] => [x]
  | y :: l' => if cmp x y <=? 0 then x :: y :: l' else y :: sort_insert x l'
  end.

Definition Array_sort (l : list A) : list A := foldr sort_insert [] l.
End Sort.

(** A JavaScript [Map] with number keys: entries in insertion order, keys
    pairwise distinct. [set] on a present key replaces the value in place. *)
Module JsMap.
Definition t (V : Type) := list (Z * V).

Definition empty {V} : t V := [].

Fixpoint get {V} (m : t V) (k : Z) : option V :=
  match m with
  | [] => None
  | (k', v) :: m' => if k' =? k then Some v else get m' k
  end.

Definition has {V} (m : t V) (k : Z) : bool :=
  match get m k with Some _ => true | None => false end.

Fixpoint set {V} (m : t V) (k : Z) (v : V) : t V :=
  match m with
  | [] => [(k, v)]
  | (k', v') :: m' => if k' =? k then (k, v) :: m' else (k', v') :: set m' k v
  end.

Definition keys {V} (m : t V) : list Z := map fst m.
Definition values {V} (m : t V) : list V := map snd m.
Definition size {V} (m : t V) : nat := length m.
End JsMap.

(** ** The platform the client code runs on *)

(** [JSON.parse] at the two collection types and [JSON.stringify] at the one
    the modelled code writes; [None] is a thrown [SyntaxError]. *)
Class JSON := {
  JSON_parse_users : string -> option (list User.t);
  JSON_stringify_users : list User.t -> string;
  JSON_parse_responses : string -> option (list Response.t)
}.

(** What the proofs need of [JSON]. *)
Record JSON_lawful (J : JSON) : Prop := {
  parse_users_empty : JSON_parse_users "[]" = Some [];
  parse_responses_empty : JSON_parse_responses "[]" = Some [];
  parse_stringify_users :
    forall us, JSON_parse_users (JSON_stringify_users us) = Some us;
  stringify_users_nonempty :
    forall us, JSON_stringify_users us <> ""
}.

(** ** Network *)

Inductive Endpoint :=
  | ep_login                      (* POST /login *)
  | ep_admin_responses            (* GET  /admin/responses *)
  | ep_user_responses (userId : Z)(* GET  /users/:id/responses *)
  | ep_sync                       (* POST /sync *).

(** A response body: a JSON document of the type the endpoint promises, or
    anything else (the text of an error object, a proxy's HTML page). *)
Inductive Body (A : Type) :=
  | Json (a : A)
  | Other (text : string).
Arguments Json {A} a.
Arguments Other {A} text.

Record HttpResponse (A : Type) := mkResponse { status : Z; body : Body A }.
Arguments mkResponse {A} status body.
Arguments status {A} _.
Arguments body {A} _.

(** [res.ok] *)
Definition ok {A} (res : HttpResponse A) : bool :=
  (200 <=? status res) && (status res <=? 299).

(** What happens to one request: it never gets an answer, or the answer
    arrives [latency] milliseconds after the request was issued. *)
Inductive Outcome (A : Type) :=
  | NetworkError
  | Reply (latency : Z) (res : HttpResponse A).
Arguments NetworkError {A}.
Arguments Reply {A} latency res.

(** ** The browser: state of the client computations

    [W] is whatever is behind the network. [clock] gives the successive
    readings of [Date.now()], [ticks] counts the readings taken so far.
    [requests] logs every call of [fetchWithTimeout] with its deadline. *)
Record Browser (W : Type) := mkBrowser {
  localStorage : gmap string string;
  clock : nat -> Z;
  ticks : nat;
  world : W;
  requests : list (Endpoint * Z)
}.
Arguments mkBrowser {W}.
Arguments localStorage {W} _.
Arguments clock {W} _.
Arguments ticks {W} _.
Arguments world {W} _.
Arguments requests {W} _.

Definition Async (W A : Type) : Type := Browser W -> Result A * Browser W.

Definition resolve {W A} (a : A) : Async W A := fun b => (Ok a, b).
Definition throw {W A} (e : exn) : Async W A := fun b => (Throw e, b).

Definition await {W A B} (m : Async W A) (k : A -> Async W B) : Async W B :=
  fun b => match m b with
           | (Ok a, b') => k a b'
           | (Throw e, b') => (Throw e, b')
           end.

(** [try { m } catch (error) { h error }] *)
Definition try_catch {W A} (m : Async W A) (h : exn -> Async W A) : Async W A :=
  fun b => match m b with
           | (Ok a, b') => (Ok a, b')
           | (Throw e, b') => h e b'
           end.

Declare Scope async_scope.
Delimit Scope async_scope with async.
Notation "'let*' x ':=' m 'in' k" := (await m (fun x => k))
  (at level 10, x name, m at level 100, k at level 200) : async_scope.
Notation "m ';;' k" := (await m (fun _ => k))
  (at level 100, k at level 200, right associativity) : async_scope.

Section Platform.
Context {W : Type}.

Definition localStorage_getItem (key : string) : Async W (option string) :=
  fun b => (Ok (localStorage b !! key), b).

Definition localStorage_setItem (key value : string) : Async W unit :=
  fun b => (Ok tt, mkBrowser (<[key := value]> (localStorage b))
                             (clock b) (ticks b) (world b) (requests b)).

Definition localStorage_removeItem (key : string) : Async W unit :=
  fun b => (Ok tt, mkBrowser (delete key (localStorage b))
                             (clock b) (ticks b) (world b) (requests b)).

Definition Date_now : Async W Z :=
  fun b => (Ok (clock b (ticks b)),
            mkBrowser (localStorage b) (clock b) (S (ticks b)) (world b)
                      (requests b)).

(** [JSON.parse(text)] for a parser [parse] of the expected type. *)
Definition JSON_parse {A} (parse : string -> option A) (text : string)
  : Async W A :=
  match parse text with
  | Some v => resolve v
  | None => throw SyntaxError
  end.

(** [res.json()] *)
Definition json {A} (res : HttpResponse A) : Async W A :=
  match body res with
  | Json a => resolve a
  | Other _ => throw SyntaxError
  end.

(** [fetchWithTimeout(url, options, timeout)]: [send] is the effect of the
    request on the world and what comes back. The abort timer fires at
    [timeout] ms, so only an answer that arrives before it is returned. *)
Definition fetchWithTimeout {A} (url : Endpoint)
    (send : W -> Outcome A * W) (timeout : Z) : Async W (HttpResponse A) :=
  fun b =>
    let '(outcome, w') := send (world b) in
    let b' := mkBrowser (localStorage b) (clock b) (ticks b) w'
                        (requests b ++ [(url, timeout)])%list in
    match outcome with
    | NetworkError => (Throw FetchFailed, b')
    | Reply latency res =>
        if latency <? timeout then (Ok res, b') else (Throw AbortError, b')
    end.
End Platform.

(** ** The data gateway ([services/api.ts]) *)

Module Api.
Section Api.
Context {J : JSON} {W : Type}.

(** [new Date(s).getTime()]; [None] is [NaN] (an invalid date). *)
Variable Date_getTime : string -> option Z.

(** The remote API, one effect per route the gateway calls. *)
Variable post_login :
  string -> string -> string -> string -> W -> Outcome User.t * W.
Variable get_admin_responses : W -> Outcome (list ApiRow.t) * W.
Variable get_user_responses : Z -> W -> Outcome (list Response.t) * W.
Variable post_sync :
  list User.t -> list Response.t -> W -> Outcome SyncResult.t * W.

Local Open Scope async_scope.

(** [JSON.parse(localStorage.getItem('sel_users') || '[]')] *)
Definition read_sel_users : Async W (list User.t) :=
  let* item := localStorage_getItem "sel_users" in
  JSON_parse JSON_parse_users (item_or item "[]").

(** [JSON.parse(localStorage.getItem('sel_responses') || '[]')] *)
Definition read_sel_responses : Async W (list Response.t) :=
  let* item := localStorage_getItem "sel_responses" in
  JSON_parse JSON_parse_responses (item_or item "[]").

(** [createUser], the [try] block. It ends in [return res.json()]
    without [await], so a failure of [res.json()] is not caught by the
    [catch]: the block hands back the response and [createUser] reads
    the body outside. *)
Definition createUser_remote (name avatar grade gender : string)
  : Async W (HttpResponse User.t) :=
  let* res := fetchWithTimeout ep_login
                (post_login name avatar grade gender) 3000 in
  if negb (ok res) then throw (Error "Failed to create user")
  else resolve res.

(** [createUser], the [catch] block. *)
Definition createUser_local (name avatar grade gender : string)
  : Async W User.t :=
  let* users := read_sel_users in
  let* now := Date_now in
  let newUser := User.mk now name avatar grade gender in
  let users := (users ++ [newUser])%list in
  localStorage_setItem "sel_users" (JSON_stringify_users users) ;;
  resolve newUser.

(** [createUser] *)
Definition createUser (name avatar grade gender : string) : Async W User.t :=
  let* r :=
    try_catch
      (let* res := createUser_remote name avatar grade gender in
       resolve (inl res))
      (fun error =>
         let* newUser := createUser_local name avatar grade gender in
         resolve (inr newUser)) in
  match r with
  | inl res => json res
  | inr newUser => resolve newUser
  end.

(** The comparator of both local sorts:
    [new Date(b.timestamp).getTime() - new Date(a.timestamp).getTime()];
    a [NaN] difference counts as [0] in [sort]. *)
Definition newest_first (ta tb : string) : Z :=
  match Date_getTime tb, Date_getTime ta with
  | Some b, Some a => b - a
  | _, _ => 0
  end.

(** The local join of [fetchAllResponses]: one row per response. *)
Definition join_row (users : list User.t) (r : Response.t) : ApiRow.t :=
  let user := List.find (fun u => User.id u =? Response.user_id r) users in
  ApiRow.mk
    (match user with Some u => User.id u | None => -1 end)
    (match user with Some u => User.name u | None => "Unknown (Local)" end)
    (match user with Some u => User.avatar u | None => "🙂" end)
    (match user with Some u => User.grade u | None => "" end)
    (match user with Some u => User.gender u | None => "" end)
    (Response.question_id r)
    (Response.score r)
    (Response.timestamp r).

Inductive Source := DB | LOCAL.

(** [fetchAllResponses], the [try] block. *)
Definition fetchAllResponses_remote : Async W (Source * list ApiRow.t) :=
  let* res := fetchWithTimeout ep_admin_responses
                get_admin_responses 5000 in
  if negb (ok res) then throw (Error "Failed to fetch responses")
  else
    let* data := json res in
    resolve (DB, data).

(** [fetchAllResponses], the [catch] block. *)
Definition fetchAllResponses_local : Async W (Source * list ApiRow.t) :=
  let* users := read_sel_users in
  let* responses := read_sel_responses in
  let joined := map (join_row users) responses in
  let sorted :=
    Array_sort (fun a b => newest_first (ApiRow.timestamp a)
                                        (ApiRow.timestamp b)) joined in
  resolve (LOCAL, sorted).

(** [fetchAllResponses] *)
Definition fetchAllResponses : Async W (Source * list ApiRow.t) :=
  try_catch fetchAllResponses_remote (fun error => fetchAllResponses_local).

(** [fetchUserResponses], the [try] block. *)
Definition fetchUserResponses_remote (userId : Z)
  : Async W (Source * list Response.t) :=
  let* res := fetchWithTimeout (ep_user_responses userId)
                (get_user_responses userId) 3000 in
  if negb (ok res) then throw (Error "Failed to fetch user responses")
  else
    let* data := json res in
    resolve (DB, data).

(** [fetchUserResponses], the [catch] block. *)
Definition fetchUserResponses_local (userId : Z)
  : Async W (Source * list Response.t) :=
  let* responses := read_sel_responses in
  let userResponses :=
    Array_sort (fun a b => newest_first (Response.timestamp a)
                                        (Response.timestamp b))
      (List.filter (fun r => Response.user_id r =? userId) responses) in
  resolve (LOCAL, userResponses).

(** [fetchUserResponses] *)
Definition fetchUserResponses (userId : Z)
  : Async W (Source * list Response.t) :=
  try_catch (fetchUserResponses_remote userId)
            (fun error => fetchUserResponses_local userId).

(** [syncLocalToServer] *)
Definition syncLocalToServer : Async W SyncResult.t :=
  let* localUsers := read_sel_users in
  let* localResponses := read_sel_responses in
  if (length localUsers =? 0)%nat && (length localResponses =? 0)%nat
  then resolve (SyncResult.mk None 0 0)
  else
    let* res := fetchWithTimeout ep_sync
                  (post_sync localUsers localResponses) 10000 in
    if negb (ok res) then throw (Error "Sync failed")
    else
      let* result := json res in
      localStorage_removeItem "sel_users" ;;
      localStorage_removeItem "sel_responses" ;;
      resolve result.

(** [clearLocalData] *)
Definition clearLocalData : Async W unit :=
  localStorage_removeItem "sel_users" ;;
  localStorage_removeItem "sel_responses".
End Api.
End Api.

(** ** The backend's sync route ([server.js]) *)

Module UserRow.
Record t := mk { id : Z; name : string; avatar : string; grade : string;
                 gender : string; created_at : string }.
End UserRow.

Module ResponseRow.
Record t := mk { id : Z; user_id : Z; question_id : Z; score : Z;
                 timestamp : string }.
End ResponseRow.

Module Server.
(** The SQLite database: the two tables in insertion order, the value of
    [CURRENT_TIMESTAMP], and what the engine will answer to the coming
    statements: [Some message] is an error for that statement, an
    exhausted list means no further error. *)
Record Sqlite := mkSqlite {
  users : list UserRow.t;
  responses : list ResponseRow.t;
  CURRENT_TIMESTAMP : string;
  faults : list (option string)
}.

(** [INTEGER PRIMARY KEY AUTOINCREMENT]: one more than the largest key of
    the table, [1] in an empty table. (No route deletes rows, so the
    largest key ever used is the largest key present.) *)
Definition next_rowid (ids : list Z) : Z := 1 + foldr Z.max 0 ids.

Definition next_fault (db : Sqlite) : option string * Sqlite :=
  match faults db with
  | [] => (None, db)
  | f :: fs => (f, mkSqlite (users db) (responses db) (CURRENT_TIMESTAMP db) fs)
  end.

(** [INSERT INTO users (name, avatar, grade, gender) VALUES (?, ?, ?, ?)];
    the result is [err.message] or [this.lastID]. *)
Definition insert_user (name avatar grade gender : string) (db : Sqlite)
  : (string + Z) * Sqlite :=
  let '(fault, db) := next_fault db in
  match fault with
  | Some message => (inl message, db)
  | None =>
      let lastID := next_rowid (map UserRow.id (users db)) in
      let row := UserRow.mk lastID name avatar grade gender
                            (CURRENT_TIMESTAMP db) in
      (inr lastID,
       mkSqlite (users db ++ [row])%list (responses db)
                (CURRENT_TIMESTAMP db) (faults db))
  end.

(** [INSERT INTO responses (user_id, question_id, score, timestamp)
    VALUES (?, ?, ?, ?)] *)
Definition insert_response (user_id question_id score : Z)
    (timestamp : string) (db : Sqlite) : (string + Z) * Sqlite :=
  let '(fault, db) := next_fault db in
  match fault with
  | Some message => (inl message, db)
  | None =>
      let lastID := next_rowid (map ResponseRow.id (responses db)) in
      let row := ResponseRow.mk lastID user_id question_id score timestamp in
      (inr lastID,
       mkSqlite (users db) (responses db ++ [row])%list
                (CURRENT_TIMESTAMP db) (faults db))
  end.

(** The variables of the handler that the statement callbacks update,
    with [rejected], the reason [Promise.all] rejects with: the first
    rejection among the promises of the phase. Every statement of a phase
    is issued before any callback runs, so a failure does not stop the
    later statements of that phase. *)
Record Phase := mkPhase {
  userIdMap : gmap Z Z;
  syncedUsers : Z;
  syncedResponses : Z;
  rejected : option string;
  database : Sqlite
}.

Definition reject (st : Phase) (message : string) : option string :=
  match rejected st with
  | Some first => Some first
  | None => Some message
  end.

(** Step 1, one user. *)
Definition sync_user (st : Phase) (user : User.t) : Phase :=
  match insert_user (User.name user) (User.avatar user) (User.grade user)
                    (User.gender user) (database st) with
  | (inl err, db) =>
      mkPhase (userIdMap st) (syncedUsers st) (syncedResponses st)
              (reject st err) db
  | (inr lastID, db) =>
      mkPhase (<[User.id user := lastID]> (userIdMap st))
              (syncedUsers st + 1) (syncedResponses st) (rejected st) db
  end.

(** [userIdMap.get(resp.user_id) || resp.user_id] *)
Definition dbUserId (userIdMap : gmap Z Z) (resp : Response.t) : Z :=
  number_or (userIdMap !! Response.user_id resp) (Response.user_id resp).

(** Step 2, one response. *)
Definition sync_response (st : Phase) (resp : Response.t) : Phase :=
  match insert_response (dbUserId (userIdMap st) resp)
          (Response.question_id resp) (Response.score resp)
          (Response.timestamp resp) (database st) with
  | (inl err, db) =>
      mkPhase (userIdMap st) (syncedUsers st) (syncedResponses st)
              (reject st err) db
  | (inr lastID, db) =>
      mkPhase (userIdMap st) (syncedUsers st) (syncedResponses st + 1)
              (rejected st) db
  end.

Definition sync_users (users : list User.t) (db : Sqlite) : Phase :=
  fold_left sync_user users (mkPhase ∅ 0 0 None db).

Definition sync_responses (responses : list Response.t) (st : Phase) : Phase :=
  fold_left sync_response responses st.

(** [app.post('/api/sync', ...)]: the request body's two fields may be
    missing ([None]). *)
Definition post_api_sync (users : option (list User.t))
    (responses : option (list Response.t)) (db : Sqlite)
  : HttpResponse SyncResult.t * Sqlite :=
  match users, responses with
  | None, None => (mkResponse 400 (Other "No data to sync"), db)
  | _, _ =>
      let st1 := sync_users (default [] users) db in
      match rejected st1 with
      | Some message => (mkResponse 500 (Other message), database st1)
      | None =>
          let st2 := sync_responses (default [] responses) st1 in
          match rejected st2 with
          | Some message => (mkResponse 500 (Other message), database st2)
          | None =>
              (mkResponse 200
                 (Json (SyncResult.mk (Some "synced") (syncedUsers st2)
                                      (syncedResponses st2))),
               database st2)
          end
      end
  end.

(** The backend as the browser sees it: the database behind a link that
    is up or down and answers after [latency] milliseconds. A request on
    a link that is up is handled, whether or not the client still waits
    for the answer. *)
Record Backend := mkBackend {
  sqlite : Sqlite;
  reachable : bool;
  latency : Z
}.

(** [POST /api/sync] with the body [{ users, responses }] that
    [syncLocalToServer] sends. *)
Definition api_sync (users : list User.t) (responses : list Response.t)
    (w : Backend) : Outcome SyncResult.t * Backend :=
  if reachable w then
    let '(res, db) := post_api_sync (Some users) (Some responses) (sqlite w) in
    (Reply (latency w) res, mkBackend db (reachable w) (latency w))
  else (NetworkError, w).
End Server.

(** ** The dashboard's aggregation ([components/AdminPanel.tsx]) *)

Module StudentSummary.
Record t := mk { user_id : Z; name : string; avatar : string;
                 grade : string; gender : string;
                 answers : JsMap.t Z;    (* question_id -> score *)
                 last_timestamp : string }.
End StudentSummary.

(** A line of the export before its cells are escaped and joined. *)
Module CsvRow.
Record t := mk { user_id : Z; name : string; grade : string;
                 gender : string; last_timestamp : string;
                 scores : list (option Z);   (* [None] is the empty cell *)
                 totalScore : Z; progress : string }.
End CsvRow.

Module AdminPanel.
Section AdminPanel.
(** [QUESTIONS] of [constants.ts], the fixed question set. *)
Variable QUESTIONS : list Question.t.
Variable Date_getTime : string -> option Z.

(** The row mapping of [loadData]. *)
Definition enrich (row : ApiRow.t) : AdminResponseView.t :=
  let question :=
    List.find (fun q => Question.id q =? ApiRow.question_id row) QUESTIONS in
  AdminResponseView.mk
    (ApiRow.user_id row) (ApiRow.user_name row) (ApiRow.user_avatar row)
    (ApiRow.user_grade row) (ApiRow.user_gender row)
    (ApiRow.question_id row)
    (match question with
     | Some q => Question.text q
     | None => "Unknown Question"
     end)
    (ApiRow.score row) (ApiRow.timestamp row).

(** [new Date(a) > new Date(b)]; false when either date is invalid. *)
Definition Date_gt (a b : string) : bool :=
  match Date_getTime a, Date_getTime b with
  | Some x, Some y => y <? x
  | _, _ => false
  end.

(** The object that [rawData.forEach] puts in the map for a user id it
    has not seen. *)
Definition new_summary (row : AdminResponseView.t) : StudentSummary.t :=
  StudentSummary.mk (AdminResponseView.user_id row)
    (AdminResponseView.user_name row)
    (string_or (AdminResponseView.user_avatar row) "🧑‍🎓")
    (AdminResponseView.user_grade row)
    (AdminResponseView.user_gender row)
    JsMap.empty
    (AdminResponseView.timestamp row).

(** The two updates of the user's summary object for a row: the answer,
    if the question has none yet, and the latest timestamp. *)
Definition record_row (student : StudentSummary.t)
    (row : AdminResponseView.t) : StudentSummary.t :=
  let answers :=
    if negb (JsMap.has (StudentSummary.answers student)
                       (AdminResponseView.question_id row))
    then JsMap.set (StudentSummary.answers student)
           (AdminResponseView.question_id row)
           (AdminResponseView.score row)
    else StudentSummary.answers student in
  let last_timestamp :=
    if Date_gt (AdminResponseView.timestamp row)
               (StudentSummary.last_timestamp student)
    then AdminResponseView.timestamp row
    else StudentSummary.last_timestamp student in
  StudentSummary.mk (StudentSummary.user_id student)
    (StudentSummary.name student) (StudentSummary.avatar student)
    (StudentSummary.grade student) (StudentSummary.gender student)
    answers last_timestamp.

(** The body of [rawData.forEach]. The summary object is shared with the
    map, so its mutation is a [set] at its key. *)
Definition summarize (map : JsMap.t StudentSummary.t)
    (row : AdminResponseView.t) : JsMap.t StudentSummary.t :=
  let user_id := AdminResponseView.user_id row in
  let map :=
    if negb (JsMap.has map user_id)
    then JsMap.set map user_id (new_summary row)
    else map in
  match JsMap.get map user_id with
  | None => map
  | Some student => JsMap.set map user_id (record_row student row)
  end.

(** [studentSummaries] *)
Definition studentSummaries (rawData : list AdminResponseView.t)
  : list StudentSummary.t :=
  JsMap.values (fold_left summarize rawData JsMap.empty).

(** The student rows of the dashboard table. *)
Definition totalScore (student : StudentSummary.t) : Z :=
  fold_left Z.add (JsMap.values (StudentSummary.answers student)) 0.

Definition answerCount (student : StudentSummary.t) : nat :=
  JsMap.size (StudentSummary.answers student).

Definition totalQuestions : nat := length QUESTIONS.

Definition isComplete (student : StudentSummary.t) : bool :=
  (answerCount student =? totalQuestions)%nat.

(** Template-literal rendering of a count. *)
Definition String_of_nat (n : nat) : string :=
  NilZero.string_of_uint (Nat.to_uint n).

(** [exportCSV]: the question columns, in ascending id order. *)
Definition allQuestionIds : list Z :=
  Array_sort (fun a b => a - b) (map Question.id QUESTIONS).

(** [exportCSV]: the line of one student. [totalScore] is accumulated
    while the question columns are filled. *)
Definition exportCSV_row (s : StudentSummary.t) : CsvRow.t :=
  let '(scores, totalScore) :=
    fold_left
      (fun '(scores, totalScore) qid =>
         match JsMap.get (StudentSummary.answers s) qid with
         | Some score => ((scores ++ [Some score])%list, totalScore + score)
         | None => ((scores ++ [None])%list, totalScore)
         end)
      allQuestionIds ([], 0) in
  let progress :=
    String_of_nat (JsMap.size (StudentSummary.answers s)) +:+ "/" +:+
    String_of_nat (length QUESTIONS) in
  CsvRow.mk (StudentSummary.user_id s) (StudentSummary.name s)
            (StudentSummary.grade s) (StudentSummary.gender s)
            (StudentSummary.last_timestamp s) scores totalScore progress.

(** [exportCSV]: the lines after the header; nothing is exported when
    there is no summary. *)
Definition exportCSV_rows (summaries : list StudentSummary.t)
  : option (list CsvRow.t) :=
  match summaries with
  | [] => None
  | _ => Some (map exportCSV_row summaries)
  end.
End AdminPanel.
End AdminPanel.

(** ** A concrete platform

    A reader and a writer for the JSON text that [JSON.stringify] produces
    for the two collections (objects with their fields in the order the
    gateway writes them, no white space, strings with the quote and the
    backslash escaped), and the epoch milliseconds of a timestamp in the
    format of [toISOString]. They give the closed examples something to run
    on; the general statements hold for any [JSON] and any [Date_getTime]. *)

Module MiniJson.
Definition quote : ascii := "034"%char.
Definition backslash : ascii := "092"%char.

Definition is_special (c : ascii) : bool :=
  Ascii.eqb c quote || Ascii.eqb c backslash.

Fixpoint escape (s : string) : string :=
  match s with
  | EmptyString => EmptyString
  | String c s' =>
      if is_special c then String backslash (String c (escape s'))
      else String c (escape s')
  end.

Definition print_string (s : string) : string :=
  String quote (escape s +:+ String quote EmptyString).

(** The characters of a string literal after its opening quote. *)
Fixpoint scan_string (s : string) : option (string * string) :=
  match s with
  | EmptyString => None
  | String c s' =>
      if Ascii.eqb c quote then Some (EmptyString, s')
      else if Ascii.eqb c backslash then
        match s' with
        | String c' s'' =>
            if is_special c' then
              match scan_string s'' with
              | Some (v, rest) => Some (String c' v, rest)
              | None => None
              end
            else None
        | EmptyString => None
        end
      else
        match scan_string s' with
        | Some (v, rest) => Some (String c v, rest)
        | None => None
        end
  end.

Definition parse_string (s : string) : option (string * string) :=
  match s with
  | String c s' => if Ascii.eqb c quote then scan_string s' else None
  | EmptyString => None
  end.

Definition print_number (z : Z) : string :=
  NilZero.string_of_int (Z.to_int z).

Definition is_number_char (c : ascii) : bool :=
  Ascii.eqb c "-" ||
  ((48 <=? nat_of_ascii c)%nat && (nat_of_ascii c <=? 57)%nat).

Fixpoint span_number (s : string) : string * string :=
  match s with
  | EmptyString => (EmptyString, EmptyString)
  | String c s' =>
      if is_number_char c then
        let '(ds, rest) := span_number s' in (String c ds, rest)
      else (EmptyString, s)
  end.

(** The characters of a printed number, and a text that does not continue
    one. *)
Fixpoint number_chars (s : string) : Prop :=
  match s with
  | EmptyString => True
  | String c s' => is_number_char c = true /\ number_chars s'
  end.

Definition number_ends (rest : string) : Prop :=
  match rest with
  | EmptyString => True
  | String c _ => is_number_char c = false
  end.

Definition parse_number (s : string) : option (Z * string) :=
  let '(ds, rest) := span_number s in
  match NilZero.int_of_string ds with
  | Some d => Some (Z.of_int d, rest)
  | None => None
  end.

(** Take the literal [p] off the front of [s]. *)
Fixpoint expect (p s : string) : option string :=
  match p with
  | EmptyString => Some s
  | String c p' =>
      match s with
      | String c' s' => if Ascii.eqb c c' then expect p' s' else None
      | EmptyString => None
      end
  end.

(** ["k":], and the same after the opening brace or a comma. *)
Definition key (k : string) : string :=
  String quote (k +:+ String quote ":").
Definition first_field (k : string) : string := "{" +:+ key k.
Definition field (k : string) : string := "," +:+ key k.

Definition print_user (u : User.t) : string :=
  first_field "id" +:+ print_number (User.id u) +:+
  field "name" +:+ print_string (User.name u) +:+
  field "avatar" +:+ print_string (User.avatar u) +:+
  field "grade" +:+ print_string (User.grade u) +:+
  field "gender" +:+ print_string (User.gender u) +:+ "}".

Definition parse_user (s : string) : option (User.t * string) :=
  s ← expect (first_field "id") s;
  '(id, s) ← parse_number s;
  s ← expect (field "name") s;
  '(name, s) ← parse_string s;
  s ← expect (field "avatar") s;
  '(avatar, s) ← parse_string s;
  s ← expect (field "grade") s;
  '(grade, s) ← parse_string s;
  s ← expect (field "gender") s;
  '(gender, s) ← parse_string s;
  s ← expect "}" s;
  Some (User.mk id name avatar grade gender, s).

Definition print_response (r : Response.t) : string :=
  match Response.id r with
  | Some id =>
      first_field "id" +:+ print_number id +:+ field "user_id"
  | None => first_field "user_id"
  end +:+ print_number (Response.user_id r) +:+
  field "question_id" +:+ print_number (Response.question_id r) +:+
  field "score" +:+ print_number (Response.score r) +:+
  field "timestamp" +:+ print_string (Response.timestamp r) +:+ "}".

Definition parse_response (s : string) : option (Response.t * string) :=
  '(id, s) ← match expect (first_field "id") s with
             | Some s =>
                 '(id, s) ← parse_number s;
                 s ← expect (field "user_id") s;
                 Some (Some id, s)
             | None =>
                 s ← expect (first_field "user_id") s;
                 Some (None, s)
             end;
  '(user_id, s) ← parse_number s;
  s ← expect (field "question_id") s;
  '(question_id, s) ← parse_number s;
  s ← expect (field "score") s;
  '(score, s) ← parse_number s;
  s ← expect (field "timestamp") s;
  '(timestamp, s) ← parse_string s;
  s ← expect "}" s;
  Some (Response.mk id user_id question_id score timestamp, s).

Section Arrays.
Context {A : Type}.
Variable print : A -> string.
Variable parse : string -> option (A * string).

Fixpoint print_elements (xs : list A) : string :=
  match xs with
  | [] => EmptyString
  | [x] => print x
  | x :: xs' => print x +:+ "," +:+ print_elements xs'
  end.

Definition print_array (xs : list A) : string :=
  "[" +:+ print_elements xs +:+ "]".

(** One element, then a comma and the rest, or the closing bracket. *)
Fixpoint parse_elements (fuel : nat) (s : string)
  : option (list A * string) :=
  match fuel with
  | O => None
  | S fuel' =>
      '(x, s) ← parse s;
      match expect "," s with
      | Some s' =>
          '(xs, rest) ← parse_elements fuel' s';
          Some (x :: xs, rest)
      | None =>
          rest ← expect "]" s;
          Some ([x], rest)
      end
  end.

Definition parse_array (s : string) : option (list A) :=
  s ← expect "[" s;
  match expect "]" s with
  | Some EmptyString => Some []
  | _ =>
      match parse_elements (String.length s) s with
      | Some (xs, EmptyString) => Some xs
      | _ => None
      end
  end.
End Arrays.

Definition codec : JSON := {|
  JSON_parse_users := parse_array parse_user;
  JSON_stringify_users := print_array print_user;
  JSON_parse_responses := parse_array parse_response
|}.
End MiniJson.

Module Iso8601.
Definition digit (c : ascii) : option Z :=
  let n := nat_of_ascii c in
  if (48 <=? n)%nat && (n <=? 57)%nat then Some (Z.of_nat n - 48) else None.

(** Read exactly [n] decimal digits. *)
Fixpoint number (n : nat) (acc : Z) (s : string) : option (Z * string) :=
  match n with
  | O => Some (acc, s)
  | S n' =>
      match s with
      | String c s' => d ← digit c; number n' (10 * acc + d) s'
      | EmptyString => None
      end
  end.

Definition sep (c : ascii) (s : string) : option string :=
  match s with
  | String c' s' => if Ascii.eqb c c' then Some s' else None
  | EmptyString => None
  end.

(** Days from 1970-01-01 to the given day of the proleptic Gregorian
    calendar. *)
Definition days_from_civil (y m d : Z) : Z :=
  let y := if m <=? 2 then y - 1 else y in
  let era := y / 400 in
  let yoe := y - era * 400 in
  let doy := (153 * ((m + 9) mod 12) + 2) / 5 + d - 1 in
  let doe := yoe * 365 + yoe / 4 - yoe / 100 + doy in
  era * 146097 + doe - 719468.

Definition days_in_month (y m : Z) : Z :=
  if m =? 2 then
    if ((y mod 4 =? 0) && negb (y mod 100 =? 0)) || (y mod 400 =? 0)
    then 29 else 28
  else if (m =? 4) || (m =? 6) || (m =? 9) || (m =? 11) then 30 else 31.

(** [YYYY-MM-DDTHH:mm:ss.sssZ] to milliseconds since the epoch. *)
Definition getTime (s : string) : option Z :=
  '(y, s) ← number 4 0 s; s ← sep "-" s;
  '(m, s) ← number 2 0 s; s ← sep "-" s;
  '(d, s) ← number 2 0 s; s ← sep "T" s;
  '(hh, s) ← number 2 0 s; s ← sep ":" s;
  '(mm, s) ← number 2 0 s; s ← sep ":" s;
  '(ss, s) ← number 2 0 s; s ← sep "." s;
  '(ms, s) ← number 3 0 s; s ← sep "Z" s;
  match s with
  | EmptyString =>
      if (1 <=? m) && (m <=? 12) && (1 <=? d) && (d <=? days_in_month y m)
         && (hh <=? 23) && (mm <=? 59) && (ss <=? 59)
      then Some ((((days_from_civil y m d * 24 + hh) * 60 + mm) * 60 + ss)
                 * 1000 + ms)
      else None
  | _ => None
  end.
End Iso8601.

(** ** The gateway against the backend *)

Module System.
(** [syncLocalToServer] with the backend's route behind [/sync]. *)
Definition syncLocalToServer `{J : JSON}
  : Async Server.Backend SyncResult.t :=
  Api.syncLocalToServer Server.api_sync.
End System.

(** What a user enters on the profile screen: the arguments of
    [createUser]. *)
Module Profile.
Record t := mk { name : string; avatar : string;
                 grade : string; gender : string }.
End Profile.

(** [createUser] on a profile. *)
Definition createUser_from `{J : JSON} {W : Type}
    (post_login : string -> string -> string -> string -> W ->
                  Outcome User.t * W)
    (p : Profile.t) : Async W User.t :=
  Api.createUser post_login (Profile.name p) (Profile.avatar p)
                 (Profile.grade p) (Profile.gender p).

(** A run of calls one after the other, as a session makes them. *)
Fixpoint for_each {W A B} (f : A -> Async W B) (l : list A)
  : Async W (list B) :=
  match l with
  | [] => resolve []
  | x :: l' =>
      await (f x) (fun y => await (for_each f l') (fun ys => resolve (y :: ys)))
  end.

(** ** Vocabulary of the statements *)

(** The two local collections as the gateway reads them from a store:
    [None] when [JSON.parse] throws. *)
Definition pending_users `{J : JSON} (store : gmap string string)
  : option (list User.t) :=
  JSON_parse_users (item_or (store !! "sel_users") "[]").

Definition pending_responses `{J : JSON} (store : gmap string string)
  : option (list Response.t) :=
  JSON_parse_responses (item_or (store !! "sel_responses") "[]").

(** [getItem] gives [null] or the empty string: the [|| '[]'] applies. *)
Definition item_absent (store : gmap string string) (key : string) : Prop :=
  store !! key = None \/ store !! key = Some "".

(** A local response whose user id matches no user of the local user
    collection. *)
Definition orphan (users : list User.t) (r : Response.t) : Prop :=
  List.find (fun u => User.id u =? Response.user_id r) users = None.

(** No error among the answers of the engine to the next [n] statements. *)
Definition fault_free (n : nat) (db : Server.Sqlite) : Prop :=
  Forall (fun f => f = None) (take n (Server.faults db)).

(** The row that the route creates for a local user: the four profile
    fields are copied, the key is the server's. *)
Definition user_created (db : Server.Sqlite) (user : User.t)
    (row : UserRow.t) : Prop :=
  UserRow.name row = User.name user /\
  UserRow.avatar row = User.avatar user /\
  UserRow.grade row = User.grade user /\
  UserRow.gender row = User.gender user /\
  UserRow.created_at row = Server.CURRENT_TIMESTAMP db.

(** The row that the route creates for a local response, given the sync
    identifier map: the owner is the server id recorded for the response's
    local user id, or the original user id when none is recorded; question,
    score and timestamp are the response's own. *)
Definition response_created (userIdMap : gmap Z Z) (resp : Response.t)
    (row : ResponseRow.t) : Prop :=
  ResponseRow.user_id row =
    match userIdMap !! Response.user_id resp with
    | Some server_id => server_id
    | None => Response.user_id resp
    end /\
  ResponseRow.question_id row = Response.question_id resp /\
  ResponseRow.score row = Response.score resp /\
  ResponseRow.timestamp row = Response.timestamp resp.

(** The owner that step 2 gives a response, as an inserted row shows it. *)
Definition response_inserted (userIdMap : gmap Z Z) (resp : Response.t)
    (row : ResponseRow.t) : Prop :=
  ResponseRow.user_id row = Server.dbUserId userIdMap resp /\
  ResponseRow.question_id row = Response.question_id resp /\
  ResponseRow.score row = Response.score resp /\
  ResponseRow.timestamp row = Response.timestamp resp.

(** The first row, in input order, that mentions a (user, question) pair. *)
Definition first_row (rows : list AdminResponseView.t) (user question : Z)
  : option AdminResponseView.t :=
  List.find (fun row => (AdminResponseView.user_id row =? user) &&
                        (AdminResponseView.question_id row =? question))
            rows.

(** What holds of the map after the rows [pre] have been processed. *)
Definition summaries_inv (pre : list AdminResponseView.t)
    (m : JsMap.t StudentSummary.t) : Prop :=
  NoDup (JsMap.keys m) /\
  (forall k, k ∈ JsMap.keys m <->
             exists row, row ∈ pre /\ AdminResponseView.user_id row = k) /\
  (forall k s, JsMap.get m k = Some s ->
     StudentSummary.user_id s = k /\
     NoDup (JsMap.keys (StudentSummary.answers s)) /\
     forall q, JsMap.get (StudentSummary.answers s) q =
               AdminResponseView.score <$> first_row pre k q).

(** ** Sample data for the closed examples *)

Module Sample.
Definition T1 : string := "2024-03-01T09:00:00.000Z".
Definition T2 : string := "2024-03-01T09:05:00.000Z".

Definition QUESTIONS : list Question.t :=
  [Question.mk 1 "I feel happy at school" "q1.png" None;
   Question.mk 2 "I can calm down when I am upset" "q2.png" None;
   Question.mk 3 "I get along with my classmates" "q3.png" None].

Definition amy : User.t := User.mk 1709283600000 "Amy" "🐱" "3" "F".
Definition ben : User.t := User.mk 1709283900000 "Ben" "🐶" "4" "M".

Definition local_users : list User.t := [amy; ben].

(** The last two responses carry user ids that no local user has. *)
Definition local_responses : list Response.t :=
  [Response.mk (Some 1709283601000) 1709283600000 1 5 T1;
   Response.mk (Some 1709283901000) 1709283900000 1 4 T2;
   Response.mk (Some 1709283902000) 41 2 3 T1;
   Response.mk (Some 1709283903000) 42 3 2 T2].

Definition store_empty : gmap string string := ∅.

Definition store_pending : gmap string string :=
  <["sel_users" := MiniJson.print_array MiniJson.print_user local_users]>
    (<["sel_responses" :=
         MiniJson.print_array MiniJson.print_response local_responses]> ∅).

(** A write of the responses that was cut short. *)
Definition store_corrupt : gmap string string :=
  <["sel_responses" := "[{"]> ∅.

Definition clock (n : nat) : Z := 1709283600000 + 1000 * Z.of_nat n.

(** Two calls within the same millisecond. *)
Definition clock_stalled (n : nat) : Z := 1709283600000.

Definition browser {W} (store : gmap string string) (w : W) : Browser W :=
  mkBrowser store clock 0 w [].

Definition sqlite : Server.Sqlite :=
  Server.mkSqlite [] [] "2024-03-02 08:00:00" [].

(** The engine fails the fourth statement. *)
Definition sqlite_failing : Server.Sqlite :=
  Server.mkSqlite [] [] "2024-03-02 08:00:00"
    [None; None; None; Some "SQLITE_FULL: database or disk is full"].

Definition backend : Server.Backend := Server.mkBackend sqlite true 120.
Definition backend_failing : Server.Backend :=
  Server.mkBackend sqlite_failing true 120.

(** A remote that cannot be reached, behind any route. *)
Definition offline {A} (w : unit) : Outcome A * unit := (NetworkError, w).

Definition login_offline (name avatar grade gender : string) (w : unit)
  : Outcome User.t * unit := offline w.

Definition user_responses_offline (userId : Z) (w : unit)
  : Outcome (list Response.t) * unit := offline w.

(** A remote that answers every request for a user's responses with an
    empty list, 4000 ms after the request. *)
Definition slow_user_responses (userId : Z) (w : unit)
  : Outcome (list Response.t) * unit :=
  (Reply 4000 (mkResponse 200 (Json [])), w).

Definition profiles : list Profile.t :=
  [Profile.mk "Amy" "🐱" "3" "F"; Profile.mk "Ben" "🐶" "4" "M"].

(** One student, who answered question 1 and a question 7 that is not in
    [QUESTIONS]. *)
Definition rows_outside_set : list AdminResponseView.t :=
  [AdminResponseView.mk 1 "Amy" "🐱" "3" "F" 1 "I feel happy at school" 5 T2;
   AdminResponseView.mk 1 "Amy" "🐱" "3" "F" 7 "Unknown Question" 3 T1].

(** One student, who answered questions 1 and 2. *)
Definition rows_inside_set : list AdminResponseView.t :=
  [AdminResponseView.mk 1 "Amy" "🐱" "3" "F" 1 "I feel happy at school" 5 T2;
   AdminResponseView.mk 1 "Amy" "🐱" "3" "F" 2
     "I can calm down when I am upset" 3 T1].
End Sample.

(** * The rest of the code

    The other routes of the backend, the rest of the gateway, a quiz
    session as the components drive the gateway, the handlers of the
    dashboard, the text of the export and the state of the application
    shell. The properties proved about them follow those of the first
    part. *)

(** ** The other routes of the backend ([server.js]) *)

(** The acknowledgment of a stored response: [{ id, status }]. *)
Module Ack.
Record t := mk { id : Z; status : string }.
End Ack.

Module Routes.
Import Server.

(** [app.get('/api/health', ...)]: the body, [{ status, timestamp }], is
    not read by the gateway. *)
Definition get_api_health (db : Sqlite) : HttpResponse unit * Sqlite :=
  (mkResponse 200 (Json tt), db).

(** [app.post('/api/login', ...)]; [!name] holds of the empty string. *)
Definition post_api_login (name avatar grade gender : string) (db : Sqlite)
  : HttpResponse User.t * Sqlite :=
  if String.eqb name "" then (mkResponse 400 (Other "Name is required"), db)
  else
    match insert_user name avatar grade gender db with
    | (inl message, db) => (mkResponse 500 (Other message), db)
    | (inr lastID, db) =>
        (mkResponse 200 (Json (User.mk lastID name avatar grade gender)), db)
    end.

(** [app.post('/api/response', ...)]; [!x] holds of the number [0]. The
    statement names no timestamp, so the column takes its default,
    [CURRENT_TIMESTAMP]. *)
Definition post_api_response (user_id question_id score : Z) (db : Sqlite)
  : HttpResponse Ack.t * Sqlite :=
  if (user_id =? 0) || (question_id =? 0) || (score =? 0)
  then (mkResponse 400 (Other "Missing fields"), db)
  else
    match insert_response user_id question_id score (CURRENT_TIMESTAMP db) db
    with
    | (inl message, db) => (mkResponse 500 (Other message), db)
    | (inr lastID, db) => (mkResponse 200 (Json (Ack.mk lastID "saved")), db)
    end.

(** [ORDER BY] on a text column: a comparator on the byte order of the
    texts, for a stable sort (the engine leaves the order of equal keys
    open; this is one admissible order). *)
Definition text_ascending (a b : string) : Z :=
  match String.compare a b with Lt => -1 | Eq => 0 | Gt => 1 end.

Definition text_descending (a b : string) : Z := text_ascending b a.

(** [responses JOIN users ON responses.user_id = users.id], with the
    columns of the admin listing: for every response, one row per user
    row with that key. *)
Definition join_users (users : list UserRow.t) (r : ResponseRow.t)
  : list ApiRow.t :=
  map (fun u => ApiRow.mk (UserRow.id u) (UserRow.name u) (UserRow.avatar u)
                  (UserRow.grade u) (UserRow.gender u)
                  (ResponseRow.question_id r) (ResponseRow.score r)
                  (ResponseRow.timestamp r))
      (List.filter (fun u => ResponseRow.user_id r =? UserRow.id u) users).

(** The query of [app.get('/api/admin/responses', ...)]. *)
Definition select_admin_responses (db : Sqlite) : list ApiRow.t :=
  Array_sort (fun a b => text_descending (ApiRow.timestamp a)
                                         (ApiRow.timestamp b))
    (flat_map (join_users (users db)) (responses db)).

(** [app.get('/api/admin/responses', ...)] *)
Definition get_api_admin_responses (db : Sqlite)
  : HttpResponse (list ApiRow.t) * Sqlite :=
  let '(fault, db) := next_fault db in
  match fault with
  | Some message => (mkResponse 500 (Other message), db)
  | None => (mkResponse 200 (Json (select_admin_responses db)), db)
  end.

(** The query of [app.get('/api/users/:id/responses', ...)]:
    [WHERE responses.user_id = ? ORDER BY responses.question_id ASC]. *)
Definition select_user_responses (userId : Z) (db : Sqlite)
  : list Response.t :=
  map (fun r => Response.mk (Some (ResponseRow.id r)) (ResponseRow.user_id r)
                  (ResponseRow.question_id r) (ResponseRow.score r)
                  (ResponseRow.timestamp r))
      (Array_sort (fun a b => ResponseRow.question_id a
                              - ResponseRow.question_id b)
         (List.filter (fun r => ResponseRow.user_id r =? userId)
            (responses db))).

(** [app.get('/api/users/:id/responses', ...)], for an id that is the
    decimal text of a number, as the gateway sends it. *)
Definition get_api_users_responses (userId : Z) (db : Sqlite)
  : HttpResponse (list Response.t) * Sqlite :=
  let '(fault, db) := next_fault db in
  match fault with
  | Some message => (mkResponse 500 (Other message), db)
  | None => (mkResponse 200 (Json (select_user_responses userId db)), db)
  end.

(** The query of [app.get('/api/users', ...)]:
    [SELECT * FROM users ORDER BY created_at DESC]. *)
Definition select_users (db : Sqlite) : list UserRow.t :=
  Array_sort (fun a b => text_descending (UserRow.created_at a)
                                         (UserRow.created_at b))
    (users db).

(** [app.get('/api/users', ...)] *)
Definition get_api_users (db : Sqlite)
  : HttpResponse (list UserRow.t) * Sqlite :=
  let '(fault, db) := next_fault db in
  match fault with
  | Some message => (mkResponse 500 (Other message), db)
  | None => (mkResponse 200 (Json (select_users db)), db)
  end.
End Routes.

(** ** The backend behind the link *)

Module Link.
Import Server.

(** A route as the browser sees it (see [Server.api_sync]). *)
Definition behind_link {A} (route : Sqlite -> HttpResponse A * Sqlite)
    (w : Backend) : Outcome A * Backend :=
  if reachable w then
    let '(res, db) := route (sqlite w) in
    (Reply (latency w) res, mkBackend db (reachable w) (latency w))
  else (NetworkError, w).

Definition api_health : Backend -> Outcome unit * Backend :=
  behind_link Routes.get_api_health.

Definition api_login (name avatar grade gender : string)
  : Backend -> Outcome User.t * Backend :=
  behind_link (Routes.post_api_login name avatar grade gender).

Definition api_response (user_id question_id score : Z)
  : Backend -> Outcome Ack.t * Backend :=
  behind_link (Routes.post_api_response user_id question_id score).

Definition api_admin_responses : Backend -> Outcome (list ApiRow.t) * Backend :=
  behind_link Routes.get_api_admin_responses.

Definition api_user_responses (userId : Z)
  : Backend -> Outcome (list Response.t) * Backend :=
  behind_link (Routes.get_api_users_responses userId).
End Link.

(** ** The rest of the gateway ([services/api.ts]) *)

Module Gateway.
Section Gateway.
Context {J : JSON} {W : Type}.

(** [JSON.stringify] at the type of the response collection. *)
Variable JSON_stringify_responses : list Response.t -> string.
(** [new Date(ms).toISOString()] *)
Variable toISOString : Z -> string.

Variable get_health : W -> Outcome unit * W.
Variable post_response : Z -> Z -> Z -> W -> Outcome Ack.t * W.

Local Open Scope async_scope.

(** [fetchWithTimeout] on a route that [Endpoint] does not name: the same
    function, without an entry in the request log. *)
Definition fetchWithTimeout_unlisted {A} (send : W -> Outcome A * W)
    (timeout : Z) : Async W (HttpResponse A) :=
  fun b =>
    let '(outcome, w') := send (world b) in
    let b' := mkBrowser (localStorage b) (clock b) (ticks b) w'
                        (requests b) in
    match outcome with
    | NetworkError => (Throw FetchFailed, b')
    | Reply latency res =>
        if latency <? timeout then (Ok res, b') else (Throw AbortError, b')
    end.

(** [checkServerHealth] *)
Definition checkServerHealth : Async W bool :=
  try_catch
    (let* res := fetchWithTimeout_unlisted get_health 2000 in
     resolve (ok res))
    (fun error => resolve false).

(** [submitResponse], the [try] block; like [createUser]'s it returns
    [res.json()] without awaiting it. *)
Definition submitResponse_remote (userId questionId score : Z)
  : Async W (HttpResponse Ack.t) :=
  let* res := fetchWithTimeout_unlisted
                (post_response userId questionId score) 2000 in
  if negb (ok res) then throw (Error "Failed to submit response")
  else resolve res.

(** [submitResponse], the [catch] block. The clock is read three times:
    for the record's id, for its timestamp ([new Date()]) and, after the
    write, for the id of the acknowledgment. *)
Definition submitResponse_local (userId questionId score : Z)
  : Async W Ack.t :=
  let* responses := Api.read_sel_responses in
  let* id := Date_now in
  let* now := Date_now in
  let responses :=
    (responses ++ [Response.mk (Some id) userId questionId score
                               (toISOString now)])%list in
  localStorage_setItem "sel_responses" (JSON_stringify_responses responses) ;;
  let* id' := Date_now in
  resolve (Ack.mk id' "saved_local").

(** [submitResponse] *)
Definition submitResponse (userId questionId score : Z) : Async W Ack.t :=
  let* r :=
    try_catch
      (let* res := submitResponse_remote userId questionId score in
       resolve (inl res))
      (fun error =>
         let* ack := submitResponse_local userId questionId score in
         resolve (inr ack)) in
  match r with
  | inl res => json res
  | inr ack => resolve ack
  end.
End Gateway.
End Gateway.

(** ** The whole gateway against the backend *)

Module Online.
Definition checkServerHealth : Async Server.Backend bool :=
  Gateway.checkServerHealth Link.api_health.

Definition createUser `{J : JSON} (name avatar grade gender : string)
  : Async Server.Backend User.t :=
  Api.createUser Link.api_login name avatar grade gender.

Definition submitResponse `{J : JSON}
    (JSON_stringify_responses : list Response.t -> string)
    (toISOString : Z -> string) (userId questionId score : Z)
  : Async Server.Backend Ack.t :=
  Gateway.submitResponse JSON_stringify_responses toISOString
    Link.api_response userId questionId score.

Definition fetchAllResponses `{J : JSON} (Date_getTime : string -> option Z)
  : Async Server.Backend (Api.Source * list ApiRow.t) :=
  Api.fetchAllResponses Date_getTime Link.api_admin_responses.

Definition fetchUserResponses `{J : JSON} (Date_getTime : string -> option Z)
    (userId : Z) : Async Server.Backend (Api.Source * list Response.t) :=
  Api.fetchUserResponses Date_getTime Link.api_user_responses userId.
End Online.

(** ** A quiz session ([App.tsx], [ProfileSelector.tsx], [QuestionCard.tsx])

    [handleStart] of the profile screen awaits [createUser] and hands the
    user to the application, which shows the questions one after the
    other; [handleScoreSelect] of a question card calls [submitResponse]
    with the id of that user, the id of the question and the chosen
    score. *)

Module Session.
Section Session.
Context {J : JSON}.
Variable JSON_stringify_responses : list Response.t -> string.
Variable toISOString : Z -> string.

Local Open Scope async_scope.

(** One answer: the question id and the score. *)
Definition answer (userId : Z) (a : Z * Z) : Async Server.Backend Ack.t :=
  Online.submitResponse JSON_stringify_responses toISOString userId a.1 a.2.

Definition run (name avatar grade gender : string) (answers : list (Z * Z))
  : Async Server.Backend User.t :=
  let* user := Online.createUser name avatar grade gender in
  let* acks := for_each (answer (User.id user)) answers in
  resolve user.
End Session.
End Session.

(** The same browser when the backend is reached and answers after
    [latency] milliseconds. *)
Definition reconnected (latency : Z) (b : Browser Server.Backend)
  : Browser Server.Backend :=
  mkBrowser (localStorage b) (clock b) (ticks b)
    (Server.mkBackend (Server.sqlite (world b)) true latency) (requests b).

(** ** The handlers of the dashboard ([components/AdminPanel.tsx]) *)

Module Panel.
(** The messages the handlers raise with [alert]. *)
Inductive Alert :=
  | CannotLoad                       (* in [loadData] *)
  | NothingToSync                    (* in [handleSync] *)
  | Synced (users responses : Z)     (* in [handleSync] *)
  | SyncFailed                       (* in [handleSync] *)
  | Cleared                          (* in [handleClearLocal] *).

(** The state of the component that the handlers set, and the alerts
    raised so far. *)
Record t := mk {
  rawData : list AdminResponseView.t;
  serverOnline : option bool;
  dataSource : option Api.Source;
  alerts : list Alert
}.

Definition alert (p : t) (a : Alert) : t :=
  mk (rawData p) (serverOnline p) (dataSource p) (alerts p ++ [a])%list.

Section Panel.
Context {J : JSON}.
Variable QUESTIONS : list Question.t.
Variable Date_getTime : string -> option Z.

Local Open Scope async_scope.

(** [loadData]: the [try] block awaits twice, and an exception of either
    await ends in the one [catch]. *)
Definition loadData (p : t) : Async Server.Backend t :=
  let* health :=
    try_catch (let* isOnline := Online.checkServerHealth in
               resolve (Some isOnline))
              (fun err => resolve None) in
  match health with
  | None => resolve (alert p CannotLoad)
  | Some isOnline =>
      let p := mk (rawData p) (Some isOnline) (dataSource p) (alerts p) in
      let* fetched :=
        try_catch (let* r := Online.fetchAllResponses Date_getTime in
                   resolve (Some r))
                  (fun err => resolve None) in
      match fetched with
      | None => resolve (alert p CannotLoad)
      | Some (source, apiData) =>
          resolve (mk (map (AdminPanel.enrich QUESTIONS) apiData)
                      (serverOnline p) (Some source) (alerts p))
      end
  end.

(** [handleSync]; the [loadData] it starts runs after its alert. *)
Definition handleSync (p : t) : Async Server.Backend t :=
  let* synced :=
    try_catch (let* result := System.syncLocalToServer in
               resolve (Some result))
              (fun err => resolve None) in
  match synced with
  | None => resolve (alert p SyncFailed)
  | Some result =>
      if (SyncResult.synced_users result =? 0) &&
         (SyncResult.synced_responses result =? 0)
      then resolve (alert p NothingToSync)
      else loadData (alert p (Synced (SyncResult.synced_users result)
                                     (SyncResult.synced_responses result)))
  end.

(** [handleClearLocal], with the answer to [confirm]. The alert is raised
    while the [loadData] it started is waiting for the backend. *)
Definition handleClearLocal (confirmed : bool) (p : t)
  : Async Server.Backend t :=
  if confirmed then
    Api.clearLocalData ;;
    loadData (alert p Cleared)
  else resolve p.
End Panel.
End Panel.

(** ** The text of the export ([exportCSV] in [components/AdminPanel.tsx]) *)

Module Csv.
Definition dquote : ascii := "034"%char.
Definition comma : ascii := ","%char.
Definition LF : ascii := "010"%char.
Definition CR : ascii := "013"%char.

(** The test of [escapeCsvField]: a quote, a comma, a line feed or a
    carriage return. *)
Definition is_delimiter (c : ascii) : bool :=
  Ascii.eqb c dquote || Ascii.eqb c comma || Ascii.eqb c LF || Ascii.eqb c CR.

Fixpoint needs_quotes (stringField : string) : bool :=
  match stringField with
  | EmptyString => false
  | String c s => is_delimiter c || needs_quotes s
  end.

(** The [replace] of [escapeCsvField]: every quote is doubled. *)
Fixpoint double_quotes (stringField : string) : string :=
  match stringField with
  | EmptyString => EmptyString
  | String c s =>
      if Ascii.eqb c dquote then String dquote (String dquote (double_quotes s))
      else String c (double_quotes s)
  end.

(** [escapeCsvField], on [String(field)]; the empty score cell is the
    empty string. *)
Definition escapeCsvField (stringField : string) : string :=
  if needs_quotes stringField
  then String dquote (double_quotes stringField +:+ String dquote EmptyString)
  else stringField.

(** [String(field)] of a number cell. *)
Definition String_of_number (z : Z) : string := MiniJson.print_number z.

(** [Array.prototype.join] *)
Definition join (sep : string) (l : list string) : string :=
  String.concat sep l.

Section Content.
Variable QUESTIONS : list Question.t.

Definition headers : list string :=
  (["User ID"; "Name"; "Grade"; "Gender"; "Last Active Time"] ++
   map (fun id => "Q" +:+ String_of_number id)
       (AdminPanel.allQuestionIds QUESTIONS) ++
   ["Total Score"; "Progress"])%list.

(** The array that a student's line is made of, each cell as the text
    that [String] gives. *)
Definition cells (row : CsvRow.t) : list string :=
  ([String_of_number (CsvRow.user_id row); CsvRow.name row;
    CsvRow.grade row; CsvRow.gender row; CsvRow.last_timestamp row] ++
   map (fun score => match score with
                     | Some z => String_of_number z
                     | None => EmptyString
                     end) (CsvRow.scores row) ++
   [String_of_number (CsvRow.totalScore row); CsvRow.progress row])%list.

Definition line (row : CsvRow.t) : string :=
  join "," (map escapeCsvField (cells row)).

(** The byte order mark, [U+FEFF], as the blob encodes it. *)
Definition BOM : string :=
  String "239"%char (String "187"%char (String "191"%char EmptyString)).

(** [csvContent]; nothing when there is no summary. *)
Definition csvContent (summaries : list StudentSummary.t) : option string :=
  match AdminPanel.exportCSV_rows QUESTIONS summaries with
  | None => None
  | Some rows =>
      Some (BOM +:+ join (String LF EmptyString)
                         (join "," headers :: map line rows))
  end.
End Content.

(** *** A reader for the text

    Fields are separated by commas and records by line feeds; a field in
    quotes runs to its closing quote, and a doubled quote inside it stands
    for one quote. *)

(** The field after its opening quote, and the text after its closing
    quote. *)
Fixpoint read_quoted (s : string) : option (string * string) :=
  match s with
  | EmptyString => None
  | String c s' =>
      if Ascii.eqb c dquote then
        match s' with
        | String c' s'' =>
            if Ascii.eqb c' dquote then
              match read_quoted s'' with
              | Some (f, rest) => Some (String dquote f, rest)
              | None => None
              end
            else Some (EmptyString, s')
        | EmptyString => Some (EmptyString, EmptyString)
        end
      else
        match read_quoted s' with
        | Some (f, rest) => Some (String c f, rest)
        | None => None
        end
  end.

Fixpoint read_plain (s : string) : string * string :=
  match s with
  | EmptyString => (EmptyString, EmptyString)
  | String c s' =>
      if Ascii.eqb c comma || Ascii.eqb c LF then (EmptyString, s)
      else let '(f, rest) := read_plain s' in (String c f, rest)
  end.

Definition read_field (s : string) : option (string * string) :=
  match s with
  | String c s' => if Ascii.eqb c dquote then read_quoted s'
                   else Some (read_plain s)
  | EmptyString => Some (EmptyString, EmptyString)
  end.

Fixpoint read_records (fuel : nat) (s : string)
  : option (list (list string)) :=
  match fuel with
  | O => None
  | S fuel' =>
      match read_field s with
      | None => None
      | Some (f, rest) =>
          match rest with
          | EmptyString => Some [[f]]
          | String c rest' =>
              if Ascii.eqb c comma then
                match read_records fuel' rest' with
                | Some (r :: rs) => Some ((f :: r) :: rs)
                | _ => None
                end
              else if Ascii.eqb c LF then
                match read_records fuel' rest' with
                | Some rs => Some ([f] :: rs)
                | None => None
                end
              else None
          end
      end
  end.

Definition read (s : string) : option (list (list string)) :=
  read_records (S (String.length s)) s.

(** A text that ends a field: nothing, or a comma or a line feed first. *)
Definition field_ends (rest : string) : Prop :=
  match rest with
  | EmptyString => True
  | String c _ => Ascii.eqb c comma || Ascii.eqb c LF = true
  end.

(** The text of a table: the cells of a record joined by commas, the
    records by line feeds. *)
Definition render_table (table : list (list string)) : string :=
  join (String LF EmptyString)
       (map (fun record => join "," (map escapeCsvField record)) table).

(** Tables with at least one record, and at least one cell in each. *)
Inductive proper : list (list string) -> Prop :=
  | proper_cell f : proper [[f]]
  | proper_record f r rs : proper (r :: rs) -> proper ([f] :: r :: rs)
  | proper_field f f1 r rs :
      proper ((f1 :: r) :: rs) -> proper ((f :: f1 :: r) :: rs).
End Csv.

(** ** The application shell ([App.tsx]) *)

Module App.
(** [AppState] of [types.ts]. *)
Inductive AppState := PROFILE | QUIZ | COMPLETED | ADMIN.

Definition AppState_eqb (a b : AppState) : bool :=
  match a, b with
  | PROFILE, PROFILE | QUIZ, QUIZ | COMPLETED, COMPLETED | ADMIN, ADMIN => true
  | _, _ => false
  end.

(** The three state variables of the component, and
    [window.location.hash]. *)
Record t := mk {
  appState : AppState;
  currentUser : option User.t;
  currentQuestionIndex : Z;
  hash : string
}.

Inductive Screen :=
  | AdminScreen
  | CompletedScreen
  | QuestionScreen (question : option Question.t) (userId : Z)
                   (progress total : Z)
  | ProfileScreen.

Inductive Event :=
  | UserCreated (user : User.t)   (* [onUserCreated] of the profile screen *)
  | NextQuestion                  (* [onNext] of a question card *)
  | ResetClicked                  (* the button of the completed screen *)
  | HashChange (hash : string)    (* the [hashchange] event *).

Section App.
Variable QUESTIONS : list Question.t.

Definition handleUserCreated (user : User.t) (s : t) : t :=
  mk QUIZ (Some user) (currentQuestionIndex s) (hash s).

Definition handleNextQuestion (s : t) : t :=
  if currentQuestionIndex s <? Z.of_nat (length QUESTIONS) - 1
  then mk (appState s) (currentUser s) (currentQuestionIndex s + 1) (hash s)
  else mk COMPLETED (currentUser s) (currentQuestionIndex s) (hash s).

Definition resetApp (s : t) : t := mk PROFILE None 0 (hash s).

Definition handleHashChange (s : t) : t :=
  if String.eqb (hash s) "#admin"
  then mk ADMIN (currentUser s) (currentQuestionIndex s) (hash s)
  else
    match appState s with
    | ADMIN => mk PROFILE (currentUser s) (currentQuestionIndex s) (hash s)
    | _ => s
    end.

(** The effect with the dependency [appState]: after a render in which
    [appState] has changed, the hash is looked at again; [fuel] bounds
    the number of such renders. *)
Fixpoint effect (fuel : nat) (before after : t) : t :=
  match fuel with
  | O => after
  | S fuel' =>
      if AppState_eqb (appState before) (appState after) then after
      else effect fuel' after (handleHashChange after)
  end.

(** The first render: the effect runs once in any case. *)
Definition mount (fuel : nat) (hash : string) : t :=
  let s := mk PROFILE None 0 hash in
  effect fuel s (handleHashChange s).

Definition handle (e : Event) (s : t) : t :=
  match e with
  | UserCreated user => handleUserCreated user s
  | NextQuestion => handleNextQuestion s
  | ResetClicked => resetApp s
  | HashChange h =>
      handleHashChange
        (mk (appState s) (currentUser s) (currentQuestionIndex s) h)
  end.

Definition step (fuel : nat) (s : t) (e : Event) : t :=
  effect fuel s (handle e s).

Definition run_events (fuel : nat) (events : list Event) (s : t) : t :=
  fold_left (step fuel) events s.

(** What holds of the state between two events. *)
Definition settled (s : t) : Prop :=
  (appState s = ADMIN <-> hash s = "#admin") /\
  (0 <= currentQuestionIndex s /\
   (currentQuestionIndex s = 0 \/
    currentQuestionIndex s < Z.of_nat (length QUESTIONS))) /\
  (appState s = QUIZ -> is_Some (currentUser s)).

(** The render logic; [QUESTIONS[currentQuestionIndex]] may be
    undefined. *)
Definition render (s : t) : Screen :=
  match appState s with
  | ADMIN => AdminScreen
  | COMPLETED => CompletedScreen
  | QUIZ =>
      match currentUser s with
      | Some user =>
          QuestionScreen
            (if currentQuestionIndex s <? 0 then None
             else nth_error QUESTIONS (Z.to_nat (currentQuestionIndex s)))
            (User.id user) (currentQuestionIndex s + 1)
            (Z.of_nat (length QUESTIONS))
      | None => ProfileScreen
      end
  | PROFILE => ProfileScreen
  end.
End App.
End App.

(** ** Vocabulary of the further statements *)

(** Both timestamps are valid dates and the first is not older than the
    second. *)
Definition not_older (Date_getTime : string -> option Z) (ta tb : string)
  : Prop :=
  exists a b, Date_getTime ta = Some a /\ Date_getTime tb = Some b /\ b <= a.

Definition valid_date (Date_getTime : string -> option Z) (t : string)
  : Prop :=
  is_Some (Date_getTime t).

(** The keys of each table are pairwise distinct. *)
Definition keys_distinct (db : Server.Sqlite) : Prop :=
  NoDup (map UserRow.id (Server.users db)) /\
  NoDup (map ResponseRow.id (Server.responses db)).

(** [db'] holds the rows of [db], unchanged and in front, and possibly
    further rows behind them. *)
Definition grown (db db' : Server.Sqlite) : Prop :=
  Server.users db `prefix_of` Server.users db' /\
  Server.responses db `prefix_of` Server.responses db'.

(** What a handler may do to the database. *)
Definition step_ok (db db' : Server.Sqlite) : Prop :=
  grown db db' /\ (keys_distinct db -> keys_distinct db').

(** ** More of the concrete platform, and further sample data *)

Module IsoText.
(** The day of the proleptic Gregorian calendar that is [z] days after
    1970-01-01: year, month, day. *)
Definition civil_from_days (z : Z) : Z * Z * Z :=
  let z := z + 719468 in
  let era := z / 146097 in
  let doe := z - era * 146097 in
  let yoe := (doe - doe / 1460 + doe / 36524 - doe / 146096) / 365 in
  let doy := doe - (365 * yoe + yoe / 4 - yoe / 100) in
  let mp := (5 * doy + 2) / 153 in
  let d := doy - (153 * mp + 2) / 5 + 1 in
  let m := if mp <? 10 then mp + 3 else mp - 9 in
  let y := yoe + era * 400 in
  (if m <=? 2 then y + 1 else y, m, d).

Definition digit_char (z : Z) : ascii := ascii_of_nat (48 + Z.to_nat (z mod 10)).

(** The last [n] decimal digits of [z], in front of [rest]. *)
Fixpoint digits (n : nat) (z : Z) (rest : string) : string :=
  match n with
  | O => rest
  | S n' => digits n' (z / 10) (String (digit_char z) rest)
  end.

(** [new Date(ms).toISOString()], for the years 0000 to 9999. *)
Definition toISOString (ms : Z) : string :=
  let days := ms / 86400000 in
  let rest := ms mod 86400000 in
  let '(y, m, d) := civil_from_days days in
  digits 4 y "-" +:+ digits 2 m "-" +:+ digits 2 d "T" +:+
  digits 2 (rest / 3600000) ":" +:+ digits 2 (rest / 60000 mod 60) ":" +:+
  digits 2 (rest / 1000 mod 60) "." +:+ digits 3 (rest mod 1000) "Z".
End IsoText.

Module Fixture.

(** A backend that cannot be reached, one that answers after 3500 ms and
    one that answers after 12 s. *)
Definition backend_down : Server.Backend :=
  Server.mkBackend Sample.sqlite false 120.
Definition backend_slow : Server.Backend :=
  Server.mkBackend Sample.sqlite true 3500.
Definition backend_late : Server.Backend :=
  Server.mkBackend Sample.sqlite true 12000.

(** A database with two users and three responses; the last response
    names a user id that is no key. *)
Definition sqlite_filled : Server.Sqlite :=
  Server.mkSqlite
    [UserRow.mk 1 "Amy" "🐱" "3" "F" "2024-03-01 09:00:00";
     UserRow.mk 2 "Ben" "🐶" "4" "M" "2024-03-01 09:05:00"]
    [ResponseRow.mk 1 1 2 5 "2024-03-01 09:01:00";
     ResponseRow.mk 2 2 1 4 "2024-03-01 09:06:00";
     ResponseRow.mk 3 9 1 3 "2024-03-01 09:07:00"]
    "2024-03-02 08:00:00" [].

(** Rows of two students, newest first; Amy answered question 1 twice. *)
Definition rows_newest_first : list AdminResponseView.t :=
  [AdminResponseView.mk 2 "Ben" "" "4" "M" 1 "I feel happy at school" 4
     "2024-03-01T09:10:00.000Z";
   AdminResponseView.mk 1 "Amy" "🐱" "3" "F" 1 "I feel happy at school" 5
     Sample.T2;
   AdminResponseView.mk 1 "Amelia" "🐱" "3" "F" 1 "I feel happy at school" 2
     Sample.T1].

(** A student whose name needs quotes in the export. *)
Definition summary_quoted : StudentSummary.t :=
  StudentSummary.mk 7 (String "O" (String "034" ", Amy")) "🐱" "3" "F"
    [(1, 5); (3, 2)] Sample.T2.


(** A store that holds the sample users and no item for the responses. *)
Definition store_users_only : gmap string string :=
  <["sel_users" := MiniJson.print_array MiniJson.print_user
                     Sample.local_users]> ∅.

(** A sync route that accepts every body, 120 ms after the request. *)
Definition sync_accepted (users : list User.t) (responses : list Response.t)
    (w : unit) : Outcome SyncResult.t * unit :=
  (Reply 120
     (mkResponse 200
        (Json (SyncResult.mk (Some "synced") (Z.of_nat (length users))
                             (Z.of_nat (length responses))))), w).

(** The session of a student who answers the three sample questions. *)
Definition answers : list (Z * Z) := [(1, 5); (2, 3); (3, 4)].
End Fixture.

(** * Properties *)

(** ** Reading the local store *)

Section LocalStore.
Context {J : JSON} {W : Type}.
Implicit Types b : Browser W.

Lemma read_sel_users_eq b :
  Api.read_sel_users b =
  (match pending_users (localStorage b) with
   | Some us => Ok us
   | None => Throw SyntaxError
   end, b).
Proof.
  unfold Api.read_sel_users, await, localStorage_getItem, JSON_parse,
    pending_users.
  destruct (JSON_parse_users _); reflexivity.
Qed.

Lemma read_sel_responses_eq b :
  Api.read_sel_responses b =
  (match pending_responses (localStorage b) with
   | Some rs => Ok rs
   | None => Throw SyntaxError
   end, b).
Proof.
  unfold Api.read_sel_responses, await, localStorage_getItem, JSON_parse,
    pending_responses.
  destruct (JSON_parse_responses _); reflexivity.
Qed.

Lemma pending_users_absent (store : gmap string string) :
  JSON_lawful J ->
  store !! "sel_users" = None \/ store !! "sel_users" = Some "" ->
  pending_users store = Some [].
Proof.
  intros HJ [H | H]; unfold pending_users; rewrite H; simpl;
    apply (parse_users_empty J HJ).
Qed.

Lemma pending_responses_absent (store : gmap string string) :
  JSON_lawful J ->
  store !! "sel_responses" = None \/ store !! "sel_responses" = Some "" ->
  pending_responses store = Some [].
Proof.
  intros HJ [H | H]; unfold pending_responses; rewrite H; simpl;
    apply (parse_responses_empty J HJ).
Qed.

Lemma pending_users_corrupt (store : gmap string string) text :
  store !! "sel_users" = Some text -> text <> "" ->
  JSON_parse_users text = None ->
  pending_users store = None.
Proof.
  intros H Hne Hp. unfold pending_users. rewrite H. simpl.
  destruct text; [congruence | exact Hp].
Qed.

Lemma pending_responses_corrupt (store : gmap string string) text :
  store !! "sel_responses" = Some text -> text <> "" ->
  JSON_parse_responses text = None ->
  pending_responses store = None.
Proof.
  intros H Hne Hp. unfold pending_responses. rewrite H. simpl.
  destruct text; [congruence | exact Hp].
Qed.
End LocalStore.

(** Rewriting with the equations of the two reads and running the monad. *)
Ltac run_async :=
  unfold await, try_catch, resolve, throw in *;
  repeat (rewrite ?read_sel_users_eq, ?read_sel_responses_eq in *; simpl in *).

(** ** The sync reconciler on an empty store *)

Section SyncNoop.
Context {J : JSON} {W : Type}.
Variable post_sync :
  list User.t -> list Response.t -> W -> Outcome SyncResult.t * W.

Lemma sync_nothing_pending (b : Browser W) :
  pending_users (localStorage b) = Some [] ->
  pending_responses (localStorage b) = Some [] ->
  Api.syncLocalToServer post_sync b = (Ok (SyncResult.mk None 0 0), b).
Proof.
  intros Hu Hr. unfold Api.syncLocalToServer. run_async.
  rewrite Hu. simpl. rewrite Hr. reflexivity.
Qed.

(** C4. When both local collections are empty the reconciler answers
    [{synced_users: 0, synced_responses: 0}] and leaves the browser state
    as it was: no request is logged and the world behind the network is
    not touched. A second run from there does the same. *)
Theorem sync_empty_store_is_idempotent_noop (b : Browser W) :
  pending_users (localStorage b) = Some [] ->
  pending_responses (localStorage b) = Some [] ->
  let '(first, b1) := Api.syncLocalToServer post_sync b in
  let '(second, b2) := Api.syncLocalToServer post_sync b1 in
  first = Ok (SyncResult.mk None 0 0) /\
  second = Ok (SyncResult.mk None 0 0) /\
  requests b1 = requests b /\ world b1 = world b /\
  requests b2 = requests b1 /\ world b2 = world b1 /\
  b2 = b.
Proof.
  intros Hu Hr.
  rewrite (sync_nothing_pending b Hu Hr).
  rewrite (sync_nothing_pending b Hu Hr).
  repeat split.
Qed.
End SyncNoop.

(** ** The two read operations: deadlines and fallback *)

Section Reads.
Context {J : JSON} {W : Type}.
Variable Date_getTime : string -> option Z.
Variable get_admin_responses : W -> Outcome (list ApiRow.t) * W.
Variable get_user_responses : Z -> W -> Outcome (list Response.t) * W.
Implicit Types b : Browser W.

Lemma fetchWithTimeout_log {A} url (send : W -> Outcome A * W) timeout b :
  requests (snd (fetchWithTimeout url send timeout b)) =
    (requests b ++ [(url, timeout)])%list /\
  localStorage (snd (fetchWithTimeout url send timeout b)) = localStorage b.
Proof.
  unfold fetchWithTimeout. destruct (send (world b)) as [[|l res] w'];
    simpl; [auto|]. destruct (l <? timeout); auto.
Qed.

Lemma fetchWithTimeout_result {A} url (send : W -> Outcome A * W) timeout b :
  fst (fetchWithTimeout url send timeout b) =
  match fst (send (world b)) with
  | NetworkError => Throw FetchFailed
  | Reply l res => if l <? timeout then Ok res else Throw AbortError
  end.
Proof.
  unfold fetchWithTimeout. destruct (send (world b)) as [[|l res] w'];
    simpl; [auto|]. destruct (l <? timeout); auto.
Qed.

(** The local blocks neither log a request nor change the state. *)
Lemma fetchAllResponses_local_state b :
  snd (Api.fetchAllResponses_local Date_getTime b) = b.
Proof.
  unfold Api.fetchAllResponses_local. run_async.
  destruct (pending_users _); simpl; [|reflexivity].
  destruct (pending_responses _); reflexivity.
Qed.

Lemma fetchUserResponses_local_state userId b :
  snd (Api.fetchUserResponses_local Date_getTime userId b) = b.
Proof.
  unfold Api.fetchUserResponses_local. run_async.
  destruct (pending_responses _); reflexivity.
Qed.

Lemma fetchAllResponses_remote_state b :
  requests (snd (Api.fetchAllResponses_remote get_admin_responses b)) =
    (requests b ++ [(ep_admin_responses, 5000)])%list /\
  localStorage (snd (Api.fetchAllResponses_remote get_admin_responses b)) =
    localStorage b.
Proof.
  unfold Api.fetchAllResponses_remote, await.
  pose proof (fetchWithTimeout_log ep_admin_responses
                get_admin_responses 5000 b) as H.
  destruct (fetchWithTimeout _ _ _ b) as [[res|e] b1]; simpl in *; [|exact H].
  destruct (negb (ok res)); simpl; [exact H|].
  unfold json. destruct (body res); exact H.
Qed.

Lemma fetchUserResponses_remote_state userId b :
  requests (snd (Api.fetchUserResponses_remote get_user_responses userId b)) =
    (requests b ++ [(ep_user_responses userId, 3000)])%list /\
  localStorage
    (snd (Api.fetchUserResponses_remote get_user_responses userId b)) =
    localStorage b.
Proof.
  unfold Api.fetchUserResponses_remote, await.
  pose proof (fetchWithTimeout_log (ep_user_responses userId)
                (get_user_responses userId) 3000 b) as H.
  destruct (fetchWithTimeout _ _ _ b) as [[res|e] b1]; simpl in *; [|exact H].
  destruct (negb (ok res)); simpl; [exact H|].
  unfold json. destruct (body res); exact H.
Qed.

(** What the remote block of each read returns for an answer that comes
    after [l] milliseconds with a success status and a well-formed body. *)
Lemma fetchAllResponses_remote_reply b l res w' data :
  get_admin_responses (world b) = (Reply l res, w') ->
  ok res = true -> body res = Json data ->
  fst (Api.fetchAllResponses_remote get_admin_responses b) =
    if l <? 5000 then Ok (Api.DB, data) else Throw AbortError.
Proof.
  intros Hs Hok Hb. unfold Api.fetchAllResponses_remote, await,
    fetchWithTimeout. rewrite Hs. destruct (l <? 5000); [|reflexivity].
  rewrite Hok. simpl. unfold json. rewrite Hb. reflexivity.
Qed.

Lemma fetchUserResponses_remote_reply userId b l res w' data :
  get_user_responses userId (world b) = (Reply l res, w') ->
  ok res = true -> body res = Json data ->
  fst (Api.fetchUserResponses_remote get_user_responses userId b) =
    if l <? 3000 then Ok (Api.DB, data) else Throw AbortError.
Proof.
  intros Hs Hok Hb. unfold Api.fetchUserResponses_remote, await,
    fetchWithTimeout. rewrite Hs. destruct (l <? 3000); [|reflexivity].
  rewrite Hok. simpl. unfold json. rewrite Hb. reflexivity.
Qed.

(** C6, as the code has it. Fetch-all-responses gives the remote 5000 ms
    and fetch-one-user's-responses gives it 3000 ms: each issues exactly
    one request, with that deadline, and an answer with a success status
    and a well-formed body is returned as remote data exactly when it
    arrives before the deadline; otherwise the local block runs. *)
Theorem read_deadlines b userId :
  (requests
     (snd (Api.fetchAllResponses Date_getTime get_admin_responses b)) =
     (requests b ++ [(ep_admin_responses, 5000)])%list /\
   requests
     (snd (Api.fetchUserResponses Date_getTime get_user_responses userId b)) =
     (requests b ++ [(ep_user_responses userId, 3000)])%list) /\
  (forall l res w' data,
     get_admin_responses (world b) = (Reply l res, w') ->
     ok res = true -> body res = Json data ->
     (l < 5000 ->
      fst (Api.fetchAllResponses Date_getTime get_admin_responses b) =
        Ok (Api.DB, data)) /\
     (5000 <= l ->
      exists b1,
        Api.fetchAllResponses Date_getTime get_admin_responses b =
        Api.fetchAllResponses_local Date_getTime b1)) /\
  (forall l res w' data,
     get_user_responses userId (world b) = (Reply l res, w') ->
     ok res = true -> body res = Json data ->
     (l < 3000 ->
      fst (Api.fetchUserResponses Date_getTime get_user_responses userId b) =
        Ok (Api.DB, data)) /\
     (3000 <= l ->
      exists b1,
        Api.fetchUserResponses Date_getTime get_user_responses userId b =
        Api.fetchUserResponses_local Date_getTime userId b1)).
Proof.
  split; [split|split].
  - unfold Api.fetchAllResponses, try_catch.
    pose proof (fetchAllResponses_remote_state b) as [Hq _].
    destruct (Api.fetchAllResponses_remote _ b) as [[v|e] b1]; simpl in *;
      [exact Hq|].
    rewrite fetchAllResponses_local_state. exact Hq.
  - unfold Api.fetchUserResponses, try_catch.
    pose proof (fetchUserResponses_remote_state userId b) as [Hq _].
    destruct (Api.fetchUserResponses_remote _ _ b) as [[v|e] b1];
      simpl in *; [exact Hq|].
    rewrite fetchUserResponses_local_state. exact Hq.
  - intros l res w' data Hs Hok Hb.
    pose proof (fetchAllResponses_remote_reply b l res w' data Hs Hok Hb)
      as Hr.
    unfold Api.fetchAllResponses, try_catch.
    destruct (Api.fetchAllResponses_remote _ b) as [[v|e] b1]; simpl in *;
      split; intros Hl.
    + destruct (Z.ltb_spec l 5000); [congruence | lia].
    + destruct (Z.ltb_spec l 5000); [lia | congruence].
    + destruct (Z.ltb_spec l 5000); [congruence | lia].
    + exists b1. reflexivity.
  - intros l res w' data Hs Hok Hb.
    pose proof (fetchUserResponses_remote_reply userId b l res w' data
                  Hs Hok Hb) as Hr.
    unfold Api.fetchUserResponses, try_catch.
    destruct (Api.fetchUserResponses_remote _ _ b) as [[v|e] b1];
      simpl in *; split; intros Hl.
    + destruct (Z.ltb_spec l 3000); [congruence | lia].
    + destruct (Z.ltb_spec l 3000); [lia | congruence].
    + destruct (Z.ltb_spec l 3000); [congruence | lia].
    + exists b1. reflexivity.
Qed.
End Reads.

(** ** Absent and unparseable local collections *)

Section MalformedStore.
Context {J : JSON} {W : Type}.
Variable Date_getTime : string -> option Z.
Variable get_admin_responses : W -> Outcome (list ApiRow.t) * W.
Variable get_user_responses : Z -> W -> Outcome (list Response.t) * W.
Variable post_sync :
  list User.t -> list Response.t -> W -> Outcome SyncResult.t * W.
Implicit Types b : Browser W.

(** Once the remote block has thrown, a read operation is its local block
    run on the state the remote block left. *)
Lemma fetchAllResponses_fallback b e b1 :
  Api.fetchAllResponses_remote get_admin_responses b = (Throw e, b1) ->
  Api.fetchAllResponses Date_getTime get_admin_responses b =
    Api.fetchAllResponses_local Date_getTime b1 /\
  localStorage b1 = localStorage b.
Proof.
  intros H. unfold Api.fetchAllResponses, try_catch. rewrite H. split; [done|].
  pose proof (fetchAllResponses_remote_state get_admin_responses b) as [_ Hs].
  rewrite H in Hs. exact Hs.
Qed.

Lemma fetchUserResponses_fallback userId b e b1 :
  Api.fetchUserResponses_remote get_user_responses userId b = (Throw e, b1) ->
  Api.fetchUserResponses Date_getTime get_user_responses userId b =
    Api.fetchUserResponses_local Date_getTime userId b1 /\
  localStorage b1 = localStorage b.
Proof.
  intros H. unfold Api.fetchUserResponses, try_catch. rewrite H.
  split; [done|].
  pose proof (fetchUserResponses_remote_state get_user_responses userId b)
    as [_ Hs].
  rewrite H in Hs. exact Hs.
Qed.

Lemma fetchAllResponses_local_eq b :
  Api.fetchAllResponses_local Date_getTime b =
  (match pending_users (localStorage b), pending_responses (localStorage b) with
   | Some users, Some responses =>
       Ok (Api.LOCAL,
           Array_sort (fun x y => Api.newest_first Date_getTime
                                    (ApiRow.timestamp x) (ApiRow.timestamp y))
             (map (Api.join_row users) responses))
   | _, _ => Throw SyntaxError
   end, b).
Proof.
  unfold Api.fetchAllResponses_local. run_async.
  destruct (pending_users _); simpl; [|reflexivity].
  destruct (pending_responses _); reflexivity.
Qed.

Lemma fetchUserResponses_local_eq userId b :
  Api.fetchUserResponses_local Date_getTime userId b =
  (match pending_responses (localStorage b) with
   | Some responses =>
       Ok (Api.LOCAL,
           Array_sort (fun x y => Api.newest_first Date_getTime
                                    (Response.timestamp x)
                                    (Response.timestamp y))
             (List.filter (fun r => Response.user_id r =? userId) responses))
   | None => Throw SyntaxError
   end, b).
Proof.
  unfold Api.fetchUserResponses_local. run_async.
  destruct (pending_responses _); reflexivity.
Qed.

Lemma sync_unreadable_store b :
  pending_users (localStorage b) = None \/
  pending_responses (localStorage b) = None ->
  Api.syncLocalToServer post_sync b = (Throw SyntaxError, b).
Proof.
  intros H. unfold Api.syncLocalToServer. run_async.
  destruct (pending_users _); simpl; [|reflexivity].
  destruct (pending_responses _); simpl; [|reflexivity].
  destruct H; discriminate.
Qed.

(** The reconciler reads the store through the two collections only. *)
Lemma syncLocalToServer_eq b :
  Api.syncLocalToServer post_sync b =
  match pending_users (localStorage b),
        pending_responses (localStorage b) with
  | Some users, Some responses =>
      if (length users =? 0)%nat && (length responses =? 0)%nat
      then (Ok (SyncResult.mk None 0 0), b)
      else
        (let* res := fetchWithTimeout ep_sync (post_sync users responses)
                       10000 in
         if negb (ok res) then throw (Error "Sync failed")
         else
           let* result := json res in
           localStorage_removeItem "sel_users" ;;
           localStorage_removeItem "sel_responses" ;;
           resolve result)%async b
  | _, _ => (Throw SyntaxError, b)
  end.
Proof.
  unfold Api.syncLocalToServer.
  unfold await at 1. rewrite read_sel_users_eq.
  destruct (pending_users (localStorage b)) as [users|]; [|reflexivity].
  unfold await at 1. rewrite read_sel_responses_eq.
  destruct (pending_responses (localStorage b)) as [responses|];
    [|reflexivity].
  destruct (_ && _); reflexivity.
Qed.

(** C7, as the code has it. Each collection is read on its own: when its
    item is missing from the store (or is the empty string) it reads as
    the empty collection, whatever the other collection holds, and when
    [JSON.parse] rejects its text it does not read at all. Take a browser
    in which the remote block of both read operations throws. Each of the
    three operations that read the store then works on what the
    collections read as: fetch-all-responses returns the local join of the
    two, fetch-one-user's-responses the selection from the responses, and
    the reconciler returns the zero result or uploads the two; so a
    missing collection takes part as an empty one. A collection that does
    not read makes every operation that reads it throw the [SyntaxError]:
    nothing in the gateway catches it. *)
Theorem absent_collection_is_empty_unparseable_throws
    b userId e1 b1 e2 b2 :
  JSON_lawful J ->
  Api.fetchAllResponses_remote get_admin_responses b = (Throw e1, b1) ->
  Api.fetchUserResponses_remote get_user_responses userId b = (Throw e2, b2) ->
  let store := localStorage b in
  ((item_absent store "sel_users" -> pending_users store = Some []) /\
   (item_absent store "sel_responses" -> pending_responses store = Some []) /\
   (forall text,
      store !! "sel_users" = Some text -> text <> "" ->
      JSON_parse_users text = None -> pending_users store = None) /\
   (forall text,
      store !! "sel_responses" = Some text -> text <> "" ->
      JSON_parse_responses text = None -> pending_responses store = None)) /\
  Api.fetchAllResponses Date_getTime get_admin_responses b =
    (match pending_users store, pending_responses store with
     | Some users, Some responses =>
         Ok (Api.LOCAL,
             Array_sort (fun x y => Api.newest_first Date_getTime
                                      (ApiRow.timestamp x)
                                      (ApiRow.timestamp y))
               (map (Api.join_row users) responses))
     | _, _ => Throw SyntaxError
     end, b1) /\
  Api.fetchUserResponses Date_getTime get_user_responses userId b =
    (match pending_responses store with
     | Some responses =>
         Ok (Api.LOCAL,
             Array_sort (fun x y => Api.newest_first Date_getTime
                                      (Response.timestamp x)
                                      (Response.timestamp y))
               (List.filter (fun r => Response.user_id r =? userId)
                            responses))
     | None => Throw SyntaxError
     end, b2) /\
  Api.syncLocalToServer post_sync b =
    match pending_users store, pending_responses store with
    | Some users, Some responses =>
        if (length users =? 0)%nat && (length responses =? 0)%nat
        then (Ok (SyncResult.mk None 0 0), b)
        else
          (let* res := fetchWithTimeout ep_sync (post_sync users responses)
                         10000 in
           if negb (ok res) then throw (Error "Sync failed")
           else
             let* result := json res in
             localStorage_removeItem "sel_users" ;;
             localStorage_removeItem "sel_responses" ;;
             resolve result)%async b
    | _, _ => (Throw SyntaxError, b)
    end.
Proof.
  intros HJ H1 H2 store.
  destruct (fetchAllResponses_fallback b e1 b1 H1) as [Ha Hsa].
  destruct (fetchUserResponses_fallback userId b e2 b2 H2) as [Hu Hsu].
  split_and!.
  - apply (pending_users_absent _ HJ).
  - apply (pending_responses_absent _ HJ).
  - apply pending_users_corrupt.
  - apply pending_responses_corrupt.
  - rewrite Ha, fetchAllResponses_local_eq, Hsa. reflexivity.
  - rewrite Hu, fetchUserResponses_local_eq, Hsu. reflexivity.
  - apply syncLocalToServer_eq.
Qed.
End MalformedStore.

(** ** Creating users while the remote is unreachable *)

Section OfflineUsers.
Context {J : JSON} {W : Type}.
Variable post_login :
  string -> string -> string -> string -> W -> Outcome User.t * W.
Implicit Types b : Browser W.

Hypothesis lawful : JSON_lawful J.
Hypothesis unreachable :
  forall name avatar grade gender w,
    fst (post_login name avatar grade gender w) = NetworkError.

Lemma pending_users_setItem (store : gmap string string) us :
  pending_users (<["sel_users" := JSON_stringify_users us]> store) = Some us.
Proof.
  unfold pending_users. rewrite lookup_insert_eq. simpl.
  pose proof (stringify_users_nonempty J lawful us) as Hne.
  destruct (JSON_stringify_users us) eqn:E; [congruence|].
  simpl. rewrite <- E. apply (parse_stringify_users J lawful).
Qed.

(** One call: the new user's id is the clock reading of the call, and the
    user is appended to the stored collection. *)
Lemma createUser_offline b p us :
  pending_users (localStorage b) = Some us ->
  exists b',
    createUser_from post_login p b =
      (Ok (User.mk (clock b (ticks b)) (Profile.name p) (Profile.avatar p)
                   (Profile.grade p) (Profile.gender p)), b') /\
    pending_users (localStorage b') =
      Some (us ++ [User.mk (clock b (ticks b)) (Profile.name p)
                     (Profile.avatar p) (Profile.grade p)
                     (Profile.gender p)])%list /\
    clock b' = clock b /\ ticks b' = S (ticks b).
Proof.
  intros Hus.
  unfold createUser_from, Api.createUser, Api.createUser_remote,
    Api.createUser_local, fetchWithTimeout.
  pose proof (unreachable (Profile.name p) (Profile.avatar p)
                (Profile.grade p) (Profile.gender p) (world b)) as Hn.
  run_async.
  destruct (post_login _ _ _ _ (world b)) as [o w']. simpl in Hn. subst o.
  simpl. rewrite read_sel_users_eq. simpl. rewrite Hus. simpl.
  eexists. split; [reflexivity|]. simpl.
  split; [apply pending_users_setItem | split; reflexivity].
Qed.

Lemma createUsers_offline profiles : forall b us,
  pending_users (localStorage b) = Some us ->
  exists created b',
    for_each (createUser_from post_login) profiles b = (Ok created, b') /\
    pending_users (localStorage b') = Some (us ++ created)%list /\
    map User.id created =
      map (clock b) (seq (ticks b) (length profiles)) /\
    clock b' = clock b /\ ticks b' = (ticks b + length profiles)%nat.
Proof.
  induction profiles as [|p profiles IH]; intros b us Hus.
  - exists [], b. simpl. rewrite app_nil_r.
    repeat split; [exact Hus | lia].
  - destruct (createUser_offline b p us Hus) as (b1 & Hrun & Hst & Hc & Ht).
    destruct (IH b1 _ Hst) as (created & b' & Hrest & Hst' & Hids & Hc' & Ht').
    eexists (_ :: created), b'. simpl. unfold await.
    rewrite Hrun, Hrest. unfold resolve.
    split; [reflexivity|]. split; [|split; [|split]].
    + rewrite Hst'. rewrite <- app_assoc. reflexivity.
    + simpl. rewrite Hids, Hc, Ht. reflexivity.
    + congruence.
    + rewrite Ht', Ht. simpl. lia.
Qed.

(** C8, as the code has it. With the remote unreachable, a run of
    create-user calls appends one user per call to the local collection,
    and the id of each is the reading of [Date.now()] taken by its call.
    The ids of the collection are therefore pairwise distinct exactly when
    the ids stored before and these readings are. *)
Theorem offline_user_ids_are_clock_readings b profiles us :
  pending_users (localStorage b) = Some us ->
  exists created b',
    for_each (createUser_from post_login) profiles b = (Ok created, b') /\
    pending_users (localStorage b') = Some (us ++ created)%list /\
    map User.id created =
      map (clock b) (seq (ticks b) (length profiles)) /\
    (NoDup (map User.id (us ++ created)) <->
     NoDup (map User.id us ++
            map (clock b) (seq (ticks b) (length profiles)))).
Proof.
  intros Hus.
  destruct (createUsers_offline profiles b us Hus)
    as (created & b' & Hrun & Hst & Hids & _ & _).
  exists created, b'. repeat split; try assumption;
    rewrite map_app, Hids; trivial.
Qed.
End OfflineUsers.

(** ** The sync route: the two phases *)

Section SyncRoute.
Import Server.

Lemma next_rowid_pos ids : 0 < next_rowid ids.
Proof.
  unfold next_rowid.
  assert (0 <= foldr Z.max 0 ids) by (induction ids; simpl; lia). lia.
Qed.

Lemma fault_free_0 db : fault_free 0 db.
Proof. unfold fault_free. rewrite take_0. constructor. Qed.

Lemma fault_free_S n db :
  fault_free (S n) db <->
  (next_fault db).1 = None /\ fault_free n (next_fault db).2.
Proof.
  unfold fault_free, next_fault.
  destruct (faults db) as [|f fs] eqn:E; simpl; rewrite ?E.
  - rewrite take_nil. split; [intros _; split; [done|constructor] | constructor].
  - rewrite Forall_cons. reflexivity.
Qed.

Lemma fault_free_app n m db :
  fault_free (n + m) db <->
  fault_free n db /\
  Forall (fun f => f = None) (take m (drop n (faults db))).
Proof.
  unfold fault_free. rewrite <- Forall_app.
  rewrite <- (take_drop n (take (n + m) (faults db))) at 1.
  rewrite take_take, skipn_firstn_comm.
  replace (n `min` (n + m))%nat with n by lia.
  replace (n + m - n)%nat with m by lia. reflexivity.
Qed.

(** One statement of step 1. *)
Lemma sync_user_ok st user :
  (next_fault (database st)).1 = None ->
  let db := database st in
  let lastID := next_rowid (map UserRow.id (users db)) in
  sync_user st user =
    mkPhase (<[User.id user := lastID]> (userIdMap st)) (syncedUsers st + 1)
      (syncedResponses st) (rejected st)
      (mkSqlite
         (users db ++ [UserRow.mk lastID (User.name user) (User.avatar user)
                         (User.grade user) (User.gender user)
                         (CURRENT_TIMESTAMP db)])
         (responses db) (CURRENT_TIMESTAMP db) (faults (next_fault db).2)).
Proof.
  unfold sync_user, insert_user, next_fault.
  destruct (faults (database st)) as [|[m|] fs]; simpl; intros H;
    try discriminate; reflexivity.
Qed.

Lemma sync_user_fails st user message :
  (next_fault (database st)).1 = Some message ->
  sync_user st user =
    mkPhase (userIdMap st) (syncedUsers st) (syncedResponses st)
      (reject st message) (next_fault (database st)).2.
Proof.
  unfold sync_user, insert_user, next_fault.
  destruct (faults (database st)) as [|[m|] fs]; simpl; intros H;
    try discriminate. injection H as ->. reflexivity.
Qed.

(** One statement of step 2. *)
Lemma sync_response_ok st resp :
  (next_fault (database st)).1 = None ->
  let db := database st in
  let lastID := next_rowid (map ResponseRow.id (responses db)) in
  sync_response st resp =
    mkPhase (userIdMap st) (syncedUsers st) (syncedResponses st + 1)
      (rejected st)
      (mkSqlite (users db)
         (responses db ++
            [ResponseRow.mk lastID (dbUserId (userIdMap st) resp)
               (Response.question_id resp) (Response.score resp)
               (Response.timestamp resp)])
         (CURRENT_TIMESTAMP db) (faults (next_fault db).2)).
Proof.
  unfold sync_response, insert_response, next_fault.
  destruct (faults (database st)) as [|[m|] fs]; simpl; intros H;
    try discriminate; reflexivity.
Qed.

Lemma sync_response_fails st resp message :
  (next_fault (database st)).1 = Some message ->
  sync_response st resp =
    mkPhase (userIdMap st) (syncedUsers st) (syncedResponses st)
      (reject st message) (next_fault (database st)).2.
Proof.
  unfold sync_response, insert_response, next_fault.
  destruct (faults (database st)) as [|[m|] fs]; simpl; intros H;
    try discriminate. injection H as ->. reflexivity.
Qed.

Lemma next_fault_tables db :
  users (next_fault db).2 = users db /\
  responses (next_fault db).2 = responses db /\
  CURRENT_TIMESTAMP (next_fault db).2 = CURRENT_TIMESTAMP db /\
  faults (next_fault db).2 = drop 1 (faults db).
Proof.
  unfold next_fault. destruct (faults db) eqn:E; simpl; rewrite ?E; auto.
Qed.

Lemma reject_is_Some st message : reject st message <> None.
Proof. unfold reject. destruct (rejected st); discriminate. Qed.

(** A rejection is never withdrawn. *)
Lemma sync_users_stays_rejected us : forall st,
  rejected st <> None -> rejected (fold_left sync_user us st) <> None.
Proof.
  induction us as [|u us IH]; intros st H; simpl; [exact H|].
  apply IH. destruct (next_fault (database st)).1 as [m|] eqn:E.
  - rewrite (sync_user_fails _ _ _ E). simpl. apply reject_is_Some.
  - rewrite (sync_user_ok _ _ E). simpl. exact H.
Qed.

Lemma sync_responses_stays_rejected rs : forall st,
  rejected st <> None -> rejected (fold_left sync_response rs st) <> None.
Proof.
  induction rs as [|r rs IH]; intros st H; simpl; [exact H|].
  apply IH. destruct (next_fault (database st)).1 as [m|] eqn:E.
  - rewrite (sync_response_fails _ _ _ E). simpl. apply reject_is_Some.
  - rewrite (sync_response_ok _ _ E). simpl. exact H.
Qed.
Lemma fault_free_ext n db1 db2 :
  faults db1 = faults db2 -> fault_free n db1 <-> fault_free n db2.
Proof. unfold fault_free. intros ->. reflexivity. Qed.

Lemma user_created_ext db1 db2 user row :
  CURRENT_TIMESTAMP db1 = CURRENT_TIMESTAMP db2 ->
  user_created db1 user row -> user_created db2 user row.
Proof. unfold user_created. intros ->. trivial. Qed.

(** Step 1 over a list of users, from any state of the handler. *)
Lemma sync_users_phase us : forall st,
  let st' := fold_left sync_user us st in
  (rejected st' = None <->
   rejected st = None /\ fault_free (length us) (database st)) /\
  faults (database st') = drop (length us) (faults (database st)) /\
  responses (database st') = responses (database st) /\
  CURRENT_TIMESTAMP (database st') = CURRENT_TIMESTAMP (database st) /\
  syncedResponses st' = syncedResponses st /\
  (map_Forall (fun _ v => 0 < v) (userIdMap st) ->
   map_Forall (fun _ v => 0 < v) (userIdMap st')) /\
  (rejected st' = None ->
   exists rows,
     users (database st') = (users (database st) ++ rows)%list /\
     Forall2 (user_created (database st)) us rows /\
     syncedUsers st' = syncedUsers st + Z.of_nat (length us)).
Proof.
  induction us as [|u us IH]; intros st; simpl.
  - split; [split; [intros H; split; [exact H | apply fault_free_0]
                   | intros [H _]; exact H]|].
    rewrite drop_0. repeat split; auto.
    intros _. exists []. rewrite app_nil_r. repeat split; [constructor | lia].
  - destruct (next_fault_tables (database st)) as (Hu & Hr & Ht & Hf).
    destruct (IH (sync_user st u)) as (Hrej & Hfl & Hresp & Hts & Hsr & Hmap & Hrows).
    clear IH. rewrite fault_free_S.
    destruct (next_fault (database st)).1 as [m|] eqn:E.
    + rewrite (sync_user_fails _ _ _ E) in *. simpl in *.
      assert (Hno : rejected (fold_left sync_user us
                      (mkPhase (userIdMap st) (syncedUsers st)
                         (syncedResponses st) (reject st m)
                         (next_fault (database st)).2)) <> None)
        by (apply sync_users_stays_rejected; simpl; apply reject_is_Some).
      split; [split; [intros H; contradiction | intros [_ [H _]]; discriminate]|].
      rewrite Hfl, Hf, drop_drop, Hresp, Hr, Hts, Ht, Hsr.
      repeat split; auto. intros H; contradiction.
    + rewrite (sync_user_ok _ _ E) in *. simpl in *.
      split.
      { rewrite Hrej. rewrite (fault_free_ext (length us) _
                                 (next_fault (database st)).2) by reflexivity.
        tauto. }
      split_and!.
      * rewrite Hfl. simpl. rewrite Hf, drop_drop. reflexivity.
      * exact Hresp.
      * exact Hts.
      * exact Hsr.
      * intros Hpos. apply Hmap. apply map_Forall_insert_2; [|exact Hpos].
        apply next_rowid_pos.
      * intros H. destruct (Hrows H) as (rows & Husers & Hall & Hcount).
        eexists (_ :: rows). rewrite Husers, <- app_assoc. simpl.
        split; [reflexivity|]. split.
        -- constructor; [repeat split|].
           eapply Forall2_impl; [exact Hall|]. intros x y.
           apply user_created_ext. reflexivity.
        -- lia.
Qed.

(** Step 2 over a list of responses, from any state of the handler. The
    rows added are those of the responses whose statement did not fail. *)
Lemma sync_responses_phase rs : forall st,
  let st' := fold_left sync_response rs st in
  (rejected st' = None <->
   rejected st = None /\ fault_free (length rs) (database st)) /\
  users (database st') = users (database st) /\
  userIdMap st' = userIdMap st /\
  syncedUsers st' = syncedUsers st /\
  exists uploaded rows,
    sublist uploaded rs /\
    responses (database st') = (responses (database st) ++ rows)%list /\
    Forall2 (response_inserted (userIdMap st)) uploaded rows /\
    (rejected st' = None ->
     uploaded = rs /\
     syncedResponses st' = syncedResponses st + Z.of_nat (length rs)).
Proof.
  induction rs as [|r rs IH]; intros st; simpl.
  - split; [split; [intros H; split; [exact H | apply fault_free_0]
                   | intros [H _]; exact H]|].
    repeat split. exists [], []. rewrite app_nil_r.
    repeat split; [constructor | constructor | lia].
  - destruct (next_fault_tables (database st)) as (Hu & Hr & Ht & Hf).
    destruct (IH (sync_response st r))
      as (Hrej & Husers & Hmap & Hsu & uploaded & rows & Hsub & Hresp & Hall & Hok).
    clear IH. rewrite fault_free_S.
    destruct (next_fault (database st)).1 as [m|] eqn:E.
    + rewrite (sync_response_fails _ _ _ E) in *. simpl in *.
      assert (Hno : rejected (fold_left sync_response rs
                      (mkPhase (userIdMap st) (syncedUsers st)
                         (syncedResponses st) (reject st m)
                         (next_fault (database st)).2)) <> None)
        by (apply sync_responses_stays_rejected; simpl; apply reject_is_Some).
      split; [split; [intros H; contradiction | intros [_ [H _]]; discriminate]|].
      rewrite Husers, Hu, Hmap, Hsu. repeat split.
      exists uploaded, rows. rewrite Hresp, Hr.
      repeat split; [apply sublist_cons; exact Hsub | exact Hall
                    | contradiction | contradiction].
    + rewrite (sync_response_ok _ _ E) in *. simpl in *.
      split.
      { rewrite Hrej. rewrite (fault_free_ext (length rs) _
                                 (next_fault (database st)).2) by reflexivity.
        tauto. }
      rewrite Husers, Hmap, Hsu. repeat split.
      eexists (r :: uploaded), (_ :: rows). rewrite Hresp, <- app_assoc. simpl.
      split; [apply sublist_skip; exact Hsub|].
      split; [reflexivity|]. split.
      * constructor; [repeat split | exact Hall].
      * intros H. destruct (Hok H) as [-> Hcount]. split; [reflexivity | lia].
Qed.
(** Every server id in the sync identifier map is a key of the users
    table, hence positive, so [||] never discards it. *)
Lemma sync_users_map_positive us db :
  map_Forall (fun _ v => 0 < v) (userIdMap (sync_users us db)).
Proof.
  destruct (sync_users_phase us (mkPhase ∅ 0 0 None db))
    as (_ & _ & _ & _ & _ & H & _).
  apply H. simpl. apply map_Forall_empty.
Qed.

Lemma response_inserted_created m resp row :
  map_Forall (fun _ v => 0 < v) m ->
  response_inserted m resp row -> response_created m resp row.
Proof.
  intros Hpos (Hu & Hrest). split; [|exact Hrest].
  rewrite Hu. unfold dbUserId, number_or.
  destruct (m !! Response.user_id resp) as [v|] eqn:E; [|reflexivity].
  apply Hpos in E. destruct (Z.eqb_spec v 0); [lia | reflexivity].
Qed.

(** The route on a body with both fields: what it answers and what it
    leaves in the database, by the outcome of the two phases. *)
Lemma post_api_sync_fault_free us rs db :
  fault_free (length us + length rs) db ->
  exists urows rrows db',
    post_api_sync (Some us) (Some rs) db =
      (mkResponse 200
         (Json (SyncResult.mk (Some "synced") (Z.of_nat (length us))
                              (Z.of_nat (length rs)))), db') /\
    users db' = (users db ++ urows)%list /\
    Forall2 (user_created db) us urows /\
    responses db' = (responses db ++ rrows)%list /\
    Forall2 (response_created (userIdMap (sync_users us db))) rs rrows.
Proof.
  intros Hff. apply fault_free_app in Hff as [Hu Hr].
  unfold post_api_sync. simpl.
  pose proof (sync_users_map_positive us db) as Hpos.
  destruct (sync_users_phase us (mkPhase ∅ 0 0 None db))
    as (Hrej1 & Hfl1 & Hresp1 & _ & Hsr1 & _ & Hrows1).
  fold (sync_users us db) in *. simpl in *.
  assert (H1 : rejected (sync_users us db) = None) by (apply Hrej1; auto).
  rewrite H1. destruct (Hrows1 H1) as (urows & Husers & Hall1 & Hcount1).
  destruct (sync_responses_phase rs (sync_users us db))
    as (Hrej2 & Husers2 & _ & Hsu2 & uploaded & rrows & _ & Hresp2 & Hall2 & Hok2).
  fold (sync_responses rs (sync_users us db)) in *.
  assert (H2 : rejected (sync_responses rs (sync_users us db)) = None).
  { apply Hrej2. split; [exact H1|]. unfold fault_free. rewrite Hfl1. exact Hr. }
  rewrite H2. destruct (Hok2 H2) as [-> Hcount2].
  exists urows, rrows, (database (sync_responses rs (sync_users us db))).
  split_and!.
  - do 3 f_equal. f_equal; lia.
  - rewrite Husers2. exact Husers.
  - exact Hall1.
  - rewrite Hresp2, Hresp1. reflexivity.
  - eapply Forall2_impl; [exact Hall2|]. intros x y.
    apply response_inserted_created. exact Hpos.
Qed.

Lemma post_api_sync_fault us rs db :
  ~ fault_free (length us + length rs) db ->
  exists message db',
    post_api_sync (Some us) (Some rs) db =
      (mkResponse 500 (Other message), db').
Proof.
  intros Hff. unfold post_api_sync. simpl.
  destruct (sync_users_phase us (mkPhase ∅ 0 0 None db))
    as (Hrej1 & Hfl1 & _).
  fold (sync_users us db) in *. simpl in *.
  destruct (rejected (sync_users us db)) as [m|] eqn:H1; [eauto|].
  destruct (sync_responses_phase rs (sync_users us db)) as (Hrej2 & _).
  fold (sync_responses rs (sync_users us db)) in *.
  destruct (rejected (sync_responses rs (sync_users us db))) as [m|] eqn:H2;
    [eauto|].
  exfalso. apply Hff. apply fault_free_app.
  destruct Hrej1 as [Hrej1 _]. destruct (Hrej1 eq_refl) as [_ Hu].
  destruct Hrej2 as [Hrej2 _]. destruct (Hrej2 eq_refl) as [_ Hr].
  split; [exact Hu|]. unfold fault_free in Hr. rewrite Hfl1 in Hr. exact Hr.
Qed.

Lemma fault_free_dec n db : {fault_free n db} + {~ fault_free n db}.
Proof. unfold fault_free. apply Forall_dec. intros f. solve_decision. Qed.

Lemma fault_at_not_free n db k message :
  (k < n)%nat -> faults db !! k = Some (Some message) -> ~ fault_free n db.
Proof.
  intros Hk Hf Hff. unfold fault_free in Hff.
  rewrite Forall_lookup in Hff.
  specialize (Hff k (Some message)).
  rewrite lookup_take_lt in Hff by exact Hk.
  specialize (Hff Hf). discriminate.
Qed.
End SyncRoute.

(** ** The sync reconciler against the backend *)

Section Reconciler.
Context {J : JSON}.
Import Server.
Implicit Types b : Browser Backend.
Local Arguments post_api_sync : simpl never.

(** A sync that throws has not touched the store, whatever is behind
    [/sync]. *)
Lemma sync_throw_keeps_store {W} post_sync (b b' : Browser W) e :
  Api.syncLocalToServer post_sync b = (Throw e, b') ->
  localStorage b' = localStorage b.
Proof.
  unfold Api.syncLocalToServer. run_async.
  destruct (pending_users _) as [us|]; simpl; [|intros [= _ <-]; reflexivity].
  destruct (pending_responses _) as [rs|]; simpl;
    [|intros [= _ <-]; reflexivity].
  destruct (_ && _); [intros [= ]|].
  unfold fetchWithTimeout.
  destruct (post_sync us rs (world b)) as [[|l res] w'];
    [intros [= _ <-]; reflexivity|].
  destruct (l <? 10000); [|intros [= _ <-]; reflexivity].
  destruct (negb (ok res)); simpl; [intros [= _ <-]; reflexivity|].
  unfold json. destruct (body res); simpl; intros [= ]; subst. reflexivity.
Qed.

(** The run of the reconciler when something is pending. *)
Lemma sync_run_pending b us rs :
  pending_users (localStorage b) = Some us ->
  pending_responses (localStorage b) = Some rs ->
  (length us =? 0)%nat && (length rs =? 0)%nat = false ->
  reachable (world b) = true ->
  let reply := post_api_sync (Some us) (Some rs) (sqlite (world b)) in
  let w' := mkBackend reply.2 (reachable (world b)) (latency (world b)) in
  let log := (requests b ++ [(ep_sync, 10000)])%list in
  System.syncLocalToServer b =
    if latency (world b) <? 10000 then
      if negb (ok reply.1) then
        (Throw (Error "Sync failed"),
         mkBrowser (localStorage b) (clock b) (ticks b) w' log)
      else
        match body reply.1 with
        | Json result =>
            (Ok result,
             mkBrowser (delete "sel_responses"
                          (delete "sel_users" (localStorage b)))
                       (clock b) (ticks b) w' log)
        | Other _ =>
            (Throw SyntaxError,
             mkBrowser (localStorage b) (clock b) (ticks b) w' log)
        end
    else (Throw AbortError,
          mkBrowser (localStorage b) (clock b) (ticks b) w' log).
Proof.
  intros Hu Hr Hne Hup. cbv zeta.
  unfold System.syncLocalToServer, Api.syncLocalToServer. run_async.
  rewrite Hu. simpl. rewrite Hr. simpl. rewrite Hne.
  unfold fetchWithTimeout, api_sync. rewrite Hup.
  destruct (post_api_sync _ _ _) as [res db']. simpl.
  destruct (latency (world b) <? 10000); [|reflexivity].
  destruct (negb (ok res)); [reflexivity|].
  unfold json. destruct (body res); reflexivity.
Qed.

Lemma pending_after_clear (store : gmap string string) :
  JSON_lawful J ->
  pending_users (delete "sel_responses" (delete "sel_users" store)) = Some [] /\
  pending_responses (delete "sel_responses" (delete "sel_users" store))
    = Some [].
Proof.
  intros HJ. split.
  - apply (pending_users_absent _ HJ). left.
    rewrite lookup_delete_ne by done. apply lookup_delete_eq.
  - apply (pending_responses_absent _ HJ). left. apply lookup_delete_eq.
Qed.

(** C1. From a local store with the pending users [us] and the pending
    responses [rs], a sync run that returns a result has added to the
    remote tables exactly one user row per pending user and one response
    row per pending response (in order, with the fields of the local
    records), returns the counts [length us] and [length rs], and leaves
    both local collections empty. *)
Theorem sync_round_trip b us rs result b' :
  JSON_lawful J ->
  pending_users (localStorage b) = Some us ->
  pending_responses (localStorage b) = Some rs ->
  System.syncLocalToServer b = (Ok result, b') ->
  (exists urows rrows,
     users (sqlite (world b')) = (users (sqlite (world b)) ++ urows)%list /\
     Forall2 (user_created (sqlite (world b))) us urows /\
     length urows = length us /\
     responses (sqlite (world b')) =
       (responses (sqlite (world b)) ++ rrows)%list /\
     Forall2 (response_created
                (userIdMap (sync_users us (sqlite (world b))))) rs rrows /\
     length rrows = length rs) /\
  SyncResult.synced_users result = Z.of_nat (length us) /\
  SyncResult.synced_responses result = Z.of_nat (length rs) /\
  pending_users (localStorage b') = Some [] /\
  pending_responses (localStorage b') = Some [].
Proof.
  intros HJ Hu Hr Hrun.
  destruct ((length us =? 0)%nat && (length rs =? 0)%nat) eqn:Hempty.
  - apply andb_true_iff in Hempty as [Eu Er].
    apply Nat.eqb_eq in Eu, Er.
    destruct us; [|discriminate]. destruct rs; [|discriminate].
    unfold System.syncLocalToServer in Hrun.
    rewrite (sync_nothing_pending _ b Hu Hr) in Hrun.
    injection Hrun as <- <-. simpl.
    split; [|auto]. exists [], []. rewrite !app_nil_r.
    repeat split; constructor.
  - destruct (reachable (world b)) eqn:Hup.
    + rewrite (sync_run_pending b us rs Hu Hr Hempty Hup) in Hrun.
      destruct (latency (world b) <? 10000); [|discriminate].
      destruct (fault_free_dec (length us + length rs) (sqlite (world b)))
        as [Hff | Hff].
      * destruct (post_api_sync_fault_free us rs _ Hff)
          as (urows & rrows & db' & Heq & Husers & Hall1 & Hresp & Hall2).
        rewrite Heq in Hrun. simpl in Hrun. injection Hrun as <- <-. simpl.
        split; [|split; [reflexivity | split; [reflexivity|]]].
        -- exists urows, rrows.
           pose proof (Forall2_length _ _ _ Hall1).
           pose proof (Forall2_length _ _ _ Hall2).
           repeat split; auto.
        -- apply pending_after_clear. exact HJ.
      * destruct (post_api_sync_fault us rs _ Hff) as (m & db' & Heq).
        rewrite Heq in Hrun. simpl in Hrun. discriminate.
    + unfold System.syncLocalToServer, Api.syncLocalToServer in Hrun.
      run_async. rewrite Hu in Hrun. simpl in Hrun. rewrite Hr in Hrun.
      simpl in Hrun. rewrite Hempty in Hrun.
      unfold fetchWithTimeout, api_sync in Hrun. rewrite Hup in Hrun.
      discriminate.
Qed.

(** A sync run does return a result when the backend answers in time and
    no statement fails. *)
Lemma sync_completes b us rs :
  pending_users (localStorage b) = Some us ->
  pending_responses (localStorage b) = Some rs ->
  reachable (world b) = true -> latency (world b) < 10000 ->
  fault_free (length us + length rs) (sqlite (world b)) ->
  exists result b', System.syncLocalToServer b = (Ok result, b').
Proof.
  intros Hu Hr Hup Hl Hff.
  destruct ((length us =? 0)%nat && (length rs =? 0)%nat) eqn:Hempty.
  - apply andb_true_iff in Hempty as [Eu Er].
    apply Nat.eqb_eq in Eu, Er.
    destruct us; [|discriminate]. destruct rs; [|discriminate].
    unfold System.syncLocalToServer.
    rewrite (sync_nothing_pending _ b Hu Hr). eauto.
  - rewrite (sync_run_pending b us rs Hu Hr Hempty Hup).
    destruct (Z.ltb_spec (latency (world b)) 10000); [|lia].
    destruct (post_api_sync_fault_free us rs _ Hff)
      as (urows & rrows & db' & Heq & _).
    rewrite Heq. simpl. eauto.
Qed.

(** C2. When the backend is reached and one of the creates of the run
    fails (the engine answers the [k]-th statement of the combined
    sequence of user and response creates with an error), the reconciler
    throws — one error: [Sync failed], or the abort of a request that
    outlived its deadline — and the local store is exactly as it was, so
    both collections still hold every pending user and response. *)
Theorem sync_failure_preserves_local_store b us rs k message :
  pending_users (localStorage b) = Some us ->
  pending_responses (localStorage b) = Some rs ->
  reachable (world b) = true ->
  (k < length us + length rs)%nat ->
  faults (sqlite (world b)) !! k = Some (Some message) ->
  exists b',
    System.syncLocalToServer b =
      (Throw (if latency (world b) <? 10000
              then Error "Sync failed" else AbortError), b') /\
    localStorage b' = localStorage b /\
    pending_users (localStorage b') = Some us /\
    pending_responses (localStorage b') = Some rs.
Proof.
  intros Hu Hr Hup Hk Hf.
  assert (Hne : (length us =? 0)%nat && (length rs =? 0)%nat = false).
  { destruct us, rs; simpl in *; try reflexivity. lia. }
  pose proof (fault_at_not_free _ _ _ _ Hk Hf) as Hff.
  destruct (post_api_sync_fault us rs _ Hff) as (m & db' & Heq).
  rewrite (sync_run_pending b us rs Hu Hr Hne Hup). rewrite Heq. simpl.
  destruct (latency (world b) <? 10000); eexists; (split; [reflexivity|]);
    simpl; auto.
Qed.
End Reconciler.

(** ** The owner and the timestamp of an uploaded response *)

Section Remap.
Import Server.

(** C5. Whatever the body and the database, every response row that the
    sync route creates comes from a response of the body (the rows are
    those of a sub-sequence [uploaded] of the body's responses, all of them
    when the route answers 200); its owner is the server id that step 1
    recorded in the sync identifier map for the response's local user id,
    or the response's own user id when the map has none; and its question,
    score and timestamp are the response's own. *)
Theorem sync_response_owner_and_timestamp users responses db :
  exists uploaded rows,
    sublist uploaded (default [] responses) /\
    Server.responses (post_api_sync users responses db).2 =
      (Server.responses db ++ rows)%list /\
    Forall2 (response_created
               (userIdMap (sync_users (default [] users) db)))
            uploaded rows /\
    (status (post_api_sync users responses db).1 = 200 ->
     uploaded = default [] responses).
Proof.
  assert (Hnone : exists uploaded rows,
    sublist uploaded (default [] responses) /\
    Server.responses db = (Server.responses db ++ rows)%list /\
    Forall2 (response_created
               (userIdMap (sync_users (default [] users) db)))
            uploaded rows /\
    (500 = 200 -> uploaded = default [] responses) /\
    (400 = 200 -> uploaded = default [] responses)).
  { exists [], []. rewrite app_nil_r.
    repeat split; [apply sublist_nil_l | constructor | lia | lia]. }
  assert (Hmain :
    (users <> None \/ responses <> None) ->
    exists uploaded rows,
      sublist uploaded (default [] responses) /\
      Server.responses (post_api_sync users responses db).2 =
        (Server.responses db ++ rows)%list /\
      Forall2 (response_created
                 (userIdMap (sync_users (default [] users) db)))
              uploaded rows /\
      (status (post_api_sync users responses db).1 = 200 ->
       uploaded = default [] responses)).
  { intros Hsome.
    assert (Heq : post_api_sync users responses db =
      let st1 := sync_users (default [] users) db in
      match rejected st1 with
      | Some message => (mkResponse 500 (Other message), database st1)
      | None =>
          let st2 := sync_responses (default [] responses) st1 in
          match rejected st2 with
          | Some message => (mkResponse 500 (Other message), database st2)
          | None =>
              (mkResponse 200
                 (Json (SyncResult.mk (Some "synced") (syncedUsers st2)
                                      (syncedResponses st2))),
               database st2)
          end
      end).
    { unfold post_api_sync. destruct users, responses; try reflexivity.
      destruct Hsome; congruence. }
    rewrite Heq. cbv zeta. clear Heq.
    pose proof (sync_users_map_positive (default [] users) db) as Hpos.
    destruct (sync_users_phase (default [] users) (mkPhase ∅ 0 0 None db))
      as (_ & _ & Hresp1 & _).
    fold (sync_users (default [] users) db) in *. simpl in Hresp1.
    destruct (rejected (sync_users (default [] users) db)) as [m|] eqn:H1.
    - destruct Hnone as (uploaded & rows & Hsub & Hrows & Hall & H500 & _).
      exists uploaded, rows. simpl. rewrite Hresp1. auto.
    - destruct (sync_responses_phase (default [] responses)
                  (sync_users (default [] users) db))
        as (_ & _ & _ & _ & uploaded & rows & Hsub & Hresp2 & Hall & Hok).
      fold (sync_responses (default [] responses)
              (sync_users (default [] users) db)) in *.
      exists uploaded, rows.
      assert (Hcreated : Forall2 (response_created
                (userIdMap (sync_users (default [] users) db)))
                uploaded rows).
      { eapply Forall2_impl; [exact Hall|]. intros x y.
        apply response_inserted_created. exact Hpos. }
      destruct (rejected (sync_responses _ _)) as [m|] eqn:H2; simpl;
        rewrite Hresp2, Hresp1.
      + repeat split; auto. lia.
      + repeat split; auto. intros _. apply Hok. reflexivity. }
  destruct users as [us|]; [apply Hmain; left; discriminate|].
  destruct responses as [rs|]; [apply Hmain; right; discriminate|].
  destruct Hnone as (uploaded & rows & Hsub & Hrows & Hall & _ & H400).
  exists uploaded, rows. simpl. auto.
Qed.
End Remap.

(** ** Insertion-ordered maps *)

Section JsMapFacts.
Context {V : Type}.
Implicit Types (m : JsMap.t V) (k : Z) (v : V).

Lemma JsMap_get_set_eq m k v : JsMap.get (JsMap.set m k v) k = Some v.
Proof.
  induction m as [|[k' v'] m IH]; simpl.
  - rewrite Z.eqb_refl. reflexivity.
  - destruct (Z.eqb_spec k' k); simpl.
    + rewrite Z.eqb_refl. reflexivity.
    + destruct (Z.eqb_spec k' k); [contradiction | exact IH].
Qed.

Lemma JsMap_get_set_ne m k k' v :
  k <> k' -> JsMap.get (JsMap.set m k v) k' = JsMap.get m k'.
Proof.
  intros Hne. induction m as [|[k1 v1] m IH]; simpl.
  - destruct (Z.eqb_spec k k'); [contradiction | reflexivity].
  - destruct (Z.eqb_spec k1 k); simpl.
    + subst k1. destruct (Z.eqb_spec k k'); [contradiction | reflexivity].
    + destruct (Z.eqb_spec k1 k'); [reflexivity | exact IH].
Qed.

Lemma JsMap_get_set m k k' v :
  JsMap.get (JsMap.set m k v) k' =
  if k =? k' then Some v else JsMap.get m k'.
Proof.
  destruct (Z.eqb_spec k k') as [<-|Hne].
  - apply JsMap_get_set_eq.
  - apply JsMap_get_set_ne. exact Hne.
Qed.

Lemma JsMap_has_keys m k : JsMap.has m k = true <-> k ∈ JsMap.keys m.
Proof.
  unfold JsMap.has, JsMap.keys. induction m as [|[k' v'] m IH]; simpl.
  - split; [discriminate | intros H; inversion H].
  - rewrite elem_of_cons. destruct (Z.eqb_spec k' k).
    + split; [auto | reflexivity].
    + rewrite IH. split; [auto | intros [?|?]; [congruence | assumption]].
Qed.

Lemma JsMap_keys_set m k v :
  JsMap.keys (JsMap.set m k v) =
  if JsMap.has m k then JsMap.keys m else (JsMap.keys m ++ [k])%list.
Proof.
  unfold JsMap.has, JsMap.keys. induction m as [|[k' v'] m IH]; simpl.
  - reflexivity.
  - destruct (Z.eqb_spec k' k); simpl.
    + subst. reflexivity.
    + rewrite IH. destruct (JsMap.get m k); reflexivity.
Qed.

Lemma JsMap_keys_set_NoDup m k v :
  NoDup (JsMap.keys m) -> NoDup (JsMap.keys (JsMap.set m k v)).
Proof.
  intros Hnd. rewrite JsMap_keys_set.
  destruct (JsMap.has m k) eqn:E; [exact Hnd|].
  apply NoDup_app. split; [exact Hnd|]. split; [|apply NoDup_singleton].
  intros x Hx Hin. apply list_elem_of_singleton in Hin. subst x.
  apply JsMap_has_keys in Hx. congruence.
Qed.

Lemma JsMap_get_elem m k v :
  JsMap.get m k = Some v -> (k, v) ∈ m.
Proof.
  induction m as [|[k' v'] m IH]; simpl; [discriminate|].
  destruct (Z.eqb_spec k' k).
  - intros [= ->]. subst. left.
  - intros H. right. apply IH. exact H.
Qed.

Lemma JsMap_elem_get m k v :
  NoDup (JsMap.keys m) -> (k, v) ∈ m -> JsMap.get m k = Some v.
Proof.
  unfold JsMap.keys. induction m as [|[k' v'] m IH]; simpl; intros Hnd Hin.
  - inversion Hin.
  - apply NoDup_cons in Hnd as [Hk Hnd].
    apply elem_of_cons in Hin as [[= -> ->] | Hin].
    + rewrite Z.eqb_refl. reflexivity.
    + destruct (Z.eqb_spec k' k) as [->|Hne]; [|apply IH; assumption].
      exfalso. apply Hk. apply list_elem_of_fmap. exists (k, v). auto.
Qed.
End JsMapFacts.

(** ** The aggregator *)

Section Aggregator.
Variable Date_getTime : string -> option Z.
Implicit Types (rows pre : list AdminResponseView.t)
               (m : JsMap.t StudentSummary.t).

Lemma find_snoc {A} (f : A -> bool) (l : list A) (x : A) :
  List.find f (l ++ [x]) =
  match List.find f l with
  | Some y => Some y
  | None => if f x then Some x else None
  end.
Proof.
  induction l as [|y l IH]; simpl; [reflexivity|].
  destruct (f y); [reflexivity | exact IH].
Qed.

Lemma find_none_iff {A} (f : A -> bool) (l : list A) :
  List.find f l = None <-> forall x, x ∈ l -> f x = false.
Proof.
  induction l as [|y l IH]; simpl.
  - split; [intros _ x H; inversion H | reflexivity].
  - destruct (f y) eqn:E.
    + split; [discriminate|]. intros H. rewrite H in E by left. discriminate.
    + rewrite IH. split.
      * intros H x Hx. apply elem_of_cons in Hx as [->|Hx]; auto.
      * intros H x Hx. apply H. right. exact Hx.
Qed.

(** [summarize] seen through [get] and [keys]. *)
Lemma summarize_get m row k :
  JsMap.get (AdminPanel.summarize Date_getTime m row) k =
  if AdminResponseView.user_id row =? k
  then Some (AdminPanel.record_row Date_getTime
               (default (AdminPanel.new_summary row)
                        (JsMap.get m (AdminResponseView.user_id row))) row)
  else JsMap.get m k.
Proof.
  unfold AdminPanel.summarize, JsMap.has.
  destruct (JsMap.get m (AdminResponseView.user_id row)) as [s|] eqn:E; simpl.
  - rewrite E. apply JsMap_get_set.
  - rewrite JsMap_get_set_eq. rewrite JsMap_get_set.
    destruct (Z.eqb_spec (AdminResponseView.user_id row) k); [reflexivity|].
    apply JsMap_get_set_ne. assumption.
Qed.

Lemma summarize_keys m row :
  JsMap.keys (AdminPanel.summarize Date_getTime m row) =
  if JsMap.has m (AdminResponseView.user_id row) then JsMap.keys m
  else (JsMap.keys m ++ [AdminResponseView.user_id row])%list.
Proof.
  unfold AdminPanel.summarize.
  destruct (JsMap.has m (AdminResponseView.user_id row)) eqn:E; simpl.
  - unfold JsMap.has in E.
    destruct (JsMap.get m (AdminResponseView.user_id row)) eqn:G;
      [|discriminate].
    rewrite JsMap_keys_set. unfold JsMap.has. rewrite G. reflexivity.
  - rewrite JsMap_get_set_eq, JsMap_keys_set.
    unfold JsMap.has at 1. rewrite JsMap_get_set_eq.
    rewrite JsMap_keys_set, E. reflexivity.
Qed.

Lemma summaries_inv_empty : summaries_inv [] JsMap.empty.
Proof.
  split; [constructor | split].
  - intros k. split; [intros H; inversion H|].
    intros (row & H & _). inversion H.
  - intros k s. discriminate.
Qed.

Lemma record_row_answers student row q :
  JsMap.get (StudentSummary.answers
               (AdminPanel.record_row Date_getTime student row)) q =
  match JsMap.get (StudentSummary.answers student) q with
  | Some v => Some v
  | None => if AdminResponseView.question_id row =? q
            then Some (AdminResponseView.score row) else None
  end.
Proof.
  unfold AdminPanel.record_row, JsMap.has. simpl.
  destruct (JsMap.get (StudentSummary.answers student)
              (AdminResponseView.question_id row)) as [v0|] eqn:E; simpl.
  - destruct (JsMap.get (StudentSummary.answers student) q) eqn:G;
      [reflexivity|].
    destruct (Z.eqb_spec (AdminResponseView.question_id row) q);
      [congruence | reflexivity].
  - rewrite JsMap_get_set.
    destruct (Z.eqb_spec (AdminResponseView.question_id row) q) as [<-|Hne].
    + rewrite E. reflexivity.
    + destruct (JsMap.get (StudentSummary.answers student) q); reflexivity.
Qed.

Lemma record_row_keys_NoDup student row :
  NoDup (JsMap.keys (StudentSummary.answers student)) ->
  NoDup (JsMap.keys (StudentSummary.answers
                       (AdminPanel.record_row Date_getTime student row))).
Proof.
  intros H. unfold AdminPanel.record_row. simpl.
  destruct (negb _); [apply JsMap_keys_set_NoDup|]; exact H.
Qed.

Lemma summaries_inv_step pre m row :
  summaries_inv pre m ->
  summaries_inv (pre ++ [row]) (AdminPanel.summarize Date_getTime m row).
Proof.
  intros (Hnd & Hkeys & Hget).
  set (k0 := AdminResponseView.user_id row).
  split; [|split].
  - rewrite summarize_keys. fold k0.
    destruct (JsMap.has m k0) eqn:E; [exact Hnd|].
    apply NoDup_app. split; [exact Hnd|]. split; [|apply NoDup_singleton].
    intros x Hx Hin. apply list_elem_of_singleton in Hin. subst x.
    apply JsMap_has_keys in Hx. congruence.
  - intros k. rewrite summarize_keys. fold k0.
    assert (Hk0 : JsMap.has m k0 = true <-> k0 ∈ JsMap.keys m)
      by apply JsMap_has_keys.
    split.
    + intros Hin.
      assert (Hcases : k ∈ JsMap.keys m \/ k = k0).
      { destruct (JsMap.has m k0); [left; exact Hin|].
        apply elem_of_app in Hin as [H|H]; [left; exact H|].
        apply list_elem_of_singleton in H. right. exact H. }
      destruct Hcases as [H | ->].
      * apply Hkeys in H as (r & Hr & Hu). exists r.
        split; [apply elem_of_app; left; exact Hr | exact Hu].
      * exists row. split; [apply elem_of_app; right; left | reflexivity].
    + intros (r & Hr & Hu). apply elem_of_app in Hr as [Hr | Hr].
      * assert (k ∈ JsMap.keys m) by (apply Hkeys; eauto).
        destruct (JsMap.has m k0); [assumption | apply elem_of_app; auto].
      * apply list_elem_of_singleton in Hr. subst r. fold k0 in Hu. subst k.
        destruct (JsMap.has m k0) eqn:E; [apply Hk0; reflexivity|].
        apply elem_of_app. right. left.
  - intros k s. rewrite summarize_get. fold k0.
    destruct (Z.eqb_spec k0 k) as [<-|Hne].
    + intros [= <-].
      assert (Hbase :
        StudentSummary.user_id
          (default (AdminPanel.new_summary row) (JsMap.get m k0)) = k0 /\
        NoDup (JsMap.keys (StudentSummary.answers
                 (default (AdminPanel.new_summary row) (JsMap.get m k0)))) /\
        forall q, JsMap.get (StudentSummary.answers
                    (default (AdminPanel.new_summary row) (JsMap.get m k0))) q
                  = AdminResponseView.score <$> first_row pre k0 q).
      { destruct (JsMap.get m k0) as [s0|] eqn:G; simpl.
        - apply Hget. exact G.
        - split; [reflexivity|]. split; [constructor|]. intros q. symmetry.
          assert (Hnone : first_row pre k0 q = None); [|rewrite Hnone; done].
          apply find_none_iff. intros x Hx.
          destruct (Z.eqb_spec (AdminResponseView.user_id x) k0) as [Hu|];
            [|reflexivity].
          exfalso.
          assert (Hin : k0 ∈ JsMap.keys m) by (apply Hkeys; eauto).
          apply JsMap_has_keys in Hin. unfold JsMap.has in Hin.
          rewrite G in Hin. discriminate. }
      destruct Hbase as (Hid & Hnda & Hans). split; [exact Hid|].
      split; [apply record_row_keys_NoDup; exact Hnda|].
      intros q. rewrite record_row_answers, Hans.
      unfold first_row. rewrite find_snoc. fold (first_row pre k0 q).
      destruct (first_row pre k0 q); simpl; [reflexivity|].
      fold k0. rewrite Z.eqb_refl. simpl.
      destruct (AdminResponseView.question_id row =? q); reflexivity.
    + intros G. destruct (Hget k s G) as (Hid & Hnda & Hans).
      split; [exact Hid|]. split; [exact Hnda|].
      intros q. rewrite Hans. unfold first_row. rewrite find_snoc.
      fold (first_row pre k q). destruct (first_row pre k q); [reflexivity|].
      fold k0. destruct (Z.eqb_spec k0 k); [contradiction | reflexivity].
Qed.

Lemma summaries_inv_fold rows : forall pre m,
  summaries_inv pre m ->
  summaries_inv (pre ++ rows)
    (fold_left (AdminPanel.summarize Date_getTime) rows m).
Proof.
  induction rows as [|row rows IH]; intros pre m H; simpl.
  - rewrite app_nil_r. exact H.
  - replace (pre ++ row :: rows)%list with ((pre ++ [row]) ++ rows)%list
      by (rewrite <- app_assoc; reflexivity).
    apply IH. apply summaries_inv_step. exact H.
Qed.

Lemma studentSummaries_inv rows :
  summaries_inv rows
    (fold_left (AdminPanel.summarize Date_getTime) rows JsMap.empty).
Proof. apply (summaries_inv_fold rows [] _ summaries_inv_empty). Qed.
Lemma studentSummaries_elem rows s :
  s ∈ AdminPanel.studentSummaries Date_getTime rows ->
  JsMap.get (fold_left (AdminPanel.summarize Date_getTime) rows JsMap.empty)
            (StudentSummary.user_id s) = Some s.
Proof.
  unfold AdminPanel.studentSummaries, JsMap.values. intros Hin.
  apply list_elem_of_fmap in Hin as ([k s'] & -> & Hin). simpl.
  destruct (studentSummaries_inv rows) as (Hnd & _ & Hget).
  pose proof (JsMap_elem_get _ _ _ Hnd Hin) as G.
  destruct (Hget _ _ G) as (-> & _). exact G.
Qed.

Lemma studentSummaries_first_row rows s q :
  s ∈ AdminPanel.studentSummaries Date_getTime rows ->
  JsMap.get (StudentSummary.answers s) q =
    AdminResponseView.score <$> first_row rows (StudentSummary.user_id s) q.
Proof.
  intros Hin. apply studentSummaries_elem in Hin.
  destruct (studentSummaries_inv rows) as (_ & _ & Hget).
  destruct (Hget _ _ Hin) as (_ & _ & Hans). apply Hans.
Qed.

(** The summaries carry the user ids of the rows, each once, in the order
    of first appearance. *)
Lemma studentSummaries_user_ids rows :
  map StudentSummary.user_id (AdminPanel.studentSummaries Date_getTime rows) =
  JsMap.keys (fold_left (AdminPanel.summarize Date_getTime) rows JsMap.empty).
Proof.
  destruct (studentSummaries_inv rows) as (Hnd & _ & Hget).
  unfold AdminPanel.studentSummaries, JsMap.values, JsMap.keys.
  rewrite <- list_fmap_compose. apply Forall_fmap_ext, Forall_forall.
  intros [k s] Hin. simpl.
  pose proof (JsMap_elem_get _ _ _ Hnd Hin) as G.
  destruct (Hget _ _ G) as (-> & _). reflexivity.
Qed.

Lemma filter_unique {A} (f : A -> Z) (l : list A) (x : A) :
  NoDup (map f l) -> x ∈ l ->
  List.filter (fun y => f y =? f x) l = [x].
Proof.
  induction l as [|y l IH]; simpl; intros Hnd Hin; [inversion Hin|].
  apply NoDup_cons in Hnd as [Hy Hnd].
  apply elem_of_cons in Hin as [<- | Hin].
  - rewrite Z.eqb_refl. f_equal.
    clear IH Hnd. induction l as [|z l IH]; simpl; [reflexivity|].
    rewrite fmap_cons, not_elem_of_cons in Hy. destruct Hy as [Hz Hy].
    destruct (Z.eqb_spec (f z) (f x)); [congruence | apply IH; exact Hy].
  - destruct (Z.eqb_spec (f y) (f x)) as [E|_]; [|apply IH; assumption].
    exfalso. apply Hy. rewrite E. apply list_elem_of_fmap. eauto.
Qed.

(** A user id that some row mentions has exactly one summary. *)
Lemma studentSummaries_one_per_user rows row :
  row ∈ rows ->
  exists s,
    List.filter (fun s => StudentSummary.user_id s =?
                          AdminResponseView.user_id row)
      (AdminPanel.studentSummaries Date_getTime rows) = [s] /\
    StudentSummary.user_id s = AdminResponseView.user_id row /\
    s ∈ AdminPanel.studentSummaries Date_getTime rows.
Proof.
  intros Hrow.
  destruct (studentSummaries_inv rows) as (Hnd & Hkeys & Hget).
  assert (Hk : AdminResponseView.user_id row ∈
               JsMap.keys (fold_left (AdminPanel.summarize Date_getTime)
                             rows JsMap.empty)) by (apply Hkeys; eauto).
  apply JsMap_has_keys in Hk. unfold JsMap.has in Hk.
  destruct (JsMap.get _ (AdminResponseView.user_id row)) as [s|] eqn:G;
    [|discriminate].
  destruct (Hget _ _ G) as (Hid & _).
  assert (Hin : s ∈ AdminPanel.studentSummaries Date_getTime rows).
  { unfold AdminPanel.studentSummaries, JsMap.values.
    apply list_elem_of_fmap. exists (AdminResponseView.user_id row, s).
    split; [reflexivity | apply JsMap_get_elem; exact G]. }
  exists s. split; [|split; assumption].
  rewrite <- Hid. apply filter_unique; [|exact Hin].
  rewrite studentSummaries_user_ids. exact Hnd.
Qed.
(** C3. For every pair of a user and a question that some row mentions,
    there is exactly one summary of that user, and the answer it records
    for the question is the score of the first row, in input order, that
    mentions the pair; later rows for the pair are skipped. Nothing else
    is recorded: every summary is that of a user of some row, and every
    answer of a summary is the score of the first row of its pair. In
    particular the rows
    [{user:1,q:1,score:5,ts:T2}, {user:1,q:1,score:2,ts:T1}], in that
    order, give one summary, for user 1, with [answers[1] = 5]. *)
Theorem aggregator_first_row_wins :
  (forall rows row,
     row ∈ rows ->
     exists s first,
       List.filter (fun s => StudentSummary.user_id s =?
                             AdminResponseView.user_id row)
         (AdminPanel.studentSummaries Date_getTime rows) = [s] /\
       first_row rows (AdminResponseView.user_id row)
                 (AdminResponseView.question_id row) = Some first /\
       JsMap.get (StudentSummary.answers s)
                 (AdminResponseView.question_id row) =
         Some (AdminResponseView.score first)) /\
  (forall rows s,
     s ∈ AdminPanel.studentSummaries Date_getTime rows ->
     (exists row, row ∈ rows /\
                  AdminResponseView.user_id row = StudentSummary.user_id s) /\
     forall q,
       JsMap.get (StudentSummary.answers s) q =
         AdminResponseView.score <$>
           first_row rows (StudentSummary.user_id s) q) /\
  (forall name avatar grade gender text T1 T2,
     exists s,
       AdminPanel.studentSummaries Date_getTime
         [AdminResponseView.mk 1 name avatar grade gender 1 text 5 T2;
          AdminResponseView.mk 1 name avatar grade gender 1 text 2 T1] = [s] /\
       StudentSummary.user_id s = 1 /\
       JsMap.get (StudentSummary.answers s) 1 = Some 5).
Proof.
  split_and!.
  - intros rows row Hrow.
    destruct (studentSummaries_one_per_user rows row Hrow)
      as (s & Hone & Hid & Hin).
    pose proof (studentSummaries_first_row rows s
                  (AdminResponseView.question_id row) Hin) as Hget.
    rewrite Hid in Hget.
    destruct (first_row rows (AdminResponseView.user_id row)
                (AdminResponseView.question_id row)) as [first|] eqn:E.
    + exists s, first. auto.
    + exfalso. unfold first_row in E.
      pose proof (proj1 (find_none_iff _ _) E row Hrow) as Hno.
      simpl in Hno. rewrite !Z.eqb_refl in Hno. discriminate.
  - intros rows s Hin. split.
    + pose proof (studentSummaries_elem rows s Hin) as Hget.
      destruct (studentSummaries_inv rows) as (_ & Hkeys & _).
      apply Hkeys. apply JsMap_has_keys. unfold JsMap.has.
      rewrite Hget. reflexivity.
    + intros q. apply studentSummaries_first_row. exact Hin.
  - intros name avatar grade gender text T1 T2. eexists.
    split; [reflexivity|]. split; reflexivity.
Qed.
End Aggregator.

(** ** The local join and the sentinel user *)

Section Orphans.
Context {J : JSON} {W : Type}.
Variable QUESTIONS : list Question.t.
Variable Date_getTime : string -> option Z.

Lemma sort_insert_Permutation {A} (cmp : A -> A -> Z) x (l : list A) :
  sort_insert cmp x l ≡ₚ x :: l.
Proof.
  induction l as [|y l IH]; simpl; [reflexivity|].
  destruct (cmp x y <=? 0); [reflexivity|].
  rewrite IH. apply Permutation_swap.
Qed.

Lemma Array_sort_Permutation {A} (cmp : A -> A -> Z) (l : list A) :
  Array_sort cmp l ≡ₚ l.
Proof.
  unfold Array_sort. induction l as [|x l IH]; simpl; [reflexivity|].
  rewrite sort_insert_Permutation, IH. reflexivity.
Qed.

Lemma join_row_orphan users r :
  orphan users r ->
  Api.join_row users r =
    ApiRow.mk (-1) "Unknown (Local)" "🙂" "" ""
      (Response.question_id r) (Response.score r) (Response.timestamp r).
Proof. unfold orphan, Api.join_row. intros ->. reflexivity. Qed.

(** C10. On the local path of fetch-all-responses, a response whose user
    id matches no local user is emitted with user id [-1] and the
    placeholder name, avatar, grade and gender. The rows returned are the
    joined rows in some order, so in the dashboard all such responses,
    whatever missing user ids they carry, fall into one summary: exactly
    one summary has user id [-1], and it holds an answer for the question
    of every such response. *)
Theorem orphan_responses_share_one_summary (b : Browser W) users responses :
  pending_users (localStorage b) = Some users ->
  pending_responses (localStorage b) = Some responses ->
  exists rows,
    Api.fetchAllResponses_local Date_getTime b = (Ok (Api.LOCAL, rows), b) /\
    rows ≡ₚ map (Api.join_row users) responses /\
    (forall r, r ∈ responses -> orphan users r ->
       Api.join_row users r =
         ApiRow.mk (-1) "Unknown (Local)" "🙂" "" ""
           (Response.question_id r) (Response.score r)
           (Response.timestamp r)) /\
    (forall r, r ∈ responses -> orphan users r ->
       exists s,
         List.filter (fun s => StudentSummary.user_id s =? -1)
           (AdminPanel.studentSummaries Date_getTime
              (map (AdminPanel.enrich QUESTIONS) rows)) = [s] /\
         forall r', r' ∈ responses -> orphan users r' ->
           JsMap.has (StudentSummary.answers s) (Response.question_id r')
             = true).
Proof.
  intros Hu Hr. eexists. split; [|split; [|split]].
  - rewrite fetchAllResponses_local_eq, Hu, Hr. reflexivity.
  - apply Array_sort_Permutation.
  - intros r _. apply join_row_orphan.
  - set (rows := Array_sort _ _).
    assert (Hperm : rows ≡ₚ map (Api.join_row users) responses)
      by apply Array_sort_Permutation.
    assert (Hrow : forall r, r ∈ responses -> orphan users r ->
      exists row, row ∈ map (AdminPanel.enrich QUESTIONS) rows /\
                  AdminResponseView.user_id row = -1 /\
                  AdminResponseView.question_id row = Response.question_id r).
    { intros r Hin Ho.
      exists (AdminPanel.enrich QUESTIONS (Api.join_row users r)).
      split; [|rewrite (join_row_orphan _ _ Ho); split; reflexivity].
      apply list_elem_of_fmap. eexists. split; [reflexivity|].
      rewrite Hperm. apply list_elem_of_fmap. eauto. }
    intros r Hin Ho. destruct (Hrow r Hin Ho) as (row & Hrin & Hid & _).
    destruct (studentSummaries_one_per_user Date_getTime _ _ Hrin)
      as (s & Hfilter & Hsid & Hsin).
    rewrite Hid in Hfilter, Hsid. exists s. split; [exact Hfilter|].
    intros r' Hin' Ho'. destruct (Hrow r' Hin' Ho') as (row' & Hrin' & Hid' & Hq').
    unfold JsMap.has.
    rewrite (studentSummaries_first_row Date_getTime _ _ _ Hsin), Hsid.
    destruct (first_row _ (-1) (Response.question_id r')) eqn:E; [reflexivity|].
    exfalso. unfold first_row in E.
    rewrite find_none_iff in E. specialize (E row' Hrin').
    rewrite Hid', Hq', !Z.eqb_refl in E. discriminate.
Qed.
End Orphans.

(** ** Totals and progress *)

Section Totals.
Variable QUESTIONS : list Question.t.
Variable Date_getTime : string -> option Z.

Lemma fold_left_add_foldr (l : list Z) (a : Z) :
  fold_left Z.add l a = a + foldr Z.add 0 l.
Proof.
  revert a. induction l as [|x l IH]; intros a; simpl; [lia|].
  rewrite IH. lia.
Qed.

(** The dashboard adds up every recorded score and counts every recorded
    question. *)
Lemma dashboard_totals (student : StudentSummary.t) :
  AdminPanel.totalScore student =
    foldr Z.add 0 (JsMap.values (StudentSummary.answers student)) /\
  AdminPanel.answerCount student =
    length (JsMap.keys (StudentSummary.answers student)) /\
  AdminPanel.totalQuestions QUESTIONS = length QUESTIONS.
Proof.
  unfold AdminPanel.totalScore, AdminPanel.answerCount, JsMap.size,
    JsMap.keys, AdminPanel.totalQuestions.
  rewrite fold_left_add_foldr, length_map. auto.
Qed.

Lemma exportCSV_fold (answers : JsMap.t Z) ids : forall scores total,
  fold_left
    (fun '(scores, totalScore) qid =>
       match JsMap.get answers qid with
       | Some score => ((scores ++ [Some score])%list, totalScore + score)
       | None => ((scores ++ [None])%list, totalScore)
       end) ids (scores, total) =
  ((scores ++ map (JsMap.get answers) ids)%list,
   total + foldr Z.add 0 (map (fun qid => default 0 (JsMap.get answers qid))
                              ids)).
Proof.
  induction ids as [|qid ids IH]; intros scores total; simpl.
  - rewrite app_nil_r. f_equal. lia.
  - destruct (JsMap.get answers qid) as [v|]; rewrite IH, <- app_assoc; simpl;
      f_equal; lia.
Qed.

(** The export adds up the scores of the question columns, that is, of the
    questions of [QUESTIONS], and counts every recorded question. *)
Lemma exportCSV_totals (s : StudentSummary.t) :
  CsvRow.totalScore (AdminPanel.exportCSV_row QUESTIONS s) =
    foldr Z.add 0
      (map (fun qid => default 0 (JsMap.get (StudentSummary.answers s) qid))
           (AdminPanel.allQuestionIds QUESTIONS)) /\
  CsvRow.progress (AdminPanel.exportCSV_row QUESTIONS s) =
    AdminPanel.String_of_nat (JsMap.size (StudentSummary.answers s)) +:+
    "/" +:+ AdminPanel.String_of_nat (length QUESTIONS).
Proof.
  unfold AdminPanel.exportCSV_row. rewrite exportCSV_fold. simpl. auto.
Qed.

Lemma sum_at_point (g : Z -> Z) (k v : Z) (ids : list Z) :
  NoDup ids -> k ∈ ids -> g k = 0 ->
  foldr Z.add 0 (map (fun qid => if k =? qid then v else g qid) ids) =
  v + foldr Z.add 0 (map g ids).
Proof.
  induction ids as [|i ids IH]; intros Hnd Hin Hg; [inversion Hin|].
  apply NoDup_cons in Hnd as [Hi Hnd]. simpl.
  apply elem_of_cons in Hin as [<- | Hin].
  - rewrite Z.eqb_refl, Hg.
    assert (Hsame : map (fun qid => if k =? qid then v else g qid) ids
                    = map g ids).
    { apply Forall_fmap_ext, Forall_forall. intros x Hx.
      destruct (Z.eqb_spec k x); [congruence | reflexivity]. }
    rewrite Hsame. lia.
  - destruct (Z.eqb_spec k i) as [->|_]; [contradiction|].
    rewrite (IH Hnd Hin Hg). lia.
Qed.

Lemma sum_of_lookups (answers : JsMap.t Z) (ids : list Z) :
  NoDup ids -> NoDup (JsMap.keys answers) ->
  (forall k, k ∈ JsMap.keys answers -> k ∈ ids) ->
  foldr Z.add 0 (map (fun qid => default 0 (JsMap.get answers qid)) ids) =
  foldr Z.add 0 (JsMap.values answers).
Proof.
  intros Hids. unfold JsMap.keys, JsMap.values.
  induction answers as [|[k v] answers IH]; simpl; intros Hnd Hsub.
  - clear. induction ids as [|i ids IHi]; simpl; [reflexivity|].
    rewrite IHi. reflexivity.
  - apply NoDup_cons in Hnd as [Hk Hnd].
    rewrite <- IH; [|exact Hnd | intros k' Hk'; apply Hsub; right; exact Hk'].
    rewrite <- (sum_at_point
                  (fun qid => default 0 (JsMap.get answers qid)) k v ids).
    + f_equal. apply Forall_fmap_ext, Forall_forall. intros x _.
      destruct (k =? x); reflexivity.
    + exact Hids.
    + apply Hsub. left.
    + destruct (JsMap.get answers k) eqn:G; [|reflexivity].
      exfalso. apply Hk. apply (JsMap_has_keys answers k).
      unfold JsMap.has. rewrite G. reflexivity.
Qed.

(** The two totals agree on a summary all of whose recorded questions
    belong to a question set without repeated ids. *)
Lemma exportCSV_total_agrees (s : StudentSummary.t) :
  NoDup (map Question.id QUESTIONS) ->
  NoDup (JsMap.keys (StudentSummary.answers s)) ->
  (forall q, q ∈ JsMap.keys (StudentSummary.answers s) ->
             q ∈ map Question.id QUESTIONS) ->
  CsvRow.totalScore (AdminPanel.exportCSV_row QUESTIONS s) =
  AdminPanel.totalScore s.
Proof.
  intros Hq Hnd Hsub.
  destruct (exportCSV_totals s) as [-> _].
  destruct (dashboard_totals s) as [-> _].
  assert (Hperm : AdminPanel.allQuestionIds QUESTIONS
                  ≡ₚ map Question.id QUESTIONS)
    by apply Array_sort_Permutation.
  apply sum_of_lookups; [rewrite Hperm; exact Hq | exact Hnd|].
  intros k Hk. rewrite Hperm. apply Hsub. exact Hk.
Qed.
End Totals.

(** ** The concrete JSON reader and writer are lawful *)

Section MiniJsonLaws.
Import MiniJson.
Local Arguments String.append : simpl nomatch.

Lemma append_assoc (a b c : string) : (a +:+ b) +:+ c = a +:+ (b +:+ c).
Proof. induction a as [|x a IH]; simpl; [reflexivity | rewrite IH; reflexivity]. Qed.

Lemma length_append (a b : string) :
  String.length (a +:+ b) = (String.length a + String.length b)%nat.
Proof. induction a as [|x a IH]; simpl; [reflexivity | rewrite IH; reflexivity]. Qed.

Lemma expect_append (p s : string) : expect p (p +:+ s) = Some s.
Proof.
  induction p as [|c p IH]; simpl; [reflexivity|].
  rewrite Ascii.eqb_refl. exact IH.
Qed.

Lemma scan_string_escape (s rest : string) :
  scan_string (escape s +:+ String quote rest) = Some (s, rest).
Proof.
  induction s as [|c s IH]; simpl; [reflexivity|].
  destruct (is_special c) eqn:E; simpl.
  - rewrite E, IH. reflexivity.
  - unfold is_special in E. apply orb_false_iff in E as [-> ->].
    rewrite IH. reflexivity.
Qed.

Lemma parse_print_string (s rest : string) :
  parse_string (print_string s +:+ rest) = Some (s, rest).
Proof.
  unfold print_string. simpl. rewrite append_assoc. simpl.
  apply scan_string_escape.
Qed.

Lemma number_chars_uint (d : Decimal.uint) :
  number_chars (NilEmpty.string_of_uint d).
Proof. induction d; simpl; auto. Qed.

Lemma number_chars_print (z : Z) : number_chars (print_number z).
Proof.
  unfold print_number, NilZero.string_of_int, NilZero.string_of_uint.
  destruct (Z.to_int z) as [d|d]; destruct d; simpl; auto using number_chars_uint;
    repeat split; auto using number_chars_uint.
Qed.

Lemma span_number_append (ds rest : string) :
  number_chars ds -> number_ends rest ->
  span_number (ds +:+ rest) = (ds, rest).
Proof.
  intros Hds Hrest. induction ds as [|c ds IH]; simpl.
  - destruct rest as [|c rest]; simpl; [reflexivity|].
    simpl in Hrest. rewrite Hrest. reflexivity.
  - destruct Hds as [-> Hds]. rewrite (IH Hds). reflexivity.
Qed.

Lemma to_int_not_nil (z : Z) :
  Z.to_int z <> Decimal.Pos Decimal.Nil /\
  Z.to_int z <> Decimal.Neg Decimal.Nil.
Proof.
  destruct z as [|p|p]; simpl; split; try discriminate;
    intros [= H]; apply (DecimalPos.Unsigned.to_uint_nonnil p H).
Qed.

Lemma parse_print_number (z : Z) (rest : string) :
  number_ends rest ->
  parse_number (print_number z +:+ rest) = Some (z, rest).
Proof.
  intros Hrest. unfold parse_number.
  rewrite (span_number_append _ _ (number_chars_print z) Hrest).
  unfold print_number. destruct (to_int_not_nil z) as [Hp Hn].
  rewrite (NilZero.isi _ Hp Hn), DecimalZ.of_to. reflexivity.
Qed.
Local Arguments expect : simpl never.
Local Arguments parse_string : simpl never.
Local Arguments parse_number : simpl never.
Local Arguments print_string : simpl never.
Local Arguments print_number : simpl never.

Lemma expect_first (c c' : ascii) (s : string) :
  Ascii.eqb c c' = false -> expect (String c EmptyString) (String c' s) = None.
Proof. intros H. unfold expect. rewrite H. reflexivity. Qed.

Lemma expect_same (c : ascii) (s : string) :
  expect (String c EmptyString) (String c s) = Some s.
Proof. unfold expect. rewrite Ascii.eqb_refl. reflexivity. Qed.

Lemma parse_print_user (u : User.t) (rest : string) :
  parse_user (print_user u +:+ rest) = Some (u, rest).
Proof.
  unfold print_user, parse_user. rewrite !append_assoc.
  rewrite expect_append. cbn [mbind option_bind].
  rewrite parse_print_number by reflexivity. cbn [mbind option_bind].
  do 4 (rewrite expect_append; cbn [mbind option_bind];
        rewrite parse_print_string; cbn [mbind option_bind]).
  rewrite expect_append. cbn [mbind option_bind]. destruct u; reflexivity.
Qed.

Section ArrayLaws.
Context {A : Type}.
Variable print : A -> string.
Variable parse : string -> option (A * string).
Hypothesis parse_print :
  forall x rest, parse (print x +:+ rest) = Some (x, rest).
Hypothesis print_brace : forall x, exists t, print x = String "{" t.

Lemma parse_print_elements x xs : forall fuel rest,
  (length (x :: xs) <= fuel)%nat ->
  parse_elements parse fuel
    (print_elements print (x :: xs) +:+ String "]" rest) =
  Some (x :: xs, rest).
Proof.
  revert x. induction xs as [|y xs IH]; intros x fuel rest Hfuel;
    (destruct fuel as [|fuel]; [simpl in Hfuel; lia|]).
  - cbn [print_elements parse_elements]. rewrite parse_print.
    cbn [mbind option_bind].
    rewrite expect_first by reflexivity.
    rewrite expect_same. reflexivity.
  - change (print_elements print (x :: y :: xs))
      with (print x +:+ "," +:+ print_elements print (y :: xs)).
    rewrite !append_assoc. cbn [parse_elements]. rewrite parse_print.
    cbn [mbind option_bind].
    rewrite (expect_append "," _).
    rewrite IH by (simpl in *; lia). reflexivity.
Qed.

Lemma length_print_elements xs rest :
  (length xs <= String.length (print_elements print xs +:+ rest))%nat.
Proof.
  rewrite length_append.
  assert (length xs <= String.length (print_elements print xs))%nat; [|lia].
  induction xs as [|x xs IH]; [simpl; lia|].
  destruct (print_brace x) as [t Hx].
  destruct xs as [|y xs].
  - simpl. rewrite Hx. simpl. lia.
  - change (print_elements print (x :: y :: xs))
      with (print x +:+ "," +:+ print_elements print (y :: xs)).
    rewrite !length_append, Hx.
    change (String.length (String "{" t)) with (S (String.length t)).
    simpl length in *. lia.
Qed.

Lemma parse_print_array xs :
  parse_array parse (print_array print xs) = Some xs.
Proof.
  unfold parse_array, print_array. rewrite expect_append.
  cbn [mbind option_bind].
  destruct xs as [|x xs]; [reflexivity|].
  assert (Hopen : expect "]" (print_elements print (x :: xs) +:+ "]") = None).
  { destruct (print_brace x) as [t Hx]. destruct xs as [|y xs].
    - simpl. rewrite Hx. simpl. apply expect_first. reflexivity.
    - change (print_elements print (x :: y :: xs))
        with (print x +:+ "," +:+ print_elements print (y :: xs)).
      rewrite Hx. simpl. apply expect_first. reflexivity. }
  rewrite Hopen.
  rewrite (parse_print_elements x xs _ EmptyString
             (length_print_elements (x :: xs) _)).
  reflexivity.
Qed.
End ArrayLaws.

Lemma MiniJson_lawful : JSON_lawful MiniJson.codec.
Proof.
  split.
  - reflexivity.
  - reflexivity.
  - intros us. apply parse_print_array.
    + apply parse_print_user.
    + intros u. eexists. reflexivity.
  - intros us. discriminate.
Qed.
End MiniJsonLaws.

(** * The statements at work on the sample data *)

Section Examples.
Local Existing Instance MiniJson.codec.

(** The sync of the sample store against a backend that answers. *)
Lemma sync_round_trip_witness :
  let b := Sample.browser Sample.store_pending Sample.backend in
  let result := SyncResult.mk (Some "synced") 2 4 in
  let b' := (System.syncLocalToServer b).2 in
  JSON_lawful MiniJson.codec /\
  pending_users (localStorage b) = Some Sample.local_users /\
  pending_responses (localStorage b) = Some Sample.local_responses /\
  System.syncLocalToServer b = (Ok result, b') /\
  length (Server.users (Server.sqlite (world b'))) = 2%nat /\
  length (Server.responses (Server.sqlite (world b'))) = 4%nat /\
  SyncResult.synced_users result = 2 /\
  SyncResult.synced_responses result = 4 /\
  pending_users (localStorage b') = Some [] /\
  pending_responses (localStorage b') = Some [].
Proof.
  intros b result b'.
  assert (Hu : pending_users (localStorage b) = Some Sample.local_users)
    by (vm_compute; reflexivity).
  assert (Hr : pending_responses (localStorage b) = Some Sample.local_responses)
    by (vm_compute; reflexivity).
  assert (Hrun : System.syncLocalToServer b = (Ok result, b')).
  { subst b'. destruct (System.syncLocalToServer b) as [r b1] eqn:E.
    assert (H1 : (System.syncLocalToServer b).1 = Ok result)
      by (vm_compute; reflexivity).
    rewrite E in H1. simpl in *. rewrite H1. reflexivity. }
  destruct (sync_round_trip b _ _ result b' MiniJson_lawful Hu Hr Hrun)
    as ((urows & rrows & Husers & _ & Hlu & Hresp & _ & Hlr) & Hsu & Hsr & Hpu & Hpr).
  split_and!; try assumption.
  - exact MiniJson_lawful.
  - rewrite Husers, length_app, Hlu. reflexivity.
  - rewrite Hresp, length_app, Hlr. reflexivity.
Defined.

(** The sync of the sample store against a backend whose engine fails the
    fourth of the six creates. *)
Lemma sync_failure_witness :
  let b := Sample.browser Sample.store_pending Sample.backend_failing in
  pending_users (localStorage b) = Some Sample.local_users /\
  pending_responses (localStorage b) = Some Sample.local_responses /\
  Server.reachable (world b) = true /\
  (3 < length Sample.local_users + length Sample.local_responses)%nat /\
  Server.faults (Server.sqlite (world b)) !! 3%nat =
    Some (Some "SQLITE_FULL: database or disk is full") /\
  exists b',
    System.syncLocalToServer b = (Throw (Error "Sync failed"), b') /\
    localStorage b' = localStorage b /\
    pending_users (localStorage b') = Some Sample.local_users /\
    pending_responses (localStorage b') = Some Sample.local_responses.
Proof.
  intros b.
  assert (Hu : pending_users (localStorage b) = Some Sample.local_users)
    by (vm_compute; reflexivity).
  assert (Hr : pending_responses (localStorage b) = Some Sample.local_responses)
    by (vm_compute; reflexivity).
  assert (Hk : (3 < length Sample.local_users
                    + length Sample.local_responses)%nat) by (simpl; lia).
  split_and!; try assumption; try reflexivity.
  exact (sync_failure_preserves_local_store b _ _ 3%nat _ Hu Hr eq_refl Hk
           eq_refl).
Defined.

(** Two syncs of an empty store. *)
Lemma sync_empty_store_witness :
  let b := Sample.browser Sample.store_empty Sample.backend in
  pending_users (localStorage b) = Some [] /\
  pending_responses (localStorage b) = Some [] /\
  (let '(first, b1) := Api.syncLocalToServer Server.api_sync b in
   let '(second, b2) := Api.syncLocalToServer Server.api_sync b1 in
   first = Ok (SyncResult.mk None 0 0) /\
   second = Ok (SyncResult.mk None 0 0) /\
   requests b1 = requests b /\ world b1 = world b /\
   requests b2 = requests b1 /\ world b2 = world b1 /\
   b2 = b).
Proof.
  intros b.
  assert (Hu : pending_users (localStorage b) = Some [])
    by (vm_compute; reflexivity).
  assert (Hr : pending_responses (localStorage b) = Some [])
    by (vm_compute; reflexivity).
  split; [exact Hu|]. split; [exact Hr|].
  exact (sync_empty_store_is_idempotent_noop Server.api_sync b Hu Hr).
Defined.
(** The aggregator on the rows of two students, one of whom answered
    question 1 twice. *)
Lemma aggregator_first_row_wins_witness :
  let rows := Fixture.rows_newest_first in
  let row := AdminResponseView.mk 1 "Amelia" "🐱" "3" "F" 1
               "I feel happy at school" 2 Sample.T1 in
  let s := StudentSummary.mk 1 "Amy" "🐱" "3" "F" [(1, 5)] Sample.T2 in
  row ∈ rows /\
  List.filter (fun s => StudentSummary.user_id s =? 1)
    (AdminPanel.studentSummaries Iso8601.getTime rows) = [s] /\
  JsMap.get (StudentSummary.answers s) 1 = Some 5 /\
  length (AdminPanel.studentSummaries Iso8601.getTime rows) = 2%nat.
Proof.
  intros rows row s.
  assert (Hrow : row ∈ rows) by (right; right; left).
  destruct (proj1 (aggregator_first_row_wins Iso8601.getTime) rows row Hrow)
    as (s' & first & Hone & Hfirst & Hget).
  assert (Hs : List.filter (fun s => StudentSummary.user_id s =? 1)
                 (AdminPanel.studentSummaries Iso8601.getTime rows) = [s])
    by (vm_compute; reflexivity).
  split; [exact Hrow|]. split; [exact Hs|].
  split; [|vm_compute; reflexivity].
  change (AdminResponseView.user_id row) with 1 in Hone, Hfirst.
  change (AdminResponseView.question_id row) with 1 in Hfirst, Hget.
  rewrite Hs in Hone. injection Hone as <-.
  rewrite Hget. vm_compute in Hfirst. injection Hfirst as <-. reflexivity.
Defined.

(** The sync route on the sample body: the two local users get the server
    ids 1 and 2, the responses of the unknown users 41 and 42 keep theirs. *)
Lemma sync_response_owner_witness :
  exists uploaded rows,
    sublist uploaded Sample.local_responses /\
    Server.responses
      (Server.post_api_sync (Some Sample.local_users)
         (Some Sample.local_responses) Sample.sqlite).2 = rows /\
    Forall2 (response_created
               (Server.userIdMap
                  (Server.sync_users Sample.local_users Sample.sqlite)))
            uploaded rows /\
    uploaded = Sample.local_responses /\
    map ResponseRow.user_id rows = [1; 2; 41; 42] /\
    map ResponseRow.timestamp rows =
      [Sample.T1; Sample.T2; Sample.T1; Sample.T2].
Proof.
  destruct (sync_response_owner_and_timestamp (Some Sample.local_users)
              (Some Sample.local_responses) Sample.sqlite)
    as (uploaded & rows & Hsub & Hrows & Hall & Hok).
  exists uploaded, rows.
  assert (Hval : Server.responses
            (Server.post_api_sync (Some Sample.local_users)
               (Some Sample.local_responses) Sample.sqlite).2 =
          [ResponseRow.mk 1 1 1 5 Sample.T1; ResponseRow.mk 2 2 1 4 Sample.T2;
           ResponseRow.mk 3 41 2 3 Sample.T1;
           ResponseRow.mk 4 42 3 2 Sample.T2]) by (vm_compute; reflexivity).
  rewrite Hval in Hrows. change (Server.responses Sample.sqlite) with
    (@nil ResponseRow.t) in Hrows. rewrite app_nil_l in Hrows. subst rows.
  split; [exact Hsub|]. split; [exact Hval|]. split; [exact Hall|].
  split; [apply Hok; vm_compute; reflexivity|]. split; reflexivity.
Defined.

(** The two reads against a remote that answers after 4000 ms. *)
Lemma read_deadlines_witness :
  let b := Sample.browser Sample.store_pending tt in
  let slow_all (w : unit) : Outcome (list ApiRow.t) * unit :=
    (Reply 4000 (mkResponse 200 (Json [])), w) in
  (Api.fetchAllResponses Iso8601.getTime slow_all b).1 = Ok (Api.DB, []) /\
  requests (Api.fetchAllResponses Iso8601.getTime slow_all b).2 =
    [(ep_admin_responses, 5000)] /\
  requests (Api.fetchUserResponses Iso8601.getTime
              Sample.slow_user_responses 42 b).2 =
    [(ep_user_responses 42, 3000)].
Proof.
  intros b slow_all.
  destruct (read_deadlines Iso8601.getTime slow_all
              Sample.slow_user_responses b 42) as ((Hq1 & Hq2) & Hall & _).
  split; [|split; [exact Hq1 | exact Hq2]].
  destruct (Hall 4000 (mkResponse 200 (Json [])) tt [] eq_refl eq_refl eq_refl)
    as [Hin _].
  apply Hin. lia.
Defined.

(** C6, as stated, fails for fetch-one-user's-responses: an answer that
    arrives with success after 4000 ms, within 5 seconds, is dropped; the
    request was issued with a deadline of 3000 ms, not 5000, and the
    operation returns local data. *)
Lemma fetchUserResponses_deadline_counterexample :
  let b := Sample.browser Sample.store_pending tt in
  let run := Api.fetchUserResponses Iso8601.getTime
               Sample.slow_user_responses 42 b in
  Sample.slow_user_responses 42 (world b) =
    (Reply 4000 (mkResponse 200 (Json [])), tt) /\
  4000 < 5000 /\
  requests run.2 = [(ep_user_responses 42, 3000)] /\
  requests run.2 <> [(ep_user_responses 42, 5000)] /\
  run.1 <> Ok (Api.DB, []) /\
  run.1 = Ok (Api.LOCAL,
              [Response.mk (Some 1709283903000) 42 3 2 Sample.T2]).
Proof.
  intros b run.
  assert (Hq : requests run.2 = [(ep_user_responses 42, 3000)])
    by (vm_compute; reflexivity).
  assert (Hr : run.1 = Ok (Api.LOCAL,
              [Response.mk (Some 1709283903000) 42 3 2 Sample.T2]))
    by (vm_compute; reflexivity).
  split_and!; try assumption; try reflexivity.
  - rewrite Hq. intros [= ].
  - rewrite Hr. intros [= ].
Qed.
(** The three operations on a store that holds the two sample users and
    no item for the responses, the remote out of reach for the reads and
    answering the sync. *)
Lemma absent_collection_witness :
  let b := Sample.browser Fixture.store_users_only tt in
  let b1 := (Api.fetchAllResponses_remote Sample.offline b).2 in
  let b2 := (Api.fetchUserResponses_remote
               Sample.user_responses_offline 42 b).2 in
  JSON_lawful MiniJson.codec /\
  Api.fetchAllResponses_remote Sample.offline b = (Throw FetchFailed, b1) /\
  Api.fetchUserResponses_remote Sample.user_responses_offline 42 b =
    (Throw FetchFailed, b2) /\
  pending_users (localStorage b) = Some Sample.local_users /\
  item_absent (localStorage b) "sel_responses" /\
  pending_responses (localStorage b) = Some [] /\
  Api.fetchAllResponses Iso8601.getTime Sample.offline b =
    (Ok (Api.LOCAL, []), b1) /\
  Api.fetchUserResponses Iso8601.getTime Sample.user_responses_offline 42 b =
    (Ok (Api.LOCAL, []), b2) /\
  (Api.syncLocalToServer Fixture.sync_accepted b).1 =
    Ok (SyncResult.mk (Some "synced") 2 0).
Proof.
  intros b b1 b2.
  assert (H1 : Api.fetchAllResponses_remote Sample.offline b =
               (Throw FetchFailed, b1)) by reflexivity.
  assert (H2 : Api.fetchUserResponses_remote Sample.user_responses_offline
                 42 b = (Throw FetchFailed, b2)) by reflexivity.
  assert (Hus : pending_users (localStorage b) = Some Sample.local_users)
    by (vm_compute; reflexivity).
  assert (Ar : item_absent (localStorage b) "sel_responses")
    by (left; reflexivity).
  destruct (absent_collection_is_empty_unparseable_throws Iso8601.getTime
              Sample.offline Sample.user_responses_offline
              Fixture.sync_accepted b 42 _ b1 _ b2 MiniJson_lawful H1 H2)
    as ((_ & Habsent & _ & _) & Hall & Huser & Hsync).
  pose proof (Habsent Ar) as Hrs.
  rewrite Hus, Hrs in Hall, Hsync. rewrite Hrs in Huser.
  split_and!; try assumption.
  - exact MiniJson_lawful.
  - rewrite Hsync. reflexivity.
Defined.

(** C7, as stated, fails for an unparseable collection: with the text of
    a write that was cut short under [sel_responses] and the remote out of
    reach, none of the three operations returns the result of an empty
    collection; each throws the [SyntaxError] of [JSON.parse]. *)
Lemma unparseable_collection_counterexample :
  let b := Sample.browser Sample.store_corrupt tt in
  localStorage b !! "sel_responses" = Some "[{" /\
  pending_responses (localStorage b) = None /\
  (Api.fetchAllResponses Iso8601.getTime Sample.offline b).1
    <> Ok (Api.LOCAL, []) /\
  (Api.fetchAllResponses Iso8601.getTime Sample.offline b).1
    = Throw SyntaxError /\
  (Api.fetchUserResponses Iso8601.getTime Sample.user_responses_offline
     42 b).1 = Throw SyntaxError /\
  (Api.syncLocalToServer (fun _ _ => Sample.offline) b).1
    = Throw SyntaxError.
Proof.
  intros b.
  assert (Ha : (Api.fetchAllResponses Iso8601.getTime Sample.offline b).1
               = Throw SyntaxError) by (vm_compute; reflexivity).
  split_and!; try (vm_compute; reflexivity).
  rewrite Ha. intros [= ].
Qed.

(** Two create-user calls, a second apart, the remote out of reach. *)
Lemma offline_user_ids_witness :
  let b := Sample.browser Sample.store_empty tt in
  JSON_lawful MiniJson.codec /\
  (forall name avatar grade gender w,
     (Sample.login_offline name avatar grade gender w).1 = NetworkError) /\
  pending_users (localStorage b) = Some [] /\
  exists created b',
    for_each (createUser_from Sample.login_offline) Sample.profiles b =
      (Ok created, b') /\
    pending_users (localStorage b') = Some created /\
    map User.id created = [1709283600000; 1709283601000] /\
    NoDup (map User.id created).
Proof.
  intros b.
  assert (Hoff : forall name avatar grade gender w,
            (Sample.login_offline name avatar grade gender w).1 = NetworkError)
    by reflexivity.
  assert (Hu : pending_users (localStorage b) = Some [])
    by (vm_compute; reflexivity).
  split; [exact MiniJson_lawful|]. split; [exact Hoff|]. split; [exact Hu|].
  destruct (offline_user_ids_are_clock_readings Sample.login_offline
              MiniJson_lawful Hoff b Sample.profiles [] Hu)
    as (created & b' & Hrun & Hst & Hids & Hnd).
  exists created, b'. split; [exact Hrun|]. split; [exact Hst|].
  split; [exact Hids|].
  apply Hnd. simpl. apply NoDup_cons. split; [|apply NoDup_singleton].
  intros H. apply list_elem_of_singleton in H. discriminate H.
Defined.

(** C8, as stated, fails when two calls read the same millisecond: both
    users get the id 1709283600000 and both are in the local collection. *)
Lemma same_millisecond_counterexample :
  let b := mkBrowser Sample.store_empty Sample.clock_stalled 0 tt [] in
  let run := for_each (createUser_from Sample.login_offline)
               Sample.profiles b in
  let u1 := User.mk 1709283600000 "Amy" "🐱" "3" "F" in
  let u2 := User.mk 1709283600000 "Ben" "🐶" "4" "M" in
  (forall name avatar grade gender w,
     (Sample.login_offline name avatar grade gender w).1 = NetworkError) /\
  run.1 = Ok [u1; u2] /\
  pending_users (localStorage run.2) = Some [u1; u2] /\
  User.id u1 = User.id u2 /\
  ~ NoDup (map User.id [u1; u2]).
Proof.
  intros b run u1 u2.
  split; [reflexivity|]. split; [vm_compute; reflexivity|].
  split; [vm_compute; reflexivity|]. split; [reflexivity|].
  simpl. intros H. apply NoDup_cons in H as [H _]. apply H. left.
Qed.

(** The local path on the sample store, whose last two responses belong
    to the unknown users 41 and 42. *)
Lemma orphan_responses_witness :
  let b := Sample.browser Sample.store_pending tt in
  let r41 := Response.mk (Some 1709283902000) 41 2 3 Sample.T1 in
  let r42 := Response.mk (Some 1709283903000) 42 3 2 Sample.T2 in
  pending_users (localStorage b) = Some Sample.local_users /\
  pending_responses (localStorage b) = Some Sample.local_responses /\
  orphan Sample.local_users r41 /\ orphan Sample.local_users r42 /\
  Response.user_id r41 <> Response.user_id r42 /\
  exists rows s,
    Api.fetchAllResponses_local Iso8601.getTime b = (Ok (Api.LOCAL, rows), b) /\
    List.filter (fun s => StudentSummary.user_id s =? -1)
      (AdminPanel.studentSummaries Iso8601.getTime
         (map (AdminPanel.enrich Sample.QUESTIONS) rows)) = [s] /\
    JsMap.has (StudentSummary.answers s) 2 = true /\
    JsMap.has (StudentSummary.answers s) 3 = true.
Proof.
  intros b r41 r42.
  assert (Hu : pending_users (localStorage b) = Some Sample.local_users)
    by (vm_compute; reflexivity).
  assert (Hr : pending_responses (localStorage b) = Some Sample.local_responses)
    by (vm_compute; reflexivity).
  assert (H41 : r41 ∈ Sample.local_responses) by (do 2 right; left).
  assert (H42 : r42 ∈ Sample.local_responses) by (do 3 right; left).
  assert (O41 : orphan Sample.local_users r41) by reflexivity.
  assert (O42 : orphan Sample.local_users r42) by reflexivity.
  split_and!; try assumption; [intros [= ]|].
  destruct (orphan_responses_share_one_summary Sample.QUESTIONS
              Iso8601.getTime b _ _ Hu Hr) as (rows & Hrun & _ & _ & Hone).
  destruct (Hone r41 H41 O41) as (s & Hfilter & Hall).
  exists rows, s. split; [exact Hrun|]. split; [exact Hfilter|].
  split; [exact (Hall r41 H41 O41) | exact (Hall r42 H42 O42)].
Defined.

(** C9 on the export. A student answered question 1 with 5 and a question
    7, which is not in the question set of size 3, with 3. The dashboard
    shows the sum of the recorded scores, 8; the line of the export has
    the total 5, next to the progress ["2/3"] that counts both answers. On
    the example of the claim, answers [{1:5, 2:3}], both give 8 and the
    export gives ["2/3"]. *)
Theorem exportCSV_total_misses_answers_outside_question_set :
  (exists s,
     AdminPanel.studentSummaries Iso8601.getTime Sample.rows_outside_set = [s]
     /\ StudentSummary.answers s = [(1, 5); (7, 3)]
     /\ AdminPanel.totalScore s = 8
     /\ AdminPanel.answerCount s = 2%nat
     /\ AdminPanel.totalQuestions Sample.QUESTIONS = 3%nat
     /\ CsvRow.totalScore (AdminPanel.exportCSV_row Sample.QUESTIONS s) = 5
     /\ CsvRow.progress (AdminPanel.exportCSV_row Sample.QUESTIONS s) = "2/3")
  /\
  (exists s,
     AdminPanel.studentSummaries Iso8601.getTime Sample.rows_inside_set = [s]
     /\ StudentSummary.answers s = [(1, 5); (2, 3)]
     /\ AdminPanel.totalScore s = 8
     /\ AdminPanel.answerCount s = 2%nat
     /\ CsvRow.totalScore (AdminPanel.exportCSV_row Sample.QUESTIONS s) = 8
     /\ CsvRow.progress (AdminPanel.exportCSV_row Sample.QUESTIONS s) = "2/3").
Proof.
  split; eexists; (split; [vm_compute; reflexivity|]);
    repeat split; vm_compute; reflexivity.
Qed.
End Examples.

(** * Properties of the rest of the code *)

(** ** The health probe *)

Section Health.
Context {W : Type}.
Variable get_health : W -> Outcome unit * W.
Implicit Types b : Browser W.


(** X1. The health probe never throws and never touches the local store;
    it answers [true] exactly when an answer with a success status arrives
    before 2000 ms. *)
Theorem checkServerHealth_total b :
  exists online b',
    Gateway.checkServerHealth get_health b = (Ok online, b') /\
    localStorage b' = localStorage b /\
    (online = true <->
     exists l res w', get_health (world b) = (Reply l res, w') /\
                      l < 2000 /\ ok res = true).
Proof.
  unfold Gateway.checkServerHealth, try_catch, await, resolve,
    Gateway.fetchWithTimeout_unlisted.
  destruct (get_health (world b)) as [[|l res] w'] eqn:E; simpl.
  - eexists _, _. split; [reflexivity|]. split; [reflexivity|].
    split; [discriminate|]. intros (l & res & w0 & [= ] & _).
  - destruct (Z.ltb_spec l 2000); simpl.
    + eexists _, _. split; [reflexivity|]. split; [reflexivity|]. split.
      * intros Hok. exists l, res, w'. auto.
      * intros (l0 & res0 & w0 & [= <- <- <-] & _ & Hok). exact Hok.
    + eexists _, _. split; [reflexivity|]. split; [reflexivity|].
      split; [discriminate|].
      intros (l0 & res0 & w0 & [= <- <- <-] & Hl & _). lia.
Qed.
End Health.

(** ** Submitting a response *)

Section Submit.
Context {J : JSON} {W : Type}.
Variable JSON_stringify_responses : list Response.t -> string.
Variable toISOString : Z -> string.
Variable post_response : Z -> Z -> Z -> W -> Outcome Ack.t * W.
Implicit Types b : Browser W.

Hypothesis responses_round_trip :
  forall rs, JSON_parse_responses (JSON_stringify_responses rs) = Some rs.
Hypothesis responses_text :
  forall rs, JSON_stringify_responses rs <> "".




End Submit.

(** ** Where a write ends up *)

Section Writes.
Context {J : JSON}.
Variable JSON_stringify_responses : list Response.t -> string.
Variable toISOString : Z -> string.
Import Server.
Implicit Types b : Browser Backend.

Hypothesis lawful : JSON_lawful J.
Hypothesis responses_round_trip :
  forall rs, JSON_parse_responses (JSON_stringify_responses rs) = Some rs.
Hypothesis responses_text :
  forall rs, JSON_stringify_responses rs <> "".


End Writes.

Section UserWrites.
Context {J : JSON}.
Import Server.
Implicit Types b : Browser Backend.

Hypothesis lawful : JSON_lawful J.



End UserWrites.

(** ** Sorting *)

Section Sorting.
Context {A : Type}.
Variable cmp : A -> A -> Z.
(** An order that the comparator decides on the elements of interest. *)
Variable R : A -> A -> Prop.
Variable P : A -> Prop.
Hypothesis R_trans : forall x y z, R x y -> R y z -> R x z.
Hypothesis cmp_le : forall x y, P x -> P y -> cmp x y <= 0 -> R x y.
Hypothesis cmp_gt : forall x y, P x -> P y -> ~ cmp x y <= 0 -> R y x.

Lemma sort_insert_StronglySorted x l :
  P x -> Forall P l -> StronglySorted R l ->
  StronglySorted R (sort_insert cmp x l).
Proof.
  intros Hx Hl Hs. induction l as [|y l IH]; simpl.
  - repeat constructor.
  - apply Forall_cons in Hl as [Hy Hl].
    apply StronglySorted_inv in Hs as [Hs Hall].
    destruct (Z.leb_spec (cmp x y) 0) as [Hle|Hgt].
    + constructor; [constructor; assumption|].
      constructor; [apply cmp_le; assumption|].
      eapply Forall_impl; [exact Hall|]. intros z Hz.
      apply (R_trans x y z); [apply cmp_le; assumption | exact Hz].
    + constructor; [apply IH; assumption|].
      rewrite (sort_insert_Permutation cmp x l). constructor; [|exact Hall].
      apply cmp_gt; [assumption | assumption | lia].
Qed.

Lemma Array_sort_StronglySorted l :
  Forall P l -> StronglySorted R (Array_sort cmp l).
Proof.
  unfold Array_sort. induction l as [|x l IH]; intros Hl; simpl.
  - constructor.
  - apply Forall_cons in Hl as [Hx Hl].
    apply sort_insert_StronglySorted; [exact Hx | | apply IH; exact Hl].
    assert (Hperm : foldr (sort_insert cmp) [] l ≡ₚ l)
      by apply (Array_sort_Permutation cmp l).
    rewrite Hperm. exact Hl.
Qed.
End Sorting.

(** In a sorted list the first element that passes a test is in front of
    every other element that passes it. *)
Lemma find_StronglySorted {A} (R : A -> A -> Prop) (f : A -> bool) l x :
  StronglySorted R l -> List.find f l = Some x ->
  f x = true /\ x ∈ l /\ forall y, y ∈ l -> f y = true -> y = x \/ R x y.
Proof.
  intros Hs. induction Hs as [|z l Hs IH Hall]; simpl; [discriminate|].
  destruct (f z) eqn:E.
  - intros [= <-]. split; [exact E|]. split; [left|].
    intros y Hy _. apply elem_of_cons in Hy as [->|Hy]; [left; reflexivity|].
    right. rewrite Forall_forall in Hall. apply Hall. exact Hy.
  - intros Hfind. destruct (IH Hfind) as (Hfx & Hin & Hfirst).
    split; [exact Hfx|]. split; [right; exact Hin|].
    intros y Hy Hfy. apply elem_of_cons in Hy as [->|Hy]; [congruence|].
    apply Hfirst; assumption.
Qed.

(** ** The order of the local reads *)

Section LocalOrder.
Context {J : JSON} {W : Type}.
Variable Date_getTime : string -> option Z.
Implicit Types b : Browser W.

Lemma not_older_trans ta tb tc :
  not_older Date_getTime ta tb -> not_older Date_getTime tb tc ->
  not_older Date_getTime ta tc.
Proof.
  intros (a & b & Ha & Hb & Hab) (b' & c & Hb' & Hc & Hbc).
  exists a, c. rewrite Hb in Hb'. injection Hb' as <-.
  repeat split; [assumption | assumption | lia].
Qed.

Lemma newest_first_le ta tb :
  valid_date Date_getTime ta -> valid_date Date_getTime tb ->
  Api.newest_first Date_getTime ta tb <= 0 -> not_older Date_getTime ta tb.
Proof.
  intros [a Ha] [b Hb]. unfold Api.newest_first. rewrite Ha, Hb. intros H.
  exists a, b. repeat split; [assumption | assumption | lia].
Qed.

Lemma newest_first_gt ta tb :
  valid_date Date_getTime ta -> valid_date Date_getTime tb ->
  ~ Api.newest_first Date_getTime ta tb <= 0 -> not_older Date_getTime tb ta.
Proof.
  intros [a Ha] [b Hb]. unfold Api.newest_first. rewrite Ha, Hb. intros H.
  exists b, a. repeat split; [assumption | assumption | lia].
Qed.

Lemma sort_newest_first {A} (timestamp : A -> string) (l : list A) :
  Forall (fun x => valid_date Date_getTime (timestamp x)) l ->
  StronglySorted
    (fun x y => not_older Date_getTime (timestamp x) (timestamp y))
    (Array_sort (fun x y => Api.newest_first Date_getTime (timestamp x)
                              (timestamp y)) l).
Proof.
  apply Array_sort_StronglySorted.
  - intros x y z. apply not_older_trans.
  - intros x y. apply newest_first_le.
  - intros x y. apply newest_first_gt.
Qed.

(** X5. When every stored response has a valid timestamp, both local reads
    return their rows newest first. The local admin listing has one row
    per stored response (none is left out), and the local listing of a
    user holds exactly the stored responses of that user. *)
Theorem local_reads_are_newest_first b users responses :
  pending_users (localStorage b) = Some users ->
  pending_responses (localStorage b) = Some responses ->
  Forall (fun r => valid_date Date_getTime (Response.timestamp r))
         responses ->
  (exists rows,
     Api.fetchAllResponses_local Date_getTime b = (Ok (Api.LOCAL, rows), b) /\
     StronglySorted
       (fun x y => not_older Date_getTime (ApiRow.timestamp x)
                     (ApiRow.timestamp y)) rows /\
     length rows = length responses) /\
  (forall userId,
     exists found,
       Api.fetchUserResponses_local Date_getTime userId b =
         (Ok (Api.LOCAL, found), b) /\
       StronglySorted
         (fun x y => not_older Date_getTime (Response.timestamp x)
                       (Response.timestamp y)) found /\
       found ≡ₚ List.filter (fun r => Response.user_id r =? userId)
                  responses).
Proof.
  intros Hu Hr Hvalid. split.
  - eexists. rewrite fetchAllResponses_local_eq, Hu, Hr.
    split; [reflexivity|]. split.
    + apply (sort_newest_first ApiRow.timestamp).
      apply Forall_fmap. eapply Forall_impl; [exact Hvalid|].
      intros r Hv. exact Hv.
    + rewrite Array_sort_Permutation. apply length_map.
  - intros userId. eexists. rewrite fetchUserResponses_local_eq, Hr.
    split; [reflexivity|]. split; [|apply Array_sort_Permutation].
    apply (sort_newest_first Response.timestamp).
    rewrite Forall_forall in *. intros r Hin.
    apply list_elem_of_In, filter_In in Hin as [Hin _].
    apply Hvalid, list_elem_of_In. exact Hin.
Qed.
End LocalOrder.

(** ** The aggregator on newest-first input *)

Section Latest.
Variable Date_getTime : string -> option Z.

(** X6. On rows that come newest first, the answer that a summary records
    for a question is the score of a row of that user and question that is
    not older than any other row of that user and question: the latest
    answer wins. *)
Theorem aggregator_latest_answer_wins rows s q v :
  StronglySorted
    (fun x y => not_older Date_getTime (AdminResponseView.timestamp x)
                  (AdminResponseView.timestamp y)) rows ->
  s ∈ AdminPanel.studentSummaries Date_getTime rows ->
  JsMap.get (StudentSummary.answers s) q = Some v ->
  exists row,
    row ∈ rows /\
    AdminResponseView.user_id row = StudentSummary.user_id s /\
    AdminResponseView.question_id row = q /\
    AdminResponseView.score row = v /\
    forall other,
      other ∈ rows ->
      AdminResponseView.user_id other = StudentSummary.user_id s ->
      AdminResponseView.question_id other = q ->
      other = row \/
      not_older Date_getTime (AdminResponseView.timestamp row)
                (AdminResponseView.timestamp other).
Proof.
  intros Hsorted Hin Hget.
  rewrite (studentSummaries_first_row Date_getTime rows s q Hin) in Hget.
  destruct (first_row rows (StudentSummary.user_id s) q) as [row|] eqn:E;
    [|discriminate].
  injection Hget as Hv. unfold first_row in E.
  destruct (find_StronglySorted _ _ _ _ Hsorted E) as (Hf & Hrow & Hfirst).
  apply andb_true_iff in Hf as [Hu Hq].
  apply Z.eqb_eq in Hu, Hq.
  exists row. repeat split; try assumption.
  intros other Ho Hou Hoq. apply Hfirst; [exact Ho|].
  rewrite Hou, Hoq, !Z.eqb_refl. reflexivity.
Qed.
End Latest.

(** ** The read routes of the backend *)

Section ReadRoutes.
Import Server.

Lemma text_descending_le a b :
  Routes.text_descending a b <= 0 <-> String.le b a.
Proof.
  unfold Routes.text_descending, Routes.text_ascending, String.le, String.leb.
  destruct (b ?= a)%string; simpl; split; intros H; try lia; try done.
Qed.

Lemma sort_text_descending {A} (timestamp : A -> string) (l : list A) :
  StronglySorted (fun x y => String.le (timestamp y) (timestamp x))
    (Array_sort (fun x y => Routes.text_descending (timestamp x)
                              (timestamp y)) l).
Proof.
  apply (Array_sort_StronglySorted _ _ (fun _ => True)).
  - intros x y z Hxy Hyz. etrans; eassumption.
  - intros x y _ _ H. apply text_descending_le. exact H.
  - intros x y _ _ H. rewrite text_descending_le in H.
    destruct (total String.le (timestamp x) (timestamp y)); [assumption|].
    contradiction.
  - apply Forall_true. done.
Qed.

Lemma join_users_length users r :
  NoDup (map UserRow.id users) ->
  length (Routes.join_users users r) =
  if bool_decide (ResponseRow.user_id r ∈ map UserRow.id users) then 1%nat
  else 0%nat.
Proof.
  unfold Routes.join_users. rewrite length_map.
  induction users as [|u users IH]; simpl; intros Hnd; [reflexivity|].
  apply NoDup_cons in Hnd as [Hu Hnd]. specialize (IH Hnd).
  destruct (Z.eqb_spec (ResponseRow.user_id r) (UserRow.id u)) as [E|E]; simpl.
  - rewrite bool_decide_true by (rewrite E; left).
    rewrite IH, bool_decide_false by (rewrite E; exact Hu). reflexivity.
  - rewrite IH. repeat case_bool_decide; try reflexivity.
    + exfalso. apply H0. right. assumption.
    + exfalso. apply elem_of_cons in H0 as [?|?]; tauto.
Qed.

(** X7. The admin listing of the backend is an inner join: every row
    pairs a stored response with the user row whose key is the response's
    user id and carries that user's fields; when the keys of the users
    table are distinct there is exactly one row per response that has
    such a user, so a response whose user id is no key of the users table
    is left out. The rows come in descending byte order of their timestamp
    texts. *)
Theorem admin_listing_is_sorted_inner_join db :
  (forall row, row ∈ Routes.select_admin_responses db ->
     exists u r,
       u ∈ users db /\ r ∈ responses db /\
       ResponseRow.user_id r = UserRow.id u /\
       row = ApiRow.mk (UserRow.id u) (UserRow.name u) (UserRow.avatar u)
               (UserRow.grade u) (UserRow.gender u)
               (ResponseRow.question_id r) (ResponseRow.score r)
               (ResponseRow.timestamp r)) /\
  (NoDup (map UserRow.id (users db)) ->
   length (Routes.select_admin_responses db) =
   length (List.filter
             (fun r => bool_decide
                         (ResponseRow.user_id r ∈ map UserRow.id (users db)))
             (responses db))) /\
  StronglySorted
    (fun x y => String.le (ApiRow.timestamp y) (ApiRow.timestamp x))
    (Routes.select_admin_responses db).
Proof.
  unfold Routes.select_admin_responses. split; [|split].
  - intros row. rewrite Array_sort_Permutation.
    rewrite list_elem_of_In, in_flat_map. intros (r & Hr & Hrow).
    unfold Routes.join_users in Hrow.
    apply in_map_iff in Hrow as (u & <- & Hu).
    apply filter_In in Hu as [Hu Hid]. apply Z.eqb_eq in Hid.
    exists u, r. rewrite !list_elem_of_In. auto.
  - intros Hnd. rewrite Array_sort_Permutation.
    induction (responses db) as [|r rs IH]; simpl; [reflexivity|].
    rewrite length_app, IH, join_users_length by exact Hnd.
    destruct (bool_decide _); reflexivity.
  - apply (sort_text_descending ApiRow.timestamp).
Qed.

(** X8. The listing of one user's responses by the backend holds exactly
    the stored responses of that user, each with its key as id, in
    ascending order of question id; several answers to one question are
    all kept. *)
Theorem user_listing_is_sorted_selection userId db :
  Routes.select_user_responses userId db ≡ₚ
    map (fun r => Response.mk (Some (ResponseRow.id r))
                    (ResponseRow.user_id r) (ResponseRow.question_id r)
                    (ResponseRow.score r) (ResponseRow.timestamp r))
        (List.filter (fun r => ResponseRow.user_id r =? userId)
                     (responses db)) /\
  StronglySorted
    (fun x y => Response.question_id x <= Response.question_id y)
    (Routes.select_user_responses userId db) /\
  Forall (fun r => Response.user_id r = userId)
    (Routes.select_user_responses userId db).
Proof.
  unfold Routes.select_user_responses. split; [|split].
  - rewrite Array_sort_Permutation. reflexivity.
  - assert (Hs : StronglySorted
                   (fun x y => ResponseRow.question_id x
                               <= ResponseRow.question_id y)
                   (Array_sort (fun a b => ResponseRow.question_id a
                                           - ResponseRow.question_id b)
                      (List.filter (fun r => ResponseRow.user_id r =? userId)
                         (responses db)))).
    { apply (Array_sort_StronglySorted _ _ (fun _ => True)).
      - intros x y z Hxy Hyz. lia.
      - intros x y _ _ H. lia.
      - intros x y _ _ H. lia.
      - apply Forall_true. done. }
    induction Hs as [|r rs Hs IH Hall]; simpl; constructor.
    + exact IH.
    + apply Forall_fmap. eapply Forall_impl; [exact Hall|].
      intros y Hy. exact Hy.
  - rewrite Array_sort_Permutation. apply Forall_fmap, Forall_forall.
    intros r Hr. apply list_elem_of_In, filter_In in Hr as [_ Hid].
    apply Z.eqb_eq in Hid. exact Hid.
Qed.
End ReadRoutes.

(** ** Rows are only ever added *)

Section AppendOnly.
Import Server.

Lemma next_rowid_fresh ids : next_rowid ids ∉ ids.
Proof.
  assert (H : forall i, i ∈ ids -> i <= foldr Z.max 0 ids).
  { induction ids as [|j ids IH]; intros i Hi.
    - apply elem_of_nil in Hi as [].
    - simpl. apply elem_of_cons in Hi as [->|Hi]; [lia|].
      specialize (IH i Hi). lia. }
  intros Hin. apply H in Hin. unfold next_rowid in Hin. lia.
Qed.

Lemma step_ok_refl db : step_ok db db.
Proof. split; [split; reflexivity | trivial]. Qed.

Lemma step_ok_trans db1 db2 db3 :
  step_ok db1 db2 -> step_ok db2 db3 -> step_ok db1 db3.
Proof.
  intros [[Hu1 Hr1] Hk1] [[Hu2 Hr2] Hk2].
  split; [split; etrans; eassumption | auto].
Qed.

Lemma next_fault_step db : step_ok db (next_fault db).2.
Proof.
  destruct (next_fault_tables db) as (Hu & Hr & _).
  unfold step_ok, grown, keys_distinct. rewrite Hu, Hr. auto.
Qed.

Lemma insert_user_step name avatar grade gender db :
  step_ok db (insert_user name avatar grade gender db).2.
Proof.
  unfold insert_user.
  pose proof (next_fault_step db) as Hstep.
  destruct (next_fault db) as [[message|] db1]; simpl in *; [exact Hstep|].
  eapply step_ok_trans; [exact Hstep|].
  split; [split; simpl; [apply prefix_app_r|]; reflexivity|].
  intros [Hu Hr]. split; simpl; [|exact Hr].
  rewrite map_app. simpl. apply NoDup_app. split; [exact Hu|].
  split; [|apply NoDup_singleton].
  intros i Hi Hi'. apply list_elem_of_singleton in Hi'. subst i.
  exact (next_rowid_fresh _ Hi).
Qed.

Lemma insert_response_step user_id question_id score timestamp db :
  step_ok db (insert_response user_id question_id score timestamp db).2.
Proof.
  unfold insert_response.
  pose proof (next_fault_step db) as Hstep.
  destruct (next_fault db) as [[message|] db1]; simpl in *; [exact Hstep|].
  eapply step_ok_trans; [exact Hstep|].
  split; [split; simpl; [|apply prefix_app_r]; reflexivity|].
  intros [Hu Hr]. split; simpl; [exact Hu|].
  rewrite map_app. simpl. apply NoDup_app. split; [exact Hr|].
  split; [|apply NoDup_singleton].
  intros i Hi Hi'. apply list_elem_of_singleton in Hi'. subst i.
  exact (next_rowid_fresh _ Hi).
Qed.

Lemma sync_user_step st user :
  step_ok (database st) (database (sync_user st user)).
Proof.
  unfold sync_user.
  pose proof (insert_user_step (User.name user) (User.avatar user)
                (User.grade user) (User.gender user) (database st)) as H.
  destruct (insert_user _ _ _ _ _) as [[err|lastID] db]; exact H.
Qed.

Lemma sync_response_step st resp :
  step_ok (database st) (database (sync_response st resp)).
Proof.
  unfold sync_response.
  pose proof (insert_response_step (dbUserId (userIdMap st) resp)
                (Response.question_id resp) (Response.score resp)
                (Response.timestamp resp) (database st)) as H.
  destruct (insert_response _ _ _ _ _) as [[err|lastID] db]; exact H.
Qed.

Lemma sync_users_step us : forall st,
  step_ok (database st) (database (fold_left sync_user us st)).
Proof.
  induction us as [|u us IH]; intros st; simpl; [apply step_ok_refl|].
  eapply step_ok_trans; [apply sync_user_step | apply IH].
Qed.

Lemma sync_responses_step rs : forall st,
  step_ok (database st) (database (fold_left sync_response rs st)).
Proof.
  induction rs as [|r rs IH]; intros st; simpl; [apply step_ok_refl|].
  eapply step_ok_trans; [apply sync_response_step | apply IH].
Qed.

Lemma post_api_sync_step us rs db : step_ok db (post_api_sync us rs db).2.
Proof.
  assert (H1 : step_ok db (database (sync_users (default [] us) db)))
    by apply (sync_users_step _ (mkPhase ∅ 0 0 None db)).
  assert (H2 : step_ok db (database (sync_responses (default [] rs)
                                       (sync_users (default [] us) db)))).
  { eapply step_ok_trans; [exact H1 | apply sync_responses_step]. }
  unfold post_api_sync.
  destruct us, rs; simpl in *; try apply step_ok_refl;
    repeat (destruct (rejected _); simpl); assumption.
Qed.

(** X9. None of the seven routes of the backend changes or removes a
    stored row: after any request the two tables hold their former rows,
    unchanged and in front of those the request added; and if the keys of
    each table were pairwise distinct before the request, they are so
    after it. This holds whether the statements of the request succeed or
    fail. *)
Theorem routes_only_append_rows db :
  let after db' := grown db db' /\ (keys_distinct db -> keys_distinct db') in
  after (Routes.get_api_health db).2 /\
  (forall name avatar grade gender,
     after (Routes.post_api_login name avatar grade gender db).2) /\
  (forall user_id question_id score,
     after (Routes.post_api_response user_id question_id score db).2) /\
  after (Routes.get_api_admin_responses db).2 /\
  (forall userId, after (Routes.get_api_users_responses userId db).2) /\
  (forall users responses, after (post_api_sync users responses db).2) /\
  after (Routes.get_api_users db).2.
Proof.
  cbv zeta. fold (step_ok db). split_and!.
  - apply step_ok_refl.
  - intros name avatar grade gender. unfold Routes.post_api_login.
    destruct (String.eqb name ""); [apply step_ok_refl|].
    pose proof (insert_user_step name avatar grade gender db) as H.
    destruct (insert_user _ _ _ _ _) as [[err|lastID] db']; exact H.
  - intros user_id question_id score. unfold Routes.post_api_response.
    destruct (_ || _); [apply step_ok_refl|].
    pose proof (insert_response_step user_id question_id score
                  (CURRENT_TIMESTAMP db) db) as H.
    destruct (insert_response _ _ _ _ _) as [[err|lastID] db']; exact H.
  - unfold Routes.get_api_admin_responses.
    pose proof (next_fault_step db) as H.
    destruct (next_fault db) as [[m|] db']; exact H.
  - intros userId. unfold Routes.get_api_users_responses.
    pose proof (next_fault_step db) as H.
    destruct (next_fault db) as [[m|] db']; exact H.
  - intros us rs. apply post_api_sync_step.
  - unfold Routes.get_api_users.
    pose proof (next_fault_step db) as H.
    destruct (next_fault db) as [[m|] db']; exact H.
Qed.
End AppendOnly.

(** ** The identifier map of a sync *)

Section RemapKeys.
Import Server.

Lemma next_rowid_snoc ids :
  next_rowid (ids ++ [next_rowid ids]) = next_rowid ids + 1.
Proof.
  unfold next_rowid.
  assert (Hpos : 0 <= foldr Z.max 0 ids) by (induction ids; simpl; lia).
  assert (H : forall x, 0 <= x ->
            foldr Z.max 0 (ids ++ [x]) = Z.max (foldr Z.max 0 ids) x).
  { clear Hpos. intros x Hx. induction ids as [|i ids IH]; simpl; [lia|].
    rewrite IH. lia. }
  rewrite H by lia. lia.
Qed.

(** Step 1 of a sync whose statements all succeed: the keys of the new
    rows count up from the next free key, and the map sends a local id to
    the key of the row of the last user of the body that has this id. *)
Lemma sync_users_remap us : forall st,
  fault_free (length us) (database st) ->
  let st' := fold_left sync_user us st in
  let n0 := next_rowid (map UserRow.id (users (database st))) in
  (exists rows,
     users (database st') = (users (database st) ++ rows)%list /\
     length rows = length us /\
     forall i row, rows !! i = Some row -> UserRow.id row = n0 + Z.of_nat i) /\
  (forall i u, us !! i = Some u ->
     (forall i' u', us !! i' = Some u' -> User.id u' = User.id u ->
                    (i' <= i)%nat) ->
     userIdMap st' !! User.id u = Some (n0 + Z.of_nat i)) /\
  (forall id, (forall u, u ∈ us -> User.id u <> id) ->
     userIdMap st' !! id = userIdMap st !! id).
Proof.
  induction us as [|u us IH]; intros st Hff; cbv zeta.
  - simpl. split; [exists []; rewrite app_nil_r; split_and!; try done|].
    split; [intros i u Hu; rewrite lookup_nil in Hu; discriminate | done].
  - simpl. apply fault_free_S in Hff as [Hnow Hff].
    rewrite (sync_user_ok _ _ Hnow). set (st1 := mkPhase _ _ _ _ _).
    assert (Hff1 : fault_free (length us) (database st1)) by exact Hff.
    destruct (IH st1 Hff1) as ((rows & Hrows & Hlen & Hids) & Hlast & Hnone).
    clear IH. simpl in Hrows, Hids, Hlast.
    rewrite map_app in Hids, Hlast. simpl in Hids, Hlast.
    rewrite next_rowid_snoc in Hids, Hlast.
    set (n0 := next_rowid (map UserRow.id (users (database st)))) in *.
    split_and!.
    + eexists (_ :: rows). rewrite Hrows, <- app_assoc. simpl.
      split; [reflexivity|]. split; [rewrite Hlen; reflexivity|].
      intros [|i] row; simpl.
      * intros [= <-]. simpl. lia.
      * intros Hrow. rewrite (Hids i row Hrow). lia.
    + intros [|i] v; simpl.
      * intros [= <-] Hl. rewrite Hnone.
        -- simpl. rewrite lookup_insert_eq. f_equal. lia.
        -- intros u' Hu' Heq. apply list_elem_of_lookup in Hu' as [i' Hi'].
           specialize (Hl (S i') u' Hi' Heq). lia.
      * intros Hv Hl. rewrite (Hlast i v Hv).
        -- f_equal. lia.
        -- intros i' u' Hi' Heq. specialize (Hl (S i') u' Hi' Heq). lia.
    + intros id Hid. rewrite Hnone.
      * simpl. apply lookup_insert_ne. apply Hid. left.
      * intros u' Hu'. apply Hid. right. exact Hu'.
Qed.

Lemma sync_users_map_at us db i u :
  fault_free (length us) db ->
  us !! i = Some u ->
  (forall i' u', us !! i' = Some u' -> User.id u' = User.id u ->
                 (i' <= i)%nat) ->
  userIdMap (sync_users us db) !! User.id u =
    Some (next_rowid (map UserRow.id (users db)) + Z.of_nat i).
Proof.
  intros Hff Hu Hlast.
  destruct (sync_users_remap us (mkPhase ∅ 0 0 None db) Hff)
    as (_ & H & _).
  apply (H i u Hu Hlast).
Qed.

Lemma sync_users_map_none us db id :
  fault_free (length us) db ->
  (forall u, u ∈ us -> User.id u <> id) ->
  userIdMap (sync_users us db) !! id = None.
Proof.
  intros Hff Hid.
  destruct (sync_users_remap us (mkPhase ∅ 0 0 None db) Hff)
    as (_ & _ & H).
  unfold sync_users. rewrite (H id Hid). apply lookup_empty.
Qed.

Lemma sync_users_rows us db :
  fault_free (length us) db ->
  exists rows,
    users (database (sync_users us db)) = (users db ++ rows)%list /\
    length rows = length us /\
    forall i row, rows !! i = Some row ->
      UserRow.id row = next_rowid (map UserRow.id (users db)) + Z.of_nat i.
Proof.
  intros Hff.
  destruct (sync_users_remap us (mkPhase ∅ 0 0 None db) Hff) as (H & _).
  exact H.
Qed.

Lemma listing_has_joined_row db u r :
  u ∈ users db -> r ∈ responses db ->
  ResponseRow.user_id r = UserRow.id u ->
  ApiRow.mk (UserRow.id u) (UserRow.name u) (UserRow.avatar u)
    (UserRow.grade u) (UserRow.gender u) (ResponseRow.question_id r)
    (ResponseRow.score r) (ResponseRow.timestamp r)
  ∈ Routes.select_admin_responses db.
Proof.
  intros Hu Hr Hid. unfold Routes.select_admin_responses.
  rewrite Array_sort_Permutation. apply list_elem_of_In, in_flat_map.
  exists r. split; [apply list_elem_of_In; exact Hr|].
  unfold Routes.join_users. apply in_map_iff. exists u.
  split; [reflexivity|]. apply filter_In.
  split; [apply list_elem_of_In; exact Hu | apply Z.eqb_eq; exact Hid].
Qed.

Lemma post_api_sync_users us rs db :
  users (post_api_sync (Some us) (Some rs) db).2 =
  users (database (sync_users us db)).
Proof.
  unfold post_api_sync. simpl.
  destruct (sync_responses_phase rs (sync_users us db)) as (_ & Hk & _).
  fold (sync_responses rs (sync_users us db)) in Hk.
  destruct (rejected (sync_users us db)); [reflexivity|].
  destruct (rejected (sync_responses rs (sync_users us db))); exact Hk.
Qed.

(** The two tables after a sync whose statements all succeed. *)
Lemma sync_tables us rs db :
  fault_free (length us + length rs) db ->
  exists urows rrows,
    users (post_api_sync (Some us) (Some rs) db).2 = (users db ++ urows)%list /\
    responses (post_api_sync (Some us) (Some rs) db).2 =
      (responses db ++ rrows)%list /\
    Forall2 (user_created db) us urows /\
    Forall2 (response_created (userIdMap (sync_users us db))) rs rrows /\
    forall i row, urows !! i = Some row ->
      UserRow.id row = next_rowid (map UserRow.id (users db)) + Z.of_nat i.
Proof.
  intros Hff.
  destruct (post_api_sync_fault_free us rs db Hff)
    as (urows & rrows & db' & Heq & Husers & Hcreated & Hresps & Hrcreated).
  rewrite Heq. simpl. exists urows, rrows. split_and!; try assumption.
  assert (Hu : fault_free (length us) db)
    by (apply fault_free_app in Hff as [H _]; exact H).
  destruct (sync_users_rows us db Hu) as (rows & Hrows & _ & Hids).
  pose proof (post_api_sync_users us rs db) as Hsame.
  rewrite Heq in Hsame. simpl in Hsame.
  rewrite Husers, Hrows in Hsame. apply app_inv_head in Hsame. subst rows.
  exact Hids.
Qed.


(** X10. A sync whose statements all succeed files every answer under
    its author: for a user of the body, the last one that has its local
    id, and an answer of the body that names this local id, the user's new
    row gets the next free key plus the user's position in the body, the
    answer's new row has that key as user id, and the admin listing read
    after the sync shows the answer with the user's profile. When local
    ids are pairwise distinct, every user is the last with its id. *)
Theorem sync_files_answers_under_their_author us rs db i u j r :
  fault_free (length us + length rs) db ->
  us !! i = Some u ->
  (forall i' u', us !! i' = Some u' -> User.id u' = User.id u ->
                 (i' <= i)%nat) ->
  rs !! j = Some r ->
  Response.user_id r = User.id u ->
  let db' := (post_api_sync (Some us) (Some rs) db).2 in
  let key := next_rowid (map UserRow.id (users db)) + Z.of_nat i in
  users db' !! (length (users db) + i)%nat =
    Some (UserRow.mk key (User.name u) (User.avatar u) (User.grade u)
            (User.gender u) (CURRENT_TIMESTAMP db)) /\
  (exists rrow,
     responses db' !! (length (responses db) + j)%nat = Some rrow /\
     ResponseRow.user_id rrow = key /\
     ResponseRow.question_id rrow = Response.question_id r /\
     ResponseRow.score rrow = Response.score r /\
     ResponseRow.timestamp rrow = Response.timestamp r) /\
  ApiRow.mk key (User.name u) (User.avatar u) (User.grade u) (User.gender u)
    (Response.question_id r) (Response.score r) (Response.timestamp r)
  ∈ Routes.select_admin_responses db'.
Proof.
  intros Hff Hu Hlast Hr Hid. cbv zeta.
  destruct (sync_tables us rs db Hff)
    as (urows & rrows & Husers & Hresps & Hcreated & Hrcreated & Hkeys).
  assert (Hfu : fault_free (length us) db)
    by (apply fault_free_app in Hff as [H _]; exact H).
  destruct (Forall2_lookup_l _ _ _ _ _ Hcreated Hu)
    as (urow & Hurow & Hn & Ha & Hg & Hs & Ht).
  destruct (Forall2_lookup_l _ _ _ _ _ Hrcreated Hr)
    as (rrow & Hrrow & Hown & Hq & Hsc & Hts).
  rewrite Hid, (sync_users_map_at us db i u Hfu Hu Hlast) in Hown.
  pose proof (Hkeys i urow Hurow) as Hkey.
  assert (Hrow : urow = UserRow.mk
                   (next_rowid (map UserRow.id (users db)) + Z.of_nat i)
                   (User.name u) (User.avatar u) (User.grade u)
                   (User.gender u) (CURRENT_TIMESTAMP db)).
  { destruct urow; simpl in *. congruence. }
  assert (Hat : users (post_api_sync (Some us) (Some rs) db).2
                  !! (length (users db) + i)%nat = Some urow).
  { rewrite Husers, lookup_app_r by lia.
    replace (length (users db) + i - length (users db))%nat with i by lia.
    exact Hurow. }
  assert (Hat' : responses (post_api_sync (Some us) (Some rs) db).2
                   !! (length (responses db) + j)%nat = Some rrow).
  { rewrite Hresps, lookup_app_r by lia.
    replace (length (responses db) + j - length (responses db))%nat
      with j by lia.
    exact Hrrow. }
  split_and!.
  - rewrite Hat, Hrow. reflexivity.
  - exists rrow. auto.
  - pose proof (listing_has_joined_row _ urow rrow
                  (list_elem_of_lookup_2 _ _ _ Hat)
                  (list_elem_of_lookup_2 _ _ _ Hat')) as Hin.
    rewrite Hown, Hkey, Hq, Hsc, Hts in Hin. specialize (Hin eq_refl).
    rewrite Hrow in Hin. simpl in Hin. exact Hin.
Qed.


(** X11. An answer of the body whose user id is the local id of no user
    of the body keeps its user id in a sync whose statements all succeed.
    So an answer that was saved locally for a user registered on the
    server is filed under that user's row: the admin listing read after
    the sync shows it with the profile of the stored user that has this
    key. *)
Theorem sync_keeps_owner_of_unmapped_answer us rs db j r urow :
  fault_free (length us + length rs) db ->
  rs !! j = Some r ->
  (forall u, u ∈ us -> User.id u <> Response.user_id r) ->
  urow ∈ users db ->
  UserRow.id urow = Response.user_id r ->
  let db' := (post_api_sync (Some us) (Some rs) db).2 in
  (exists rrow,
     responses db' !! (length (responses db) + j)%nat = Some rrow /\
     ResponseRow.user_id rrow = Response.user_id r /\
     ResponseRow.question_id rrow = Response.question_id r /\
     ResponseRow.score rrow = Response.score r /\
     ResponseRow.timestamp rrow = Response.timestamp r) /\
  ApiRow.mk (UserRow.id urow) (UserRow.name urow) (UserRow.avatar urow)
    (UserRow.grade urow) (UserRow.gender urow)
    (Response.question_id r) (Response.score r) (Response.timestamp r)
  ∈ Routes.select_admin_responses db'.
Proof.
  intros Hff Hr Hnone Hurow Hkey. cbv zeta.
  destruct (sync_tables us rs db Hff)
    as (urows & rrows & Husers & Hresps & _ & Hrcreated & _).
  assert (Hfu : fault_free (length us) db)
    by (apply fault_free_app in Hff as [H _]; exact H).
  destruct (Forall2_lookup_l _ _ _ _ _ Hrcreated Hr)
    as (rrow & Hrrow & Hown & Hq & Hsc & Hts).
  rewrite (sync_users_map_none us db _ Hfu Hnone) in Hown.
  assert (Hat' : responses (post_api_sync (Some us) (Some rs) db).2
                   !! (length (responses db) + j)%nat = Some rrow).
  { rewrite Hresps, lookup_app_r by lia.
    replace (length (responses db) + j - length (responses db))%nat
      with j by lia.
    exact Hrrow. }
  split.
  - exists rrow. auto.
  - assert (Hin : urow ∈ users (post_api_sync (Some us) (Some rs) db).2).
    { rewrite Husers. apply elem_of_app. left. exact Hurow. }
    pose proof (listing_has_joined_row _ urow rrow Hin
                  (list_elem_of_lookup_2 _ _ _ Hat')) as H.
    rewrite Hown, Hq, Hsc, Hts in H. apply H. symmetry. exact Hkey.
Qed.
End RemapKeys.

(** ** A sync whose answer comes too late *)

Section LateSync.
Context {J : JSON}.
Import Server.
Implicit Types b : Browser Backend.
Local Arguments post_api_sync : simpl never.

Lemma next_fault_faults db :
  faults (next_fault db).2 `suffix_of` faults db /\
  CURRENT_TIMESTAMP (next_fault db).2 = CURRENT_TIMESTAMP db.
Proof.
  unfold next_fault. destruct (faults db) as [|f fs] eqn:E; simpl.
  - rewrite E. split; reflexivity.
  - split; [exists [f]; reflexivity | reflexivity].
Qed.

Lemma sync_user_faults st user :
  faults (database (sync_user st user)) `suffix_of` faults (database st) /\
  CURRENT_TIMESTAMP (database (sync_user st user)) =
    CURRENT_TIMESTAMP (database st).
Proof.
  pose proof (next_fault_faults (database st)) as H.
  unfold sync_user, insert_user.
  destruct (next_fault (database st)) as [[m|] db']; exact H.
Qed.

Lemma sync_response_faults st resp :
  faults (database (sync_response st resp)) `suffix_of` faults (database st) /\
  CURRENT_TIMESTAMP (database (sync_response st resp)) =
    CURRENT_TIMESTAMP (database st).
Proof.
  pose proof (next_fault_faults (database st)) as H.
  unfold sync_response, insert_response.
  destruct (next_fault (database st)) as [[m|] db']; exact H.
Qed.

Lemma sync_users_faults us : forall st,
  faults (database (fold_left sync_user us st))
    `suffix_of` faults (database st) /\
  CURRENT_TIMESTAMP (database (fold_left sync_user us st)) =
    CURRENT_TIMESTAMP (database st).
Proof.
  induction us as [|u us IH]; intros st; simpl; [split; reflexivity|].
  destruct (IH (sync_user st u)) as [Hs Ht].
  destruct (sync_user_faults st u) as [Hs' Ht'].
  split; [etrans; eassumption | congruence].
Qed.

Lemma sync_responses_faults rs : forall st,
  faults (database (fold_left sync_response rs st))
    `suffix_of` faults (database st) /\
  CURRENT_TIMESTAMP (database (fold_left sync_response rs st)) =
    CURRENT_TIMESTAMP (database st).
Proof.
  induction rs as [|r rs IH]; intros st; simpl; [split; reflexivity|].
  destruct (IH (sync_response st r)) as [Hs Ht].
  destruct (sync_response_faults st r) as [Hs' Ht'].
  split; [etrans; eassumption | congruence].
Qed.

Lemma post_api_sync_faults us rs db :
  faults (post_api_sync us rs db).2 `suffix_of` faults db /\
  CURRENT_TIMESTAMP (post_api_sync us rs db).2 = CURRENT_TIMESTAMP db.
Proof.
  pose proof (sync_users_faults (default [] us) (mkPhase ∅ 0 0 None db))
    as [H1 H1'].
  pose proof (sync_responses_faults (default [] rs)
                (sync_users (default [] us) db)) as [H2 H2'].
  fold (sync_users (default [] us) db) in H1, H1'.
  fold (sync_responses (default [] rs) (sync_users (default [] us) db))
    in H2, H2'.
  simpl in H1, H1'.
  assert (H3 : faults (database (sync_responses (default [] rs)
                                   (sync_users (default [] us) db)))
                 `suffix_of` faults db) by (etrans; eassumption).
  unfold post_api_sync.
  destruct us, rs; simpl in *; try (split; reflexivity);
    repeat (destruct (rejected _); simpl); split; congruence || assumption.
Qed.

Lemma no_faults_fault_free n db :
  Forall (fun f => f = None) (faults db) -> fault_free n db.
Proof.
  unfold fault_free. intros H. rewrite <- (take_drop n (faults db)) in H.
  apply Forall_app in H as [H _]. exact H.
Qed.

(** X12. The reconciler does not ask whether an upload has arrived
    before it uploads again. When the backend handles a sync without an
    error but answers after the ten seconds the reconciler waits, the run
    throws the abort and leaves the local store as it was, while the
    backend has stored a row for every pending user and response; a later
    run on a link that answers in time stores them a second time, so that
    the backend then holds two rows for each of them. *)
Theorem late_answer_makes_sync_upload_twice b us rs faster :
  pending_users (localStorage b) = Some us ->
  pending_responses (localStorage b) = Some rs ->
  (length us =? 0)%nat && (length rs =? 0)%nat = false ->
  reachable (world b) = true ->
  10000 <= latency (world b) ->
  Forall (fun f => f = None) (faults (sqlite (world b))) ->
  faster < 10000 ->
  let db := sqlite (world b) in
  exists b1 urows1 rrows1,
    System.syncLocalToServer b = (Throw AbortError, b1) /\
    localStorage b1 = localStorage b /\
    users (sqlite (world b1)) = (users db ++ urows1)%list /\
    responses (sqlite (world b1)) = (responses db ++ rrows1)%list /\
    Forall2 (user_created db) us urows1 /\
    length rrows1 = length rs /\
    exists result b2 urows2 rrows2,
      System.syncLocalToServer (reconnected faster b1) = (Ok result, b2) /\
      users (sqlite (world b2)) = (users db ++ urows1 ++ urows2)%list /\
      responses (sqlite (world b2)) =
        (responses db ++ rrows1 ++ rrows2)%list /\
      Forall2 (user_created db) us urows2 /\
      length rrows2 = length rs /\
      map ResponseRow.question_id rrows2 = map ResponseRow.question_id rrows1 /\
      map ResponseRow.score rrows2 = map ResponseRow.score rrows1 /\
      map ResponseRow.timestamp rrows2 = map ResponseRow.timestamp rrows1.
Proof.
  intros Hu Hr Hne Hup Hlate Hquiet Hfast. cbv zeta.
  rewrite (sync_run_pending b us rs Hu Hr Hne Hup).
  destruct (Z.ltb_spec (latency (world b)) 10000) as [?|_]; [lia|].
  destruct (post_api_sync_fault_free us rs (sqlite (world b))
              (no_faults_fault_free _ _ Hquiet))
    as (urows1 & rrows1 & db1 & Heq1 & Husers1 & Hall1 & Hresp1 & Hcr1).
  pose proof (post_api_sync_faults (Some us) (Some rs) (sqlite (world b)))
    as [Hsuf Hts].
  rewrite Heq1 in Hsuf, Hts |- *. simpl in Hsuf, Hts |- *.
  assert (Hquiet1 : Forall (fun f => f = None) (faults db1)).
  { destruct Hsuf as [k Hk]. rewrite Hk in Hquiet.
    apply Forall_app in Hquiet as [_ H]. exact H. }
  eexists _, urows1, rrows1. split; [reflexivity|]. unfold reconnected. simpl.
  split_and!; try assumption; try reflexivity.
  { symmetry. eapply Forall2_length. exact Hcr1. }
  set (b1 := mkBrowser (localStorage b) (clock b) (ticks b)
               (mkBackend db1 true faster) _).
  assert (Hrun := sync_run_pending b1 us rs Hu Hr Hne eq_refl).
  cbv zeta in Hrun. simpl in Hrun.
  destruct (Z.ltb_spec faster 10000) as [_|?]; [|lia].
  destruct (post_api_sync_fault_free us rs db1
              (no_faults_fault_free _ _ Hquiet1))
    as (urows2 & rrows2 & db2 & Heq2 & Husers2 & Hall2 & Hresp2 & Hcr2).
  rewrite Heq2 in Hrun. simpl in Hrun.
  eexists _, _, urows2, rrows2. split; [exact Hrun|]. simpl.
  pose proof (Forall2_length _ _ _ Hcr1) as Hl1.
  pose proof (Forall2_length _ _ _ Hcr2) as Hl2.
  split_and!.
  - rewrite Husers2, Husers1, <- app_assoc. reflexivity.
  - rewrite Hresp2, Hresp1, <- app_assoc. reflexivity.
  - eapply Forall2_impl; [exact Hall2|]. intros u row.
    apply user_created_ext. exact Hts.
  - congruence.
  - transitivity (map Response.question_id rs).
    + clear -Hcr2. induction Hcr2 as [|r row rs' rows' H _ IH]; simpl;
        [reflexivity|]. destruct H as (_ & -> & _). f_equal. exact IH.
    + clear -Hcr1. induction Hcr1 as [|r row rs' rows' H _ IH]; simpl;
        [reflexivity|]. destruct H as (_ & -> & _). f_equal. exact IH.
  - transitivity (map Response.score rs).
    + clear -Hcr2. induction Hcr2 as [|r row rs' rows' H _ IH]; simpl;
        [reflexivity|]. destruct H as (_ & _ & -> & _). f_equal. exact IH.
    + clear -Hcr1. induction Hcr1 as [|r row rs' rows' H _ IH]; simpl;
        [reflexivity|]. destruct H as (_ & _ & -> & _). f_equal. exact IH.
  - transitivity (map Response.timestamp rs).
    + clear -Hcr2. induction Hcr2 as [|r row rs' rows' H _ IH]; simpl;
        [reflexivity|]. destruct H as (_ & _ & _ & ->). f_equal. exact IH.
    + clear -Hcr1. induction Hcr1 as [|r row rs' rows' H _ IH]; simpl;
        [reflexivity|]. destruct H as (_ & _ & _ & ->). f_equal. exact IH.
Qed.
End LateSync.

(** ** The profile and the last activity of a summary *)

Section SummaryFields.
Variable Date_getTime : string -> option Z.
Implicit Types (rows pre : list AdminResponseView.t)
               (m : JsMap.t StudentSummary.t).

(** The summary of a user depends on the rows of that user only. *)
Lemma fold_summarize_get rows : forall m k,
  JsMap.get (fold_left (AdminPanel.summarize Date_getTime) rows m) k =
  fold_left
    (fun o row =>
       Some (AdminPanel.record_row Date_getTime
               (default (AdminPanel.new_summary row) o) row))
    (List.filter (fun row => AdminResponseView.user_id row =? k) rows)
    (JsMap.get m k).
Proof.
  induction rows as [|row rows IH]; intros m k; simpl; [reflexivity|].
  rewrite IH, summarize_get.
  destruct (Z.eqb_spec (AdminResponseView.user_id row) k) as [->|Hne];
    reflexivity.
Qed.

Lemma fold_record_row_Some rest : forall s,
  fold_left
    (fun o row =>
       Some (AdminPanel.record_row Date_getTime
               (default (AdminPanel.new_summary row) o) row))
    rest (Some s) =
  Some (fold_left (AdminPanel.record_row Date_getTime) rest s).
Proof.
  induction rest as [|row rest IH]; intros s; simpl; [reflexivity|].
  apply IH.
Qed.

(** The summary of a user is built from the user's first row and updated
    with each of the user's rows in turn. *)
Lemma studentSummaries_get rows k :
  JsMap.get (fold_left (AdminPanel.summarize Date_getTime) rows JsMap.empty)
            k =
  match List.filter (fun row => AdminResponseView.user_id row =? k) rows with
  | [] => None
  | r0 :: rest =>
      Some (fold_left (AdminPanel.record_row Date_getTime) (r0 :: rest)
              (AdminPanel.new_summary r0))
  end.
Proof.
  rewrite fold_summarize_get. simpl.
  destruct (List.filter _ rows) as [|r0 rest]; [reflexivity|].
  simpl. apply fold_record_row_Some.
Qed.

Lemma fold_record_row_profile rest : forall s,
  let s' := fold_left (AdminPanel.record_row Date_getTime) rest s in
  StudentSummary.user_id s' = StudentSummary.user_id s /\
  StudentSummary.name s' = StudentSummary.name s /\
  StudentSummary.avatar s' = StudentSummary.avatar s /\
  StudentSummary.grade s' = StudentSummary.grade s /\
  StudentSummary.gender s' = StudentSummary.gender s.
Proof.
  induction rest as [|row rest IH]; intros s; simpl; [auto|].
  destruct (IH (AdminPanel.record_row Date_getTime s row))
    as (-> & -> & -> & -> & ->).
  auto.
Qed.

Lemma filter_head_find {A} (f : A -> bool) (l : list A) x rest :
  List.filter f l = x :: rest -> List.find f l = Some x.
Proof.
  induction l as [|y l IH]; simpl; [discriminate|].
  destruct (f y); [intros [= -> _]; reflexivity | exact IH].
Qed.

Lemma filter_head_find_inv {A} (f : A -> bool) (l : list A) x :
  List.find f l = Some x -> exists rest, List.filter f l = x :: rest.
Proof.
  induction l as [|y l IH]; simpl; [discriminate|].
  destruct (f y); [intros [= ->]; eauto | exact IH].
Qed.

(** X13. A summary shows the profile of the first row of its user: name,
    grade and gender are those of the first row, in input order, that has
    the summary's user id, and the avatar is that row's, or the student
    emoji when that row's avatar is empty. Later rows of the same user id
    do not change them, also when they carry another profile. *)
Theorem summary_shows_profile_of_first_row rows s :
  s ∈ AdminPanel.studentSummaries Date_getTime rows ->
  exists r0,
    List.find (fun row => AdminResponseView.user_id row =?
                          StudentSummary.user_id s) rows = Some r0 /\
    StudentSummary.name s = AdminResponseView.user_name r0 /\
    StudentSummary.avatar s =
      (if String.eqb (AdminResponseView.user_avatar r0) ""
       then "🧑‍🎓" else AdminResponseView.user_avatar r0) /\
    StudentSummary.grade s = AdminResponseView.user_grade r0 /\
    StudentSummary.gender s = AdminResponseView.user_gender r0.
Proof.
  intros Hin. apply studentSummaries_elem in Hin.
  rewrite studentSummaries_get in Hin.
  destruct (List.filter _ rows) as [|r0 rest] eqn:E; [discriminate|].
  injection Hin as Hs. exists r0.
  split; [eapply filter_head_find; exact E|].
  destruct (fold_record_row_profile (r0 :: rest) (AdminPanel.new_summary r0))
    as (_ & Hn & Ha & Hg & Hge).
  cbn [fold_left] in Hs, Hn, Ha, Hg, Hge.
  rewrite Hs in Hn, Ha, Hg, Hge. rewrite Hn, Ha, Hg, Hge. simpl.
  split_and!; try reflexivity.
  unfold string_or. destruct (AdminResponseView.user_avatar r0); reflexivity.
Qed.

Lemma record_row_last_timestamp s row :
  StudentSummary.last_timestamp (AdminPanel.record_row Date_getTime s row) =
  if AdminPanel.Date_gt Date_getTime (AdminResponseView.timestamp row)
       (StudentSummary.last_timestamp s)
  then AdminResponseView.timestamp row
  else StudentSummary.last_timestamp s.
Proof. reflexivity. Qed.

Lemma fold_last_timestamp_in rest : forall s,
  StudentSummary.last_timestamp
    (fold_left (AdminPanel.record_row Date_getTime) rest s)
  ∈ StudentSummary.last_timestamp s :: map AdminResponseView.timestamp rest.
Proof.
  induction rest as [|row rest IH]; intros s; simpl; [left|].
  specialize (IH (AdminPanel.record_row Date_getTime s row)).
  rewrite record_row_last_timestamp in IH.
  destruct (AdminPanel.Date_gt _ _ _).
  - right. exact IH.
  - apply elem_of_cons in IH as [->|IH]; [left | right; right; exact IH].
Qed.

Lemma fold_last_timestamp_invalid rest : forall s,
  Date_getTime (StudentSummary.last_timestamp s) = None ->
  StudentSummary.last_timestamp
    (fold_left (AdminPanel.record_row Date_getTime) rest s) =
  StudentSummary.last_timestamp s.
Proof.
  induction rest as [|row rest IH]; intros s Hbad; simpl; [reflexivity|].
  assert (Hkeep : StudentSummary.last_timestamp
                    (AdminPanel.record_row Date_getTime s row) =
                  StudentSummary.last_timestamp s).
  { rewrite record_row_last_timestamp. unfold AdminPanel.Date_gt.
    rewrite Hbad.
    destruct (Date_getTime (AdminResponseView.timestamp row)); reflexivity. }
  rewrite IH; rewrite Hkeep; [reflexivity | exact Hbad].
Qed.

Lemma fold_last_timestamp_latest rest : forall s,
  valid_date Date_getTime (StudentSummary.last_timestamp s) ->
  Forall (fun row => valid_date Date_getTime (AdminResponseView.timestamp row))
         rest ->
  let latest := StudentSummary.last_timestamp
                  (fold_left (AdminPanel.record_row Date_getTime) rest s) in
  not_older Date_getTime latest (StudentSummary.last_timestamp s) /\
  Forall (fun row => not_older Date_getTime latest
                       (AdminResponseView.timestamp row)) rest.
Proof.
  induction rest as [|row rest IH]; intros s Hs Hrest; cbv zeta; simpl.
  - split; [|constructor]. destruct Hs as [a Ha]. exists a, a.
    repeat split; [assumption | assumption | lia].
  - apply Forall_cons in Hrest as [Hrow Hrest].
    specialize (IH (AdminPanel.record_row Date_getTime s row)).
    rewrite record_row_last_timestamp in IH.
    destruct Hs as [a Ha]. destruct Hrow as [c Hc].
    unfold AdminPanel.Date_gt in IH. rewrite Ha, Hc in IH.
    destruct (Z.ltb_spec a c) as [Hlt|Hge].
    + destruct (IH (ex_intro _ c Hc) Hrest) as [Hnew Hall]. cbv zeta in *.
      split; [|constructor; assumption].
      eapply not_older_trans; [exact Hnew|].
      exists c, a. repeat split; [assumption | assumption | lia].
    + destruct (IH (ex_intro _ a Ha) Hrest) as [Hold Hall]. cbv zeta in *.
      split; [exact Hold|]. constructor; [|exact Hall].
      eapply not_older_trans; [exact Hold|].
      exists a, c. repeat split; [assumption | assumption | lia].
Qed.

(** X14. The last activity of a summary is the timestamp of one of the
    rows of its user. When the timestamps of all rows of the user are
    valid dates, it is not older than any of them, whatever the order of
    the rows. When the timestamp of the user's first row is no valid date,
    it is that timestamp, whatever the later rows say. *)
Theorem last_timestamp_is_latest_of_user rows s :
  s ∈ AdminPanel.studentSummaries Date_getTime rows ->
  (exists row,
     row ∈ rows /\
     AdminResponseView.user_id row = StudentSummary.user_id s /\
     AdminResponseView.timestamp row = StudentSummary.last_timestamp s) /\
  ((forall row, row ∈ rows ->
      AdminResponseView.user_id row = StudentSummary.user_id s ->
      valid_date Date_getTime (AdminResponseView.timestamp row)) ->
   forall row, row ∈ rows ->
     AdminResponseView.user_id row = StudentSummary.user_id s ->
     not_older Date_getTime (StudentSummary.last_timestamp s)
               (AdminResponseView.timestamp row)) /\
  (forall r0,
     List.find (fun row => AdminResponseView.user_id row =?
                           StudentSummary.user_id s) rows = Some r0 ->
     Date_getTime (AdminResponseView.timestamp r0) = None ->
     StudentSummary.last_timestamp s = AdminResponseView.timestamp r0).
Proof.
  intros Hin. apply studentSummaries_elem in Hin.
  rewrite studentSummaries_get in Hin.
  destruct (List.filter _ rows) as [|r0 rest] eqn:E; [discriminate|].
  injection Hin as Hs.
  assert (Hmine : forall row, row ∈ r0 :: rest <->
            row ∈ rows /\
            AdminResponseView.user_id row = StudentSummary.user_id s).
  { intros row. rewrite <- E, !list_elem_of_In, filter_In, Z.eqb_eq.
    reflexivity. }
  split_and!.
  - pose proof (fold_last_timestamp_in (r0 :: rest)
                  (AdminPanel.new_summary r0)) as H.
    cbn [fold_left] in Hs, H. rewrite Hs in H.
    apply elem_of_cons in H as [H|H].
    + exists r0. destruct (proj1 (Hmine r0)) as [? ?]; [left|]. auto.
    + apply list_elem_of_fmap in H as (row & Hts & Hrow).
      exists row. destruct (proj1 (Hmine row) Hrow) as [? ?]. auto.
  - intros Hvalid row Hrow Hu.
    assert (Hall : Forall (fun row => valid_date Date_getTime
                             (AdminResponseView.timestamp row)) (r0 :: rest)).
    { apply Forall_forall. intros x Hx. apply Hmine in Hx as [? ?]. auto. }
    pose proof (fold_last_timestamp_latest (r0 :: rest)
                  (AdminPanel.new_summary r0)) as H.
    cbv zeta in H. cbn [fold_left] in Hs, H. rewrite Hs in H.
    destruct H as [_ H]; [apply Forall_cons in Hall as [H0 _]; exact H0
                         | exact Hall |].
    rewrite Forall_forall in H. apply H, Hmine. auto.
  - intros r Hfind Hbad. rewrite (filter_head_find _ _ _ _ E) in Hfind.
    injection Hfind as <-. rewrite <- Hs.
    exact (fold_last_timestamp_invalid (r0 :: rest)
             (AdminPanel.new_summary r0) Hbad).
Qed.
End SummaryFields.

(** ** The dashboard on newest-first input *)

Section RecentFirst.
Variable Date_getTime : string -> option Z.
Implicit Types (rows pre : list AdminResponseView.t)
               (m : JsMap.t StudentSummary.t).

Lemma StronglySorted_snoc_inv {A} (R : A -> A -> Prop) l x :
  StronglySorted R (l ++ [x]) ->
  StronglySorted R l /\ Forall (fun y => R y x) l.
Proof.
  induction l as [|y l IH]; simpl; intros H; [split; constructor|].
  apply StronglySorted_inv in H as [H Hall].
  destruct (IH H) as [Hs Hx]. apply Forall_app in Hall as [Hl Hyx].
  split; constructor; try assumption.
  apply Forall_cons in Hyx as [Hyx _]. exact Hyx.
Qed.

Lemma StronglySorted_snoc {A} (R : A -> A -> Prop) l x :
  StronglySorted R l -> Forall (fun y => R y x) l ->
  StronglySorted R (l ++ [x]).
Proof.
  induction 1 as [|y l Hs IH Hall]; simpl; intros Hx;
    [repeat constructor|].
  apply Forall_cons in Hx as [Hyx Hx].
  constructor; [apply IH; exact Hx|].
  apply Forall_app. split; [exact Hall | repeat constructor; exact Hyx].
Qed.

Lemma StronglySorted_of_map {A B} (R : B -> B -> Prop) (f : A -> B) l :
  StronglySorted R (map f l) ->
  StronglySorted (fun x y => R (f x) (f y)) l.
Proof.
  induction l as [|x l IH]; simpl; intros H; [constructor|].
  apply StronglySorted_inv in H as [H Hall].
  constructor; [apply IH; exact H|].
  rewrite Forall_forall in Hall. apply Forall_forall. intros y Hy.
  apply Hall, list_elem_of_fmap. exists y. auto.
Qed.

Lemma StronglySorted_filter {A} (R : A -> A -> Prop) (f : A -> bool) l :
  StronglySorted R l -> StronglySorted R (List.filter f l).
Proof.
  induction 1 as [|x l Hs IH Hall]; simpl; [constructor|].
  destruct (f x); [|exact IH]. constructor; [exact IH|].
  apply Forall_forall. intros y Hy.
  apply list_elem_of_In, filter_In in Hy as [Hy _].
  rewrite Forall_forall in Hall. apply Hall, list_elem_of_In. exact Hy.
Qed.

Lemma JsMap_set_absent {V} (m : JsMap.t V) k v :
  JsMap.get m k = None -> JsMap.set m k v = (m ++ [(k, v)])%list.
Proof.
  induction m as [|[k' v'] m IH]; simpl; [reflexivity|].
  destruct (k' =? k); [discriminate|]. intros H. rewrite IH by exact H.
  reflexivity.
Qed.

Lemma JsMap_set_last {V} (m : JsMap.t V) k v v' :
  JsMap.get m k = None ->
  JsMap.set (m ++ [(k, v)])%list k v' = (m ++ [(k, v')])%list.
Proof.
  induction m as [|[k0 v0] m IH]; simpl.
  - rewrite Z.eqb_refl. reflexivity.
  - destruct (k0 =? k); [discriminate|]. intros H. rewrite IH by exact H.
    reflexivity.
Qed.

Lemma JsMap_set_same_image {V B} (f : V -> B) (m : JsMap.t V) k v s :
  JsMap.get m k = Some s -> f v = f s ->
  map f (JsMap.values (JsMap.set m k v)) = map f (JsMap.values m).
Proof.
  unfold JsMap.values.
  induction m as [|[k0 v0] m IH]; simpl; [discriminate|].
  destruct (k0 =? k); simpl.
  - intros [= ->] ->. reflexivity.
  - intros H Hf. rewrite IH by assumption. reflexivity.
Qed.

(** A row that is not newer than the last activity leaves it as it is. *)
Lemma record_row_keeps_last_timestamp s row :
  not_older Date_getTime (StudentSummary.last_timestamp s)
            (AdminResponseView.timestamp row) ->
  StudentSummary.last_timestamp (AdminPanel.record_row Date_getTime s row) =
  StudentSummary.last_timestamp s.
Proof.
  intros (a & c & Ha & Hc & Hle). rewrite record_row_last_timestamp.
  unfold AdminPanel.Date_gt. rewrite Ha, Hc.
  destruct (Z.ltb_spec a c); [lia | reflexivity].
Qed.

Lemma record_row_new_last_timestamp row :
  StudentSummary.last_timestamp
    (AdminPanel.record_row Date_getTime (AdminPanel.new_summary row) row) =
  AdminResponseView.timestamp row.
Proof.
  rewrite record_row_last_timestamp. simpl.
  destruct (AdminPanel.Date_gt _ _ _); reflexivity.
Qed.

Lemma fold_last_timestamp_keep rest : forall s,
  Forall (fun row => not_older Date_getTime (StudentSummary.last_timestamp s)
                       (AdminResponseView.timestamp row)) rest ->
  StudentSummary.last_timestamp
    (fold_left (AdminPanel.record_row Date_getTime) rest s) =
  StudentSummary.last_timestamp s.
Proof.
  induction rest as [|row rest IH]; intros s Hall; simpl; [reflexivity|].
  apply Forall_cons in Hall as [Hrow Hall].
  pose proof (record_row_keeps_last_timestamp s row Hrow) as Hkeep.
  rewrite IH; rewrite Hkeep; [reflexivity | exact Hall].
Qed.

(** On newest-first rows the last activity of a user is the timestamp of
    the user's first row. *)
Lemma sorted_last_timestamp rows k s :
  StronglySorted
    (fun x y => not_older Date_getTime (AdminResponseView.timestamp x)
                  (AdminResponseView.timestamp y)) rows ->
  JsMap.get (fold_left (AdminPanel.summarize Date_getTime) rows JsMap.empty)
            k = Some s ->
  exists r0,
    List.find (fun row => AdminResponseView.user_id row =? k) rows = Some r0 /\
    StudentSummary.last_timestamp s = AdminResponseView.timestamp r0.
Proof.
  intros Hsorted Hget. rewrite studentSummaries_get in Hget.
  destruct (List.filter _ rows) as [|r0 rest] eqn:E; [discriminate|].
  injection Hget as <-. exists r0.
  split; [eapply filter_head_find; exact E|].
  apply (StronglySorted_filter _
           (fun row => AdminResponseView.user_id row =? k)) in Hsorted.
  rewrite E in Hsorted. apply StronglySorted_inv in Hsorted as [_ Hall].
  cbn [fold_left]. rewrite fold_last_timestamp_keep;
    rewrite record_row_new_last_timestamp; [reflexivity | exact Hall].
Qed.

Lemma summaries_sorted rows :
  StronglySorted
    (fun x y => not_older Date_getTime (AdminResponseView.timestamp x)
                  (AdminResponseView.timestamp y)) rows ->
  StronglySorted (not_older Date_getTime)
    (map StudentSummary.last_timestamp
       (JsMap.values
          (fold_left (AdminPanel.summarize Date_getTime) rows JsMap.empty))).
Proof.
  induction rows as [|row rows IH] using rev_ind; intros Hsorted;
    [constructor|].
  apply StronglySorted_snoc_inv in Hsorted as [Hrows Hlast].
  specialize (IH Hrows). rewrite fold_left_app. cbn [fold_left].
  set (m := fold_left (AdminPanel.summarize Date_getTime) rows JsMap.empty)
    in *.
  assert (Hold : forall k s, JsMap.get m k = Some s ->
            not_older Date_getTime (StudentSummary.last_timestamp s)
                      (AdminResponseView.timestamp row)).
  { intros k s Hs.
    destruct (sorted_last_timestamp rows k s Hrows Hs) as (r0 & Hfind & ->).
    apply find_some in Hfind as [Hin _].
    rewrite Forall_forall in Hlast. apply Hlast, list_elem_of_In. exact Hin. }
  unfold AdminPanel.summarize, JsMap.has.
  destruct (JsMap.get m (AdminResponseView.user_id row)) as [s|] eqn:E;
    cbn [negb].
  - rewrite E.
    rewrite (JsMap_set_same_image StudentSummary.last_timestamp m _ _ s E);
      [exact IH|].
    apply record_row_keeps_last_timestamp. eapply Hold. exact E.
  - rewrite JsMap_get_set_eq.
    rewrite (JsMap_set_absent m _ _ E), (JsMap_set_last m _ _ _ E).
    unfold JsMap.values. rewrite !map_app. cbn [map snd].
    rewrite record_row_new_last_timestamp.
    apply StronglySorted_snoc; [exact IH|].
    apply Forall_forall. intros t Ht.
    apply list_elem_of_fmap in Ht as (s & -> & Hs).
    apply list_elem_of_fmap in Hs as ([k s'] & -> & Hs). simpl.
    destruct (studentSummaries_inv Date_getTime rows) as (Hnd & _ & _).
    fold m in Hnd. eapply Hold. apply (JsMap_elem_get _ _ _ Hnd Hs).
Qed.

(** X15. On rows that come newest first, the last activity of every
    summary is the timestamp of the first row of its user, and the
    summaries themselves come in the order of their last activity, the
    most recently active student first. *)
Theorem summaries_are_most_recent_first rows :
  StronglySorted
    (fun x y => not_older Date_getTime (AdminResponseView.timestamp x)
                  (AdminResponseView.timestamp y)) rows ->
  (forall s, s ∈ AdminPanel.studentSummaries Date_getTime rows ->
     exists r0,
       List.find (fun row => AdminResponseView.user_id row =?
                             StudentSummary.user_id s) rows = Some r0 /\
       StudentSummary.last_timestamp s = AdminResponseView.timestamp r0) /\
  StronglySorted
    (fun s1 s2 => not_older Date_getTime (StudentSummary.last_timestamp s1)
                    (StudentSummary.last_timestamp s2))
    (AdminPanel.studentSummaries Date_getTime rows).
Proof.
  intros Hsorted. split.
  - intros s Hin. apply studentSummaries_elem in Hin.
    apply (sorted_last_timestamp rows _ s Hsorted Hin).
  - apply StronglySorted_of_map. apply summaries_sorted. exact Hsorted.
Qed.
End RecentFirst.

(** ** An offline session, synced later *)

Section OfflineSession.
Context {J : JSON}.
Variable JSON_stringify_responses : list Response.t -> string.
Variable toISOString : Z -> string.
Import Server.
Implicit Types b : Browser Backend.
Local Arguments post_api_sync : simpl never.

Hypothesis lawful : JSON_lawful J.
Hypothesis responses_round_trip :
  forall rs, JSON_parse_responses (JSON_stringify_responses rs) = Some rs.
Hypothesis responses_text :
  forall rs, JSON_stringify_responses rs <> "".




End OfflineSession.

(** ** The dashboard's handlers *)

Section PanelFacts.
Context {J : JSON}.
Variable QUESTIONS : list Question.t.
Variable Date_getTime : string -> option Z.
Import Server.
Implicit Types (b : Browser Backend) (p : Panel.t).
Local Arguments post_api_sync : simpl never.
Local Arguments Api.fetchAllResponses_local : simpl never.

Hypothesis lawful : JSON_lawful J.

(** [loadData] when the backend is out of reach. *)
Lemma loadData_unreachable p b :
  reachable (world b) = false ->
  Panel.loadData QUESTIONS Date_getTime p b =
  (Ok match pending_users (localStorage b),
            pending_responses (localStorage b) with
      | Some users, Some responses =>
          Panel.mk
            (map (AdminPanel.enrich QUESTIONS)
               (Array_sort
                  (fun x y => Api.newest_first Date_getTime
                                (ApiRow.timestamp x) (ApiRow.timestamp y))
                  (map (Api.join_row users) responses)))
            (Some false) (Some Api.LOCAL) (Panel.alerts p)
      | _, _ =>
          Panel.mk (Panel.rawData p) (Some false) (Panel.dataSource p)
                   (Panel.alerts p ++ [Panel.CannotLoad])
      end,
   mkBrowser (localStorage b) (clock b) (ticks b) (world b)
     (requests b ++ [(ep_admin_responses, 5000)])).
Proof.
  intros Hdown.
  unfold Panel.loadData, Online.checkServerHealth, Gateway.checkServerHealth,
    Gateway.fetchWithTimeout_unlisted, Link.api_health,
    Online.fetchAllResponses, Api.fetchAllResponses,
    Api.fetchAllResponses_remote, fetchWithTimeout, Link.api_admin_responses,
    Link.behind_link, await, try_catch, resolve, throw.
  rewrite Hdown. simpl. rewrite Hdown. simpl.
  rewrite fetchAllResponses_local_eq. simpl.
  destruct (pending_users (localStorage b)); [|reflexivity].
  destruct (pending_responses (localStorage b)); reflexivity.
Qed.

(** X17. An unreadable local store blocks the dashboard until it is
    cleared. With the backend out of reach and a collection whose text
    [JSON.parse] rejects, loading raises the cannot-load alert and keeps
    the rows shown before, and a sync raises the sync-failed alert; both
    leave the store as it is, so they fail again. Clearing the local data
    ends this: it raises only its own alert, both collections read as
    empty afterwards, and the dashboard shows the empty local data. *)
Theorem clearing_recovers_unreadable_store p b :
  reachable (world b) = false ->
  pending_users (localStorage b) = None \/
  pending_responses (localStorage b) = None ->
  (exists p1 b1,
     Panel.loadData QUESTIONS Date_getTime p b = (Ok p1, b1) /\
     Panel.alerts p1 = (Panel.alerts p ++ [Panel.CannotLoad])%list /\
     Panel.rawData p1 = Panel.rawData p /\
     localStorage b1 = localStorage b) /\
  (exists p2 b2,
     Panel.handleSync QUESTIONS Date_getTime p b = (Ok p2, b2) /\
     Panel.alerts p2 = (Panel.alerts p ++ [Panel.SyncFailed])%list /\
     Panel.rawData p2 = Panel.rawData p /\
     localStorage b2 = localStorage b) /\
  (exists p3 b3,
     Panel.handleClearLocal QUESTIONS Date_getTime true p b = (Ok p3, b3) /\
     Panel.alerts p3 = (Panel.alerts p ++ [Panel.Cleared])%list /\
     Panel.rawData p3 = [] /\
     Panel.dataSource p3 = Some Api.LOCAL /\
     pending_users (localStorage b3) = Some [] /\
     pending_responses (localStorage b3) = Some []).
Proof.
  intros Hdown Hbad. split_and!.
  - rewrite (loadData_unreachable p b Hdown). eexists _, _.
    split; [reflexivity|]. simpl.
    destruct Hbad as [-> | Hr].
    + auto.
    + rewrite Hr. destruct (pending_users (localStorage b)); auto.
  - unfold Panel.handleSync, await, try_catch, System.syncLocalToServer.
    rewrite (sync_unreadable_store api_sync b Hbad). simpl.
    eexists _, _. split; [reflexivity|]. auto.
  - unfold Panel.handleClearLocal, Api.clearLocalData, await,
      localStorage_removeItem. simpl.
    rewrite loadData_unreachable by exact Hdown. simpl.
    destruct (pending_after_clear (localStorage b) lawful) as [Hcu Hcr].
    rewrite Hcu, Hcr.
    eexists _, _. split; [reflexivity|]. simpl. auto 6.
Qed.

Lemma select_admin_responses_next_fault db :
  Routes.select_admin_responses (next_fault db).2 =
  Routes.select_admin_responses db.
Proof.
  destruct (next_fault_tables db) as (Hu & Hr & _).
  unfold Routes.select_admin_responses. rewrite Hu, Hr. reflexivity.
Qed.

(** X18. The two indicators of the dashboard wait differently long. On a
    backend that answers the listing without an error after less than
    5000 ms, loading shows the rows of the database, marked as such, and
    raises no alert; the online indicator is set only if the answer took
    less than 2000 ms. Between the two deadlines the dashboard shows
    database rows under an offline indicator. *)
Theorem dashboard_indicators_by_latency p b :
  reachable (world b) = true ->
  (next_fault (sqlite (world b))).1 = None ->
  latency (world b) < 5000 ->
  exists p' b',
    Panel.loadData QUESTIONS Date_getTime p b = (Ok p', b') /\
    Panel.serverOnline p' = Some (latency (world b) <? 2000) /\
    Panel.dataSource p' = Some Api.DB /\
    Panel.rawData p' =
      map (AdminPanel.enrich QUESTIONS)
          (Routes.select_admin_responses (sqlite (world b))) /\
    Panel.alerts p' = Panel.alerts p /\
    localStorage b' = localStorage b.
Proof.
  intros Hup Hfault Hfast.
  unfold Panel.loadData, Online.checkServerHealth, Gateway.checkServerHealth,
    Gateway.fetchWithTimeout_unlisted, Link.api_health,
    Online.fetchAllResponses, Api.fetchAllResponses,
    Api.fetchAllResponses_remote, fetchWithTimeout, Link.api_admin_responses,
    Link.behind_link, Routes.get_api_health, Routes.get_api_admin_responses,
    await, try_catch, resolve, throw.
  rewrite Hup. simpl.
  pose proof (select_admin_responses_next_fault (sqlite (world b))) as Hsel.
  destruct (latency (world b) <? 2000) eqn:Hl; simpl; rewrite ?Hup; simpl.
  all: destruct (next_fault (sqlite (world b))) as [fault db'].
  all: simpl in Hfault, Hsel; subst fault; simpl.
  all: destruct (Z.ltb_spec (latency (world b)) 5000) as [_|?]; [|lia].
  all: simpl; eexists _, _; (split; [reflexivity|]); simpl; rewrite Hsel.
  all: auto 6.
Qed.

Lemma checkServerHealth_state b :
  exists online b',
    Online.checkServerHealth b = (Ok online, b') /\
    localStorage b' = localStorage b.
Proof.
  unfold Online.checkServerHealth, Gateway.checkServerHealth,
    Gateway.fetchWithTimeout_unlisted, try_catch, await, resolve.
  destruct (Link.api_health (world b)) as [[|l res] w']; simpl.
  - eexists _, _. split; reflexivity.
  - destruct (l <? 2000); simpl; eexists _, _; split; reflexivity.
Qed.

Lemma fetchAllResponses_readable b us rs :
  pending_users (localStorage b) = Some us ->
  pending_responses (localStorage b) = Some rs ->
  exists r b',
    Online.fetchAllResponses Date_getTime b = (Ok r, b') /\
    localStorage b' = localStorage b.
Proof.
  intros Hus Hrs.
  pose proof (fetchAllResponses_remote_state Link.api_admin_responses b)
    as [_ Hls].
  unfold Online.fetchAllResponses, Api.fetchAllResponses, try_catch.
  destruct (Api.fetchAllResponses_remote _ b) as [[r|e] b1]; simpl in Hls.
  - eexists _, _. split; [reflexivity | exact Hls].
  - rewrite fetchAllResponses_local_eq, Hls, Hus, Hrs.
    eexists _, _. split; [reflexivity | exact Hls].
Qed.

(** With readable collections [loadData] raises no alert. *)
Lemma loadData_readable p b us rs :
  pending_users (localStorage b) = Some us ->
  pending_responses (localStorage b) = Some rs ->
  exists p' b',
    Panel.loadData QUESTIONS Date_getTime p b = (Ok p', b') /\
    Panel.alerts p' = Panel.alerts p /\
    localStorage b' = localStorage b.
Proof.
  intros Hus Hrs.
  destruct (checkServerHealth_state b) as (online & b1 & Hhealth & Hls1).
  destruct (fetchAllResponses_readable b1 us rs)
    as ([source data] & b2 & Hfetch & Hls2);
    [rewrite Hls1; exact Hus | rewrite Hls1; exact Hrs |].
  unfold Panel.loadData, await, try_catch. rewrite Hhealth.
  unfold resolve at 1 2. cbn beta iota. rewrite Hfetch.
  eexists _, _. split; [reflexivity|]. simpl. split; congruence.
Qed.

(** X19. What [handleSync] tells the user, when both local collections
    are readable. It raises exactly one alert. With nothing pending this
    is the nothing-to-sync alert, and no request is sent. With something
    pending it is the success alert, with the numbers of pending users and
    responses, if the backend is reached, answers before 10000 ms and
    fails no statement, and both collections are empty afterwards;
    otherwise it is the failure alert and the store is as it was. *)
Theorem handleSync_alert p b us rs :
  pending_users (localStorage b) = Some us ->
  pending_responses (localStorage b) = Some rs ->
  exists p' b',
    Panel.handleSync QUESTIONS Date_getTime p b = (Ok p', b') /\
    (us = [] /\ rs = [] ->
     Panel.alerts p' = (Panel.alerts p ++ [Panel.NothingToSync])%list /\
     b' = b) /\
    (~ (us = [] /\ rs = []) ->
     reachable (world b) = true -> latency (world b) < 10000 ->
     fault_free (length us + length rs) (sqlite (world b)) ->
     Panel.alerts p' =
       (Panel.alerts p ++ [Panel.Synced (Z.of_nat (length us))
                                        (Z.of_nat (length rs))])%list /\
     pending_users (localStorage b') = Some [] /\
     pending_responses (localStorage b') = Some []) /\
    (~ (us = [] /\ rs = []) ->
     reachable (world b) = false \/ 10000 <= latency (world b) \/
     ~ fault_free (length us + length rs) (sqlite (world b)) ->
     Panel.alerts p' = (Panel.alerts p ++ [Panel.SyncFailed])%list /\
     localStorage b' = localStorage b).
Proof.
  intros Hus Hrs.
  destruct ((length us =? 0)%nat && (length rs =? 0)%nat) eqn:Hempty.
  { apply andb_true_iff in Hempty as [Eu Er]. apply Nat.eqb_eq in Eu, Er.
    destruct us; [|discriminate]. destruct rs; [|discriminate].
    unfold Panel.handleSync, await, try_catch, System.syncLocalToServer.
    rewrite (sync_nothing_pending api_sync b Hus Hrs). simpl.
    eexists _, _. split; [reflexivity|]. split_and!.
    - intros _. auto.
    - intros H. exfalso. apply H. auto.
    - intros H. exfalso. apply H. auto. }
  assert (Hsome : ~ (us = [] /\ rs = [])).
  { intros [-> ->]. discriminate. }
  destruct (reachable (world b)) eqn:Hup.
  2:{ unfold Panel.handleSync, await, try_catch, System.syncLocalToServer,
        Api.syncLocalToServer. run_async. rewrite Hus. simpl. rewrite Hrs.
      simpl. rewrite Hempty. unfold fetchWithTimeout, api_sync.
      rewrite Hup. simpl. eexists _, _. split; [reflexivity|]. simpl.
      split_and!; [tauto | discriminate | auto]. }
  pose proof (sync_run_pending b us rs Hus Hrs Hempty Hup) as Hrun.
  cbv zeta in Hrun.
  destruct (Z.ltb_spec (latency (world b)) 10000) as [Hfast|Hslow].
  2:{ unfold Panel.handleSync, await, try_catch. rewrite Hrun. simpl.
      eexists _, _. split; [reflexivity|]. simpl.
      split_and!; [tauto | lia | auto]. }
  destruct (fault_free_dec (length us + length rs) (sqlite (world b)))
    as [Hff|Hff].
  2:{ destruct (post_api_sync_fault us rs _ Hff) as (m & db' & Heq).
      rewrite Heq in Hrun. simpl in Hrun.
      unfold Panel.handleSync, await, try_catch. rewrite Hrun. simpl.
      eexists _, _. split; [reflexivity|]. simpl.
      split_and!; [tauto | tauto | auto]. }
  destruct (post_api_sync_fault_free us rs _ Hff)
    as (urows & rrows & db' & Heq & _).
  rewrite Heq in Hrun. simpl in Hrun.
  unfold Panel.handleSync, await, try_catch. rewrite Hrun. simpl.
  assert (Hnz : (Z.of_nat (length us) =? 0) && (Z.of_nat (length rs) =? 0)
                = false).
  { apply andb_false_iff.
    apply andb_false_iff in Hempty as [H|H]; [left | right];
      apply Nat.eqb_neq in H; apply Z.eqb_neq; lia. }
  rewrite Hnz.
  set (b1 := mkBrowser _ _ _ _ _).
  set (p1 := Panel.alert p _).
  destruct (pending_after_clear (localStorage b) lawful) as [Hcu Hcr].
  assert (Hload : exists p' b',
            Panel.loadData QUESTIONS Date_getTime p1 b1 = (Ok p', b') /\
            Panel.alerts p' = Panel.alerts p1 /\
            localStorage b' = localStorage b1)
    by (apply (loadData_readable p1 b1 [] []); assumption).
  destruct Hload as (p' & b' & Hload & Hal & Hls).
  exists p', b'. split; [exact Hload|]. rewrite Hal, Hls. simpl.
  split_and!; [tauto | auto | ].
  intros _ [?|[?|?]]; [discriminate | lia | contradiction].
Qed.
End PanelFacts.

(** ** The export can be read back *)

Section CsvFacts.
Import Csv.
Local Arguments String.append : simpl nomatch.

Lemma field_ends_not_quote c rest :
  field_ends (String c rest) -> Ascii.eqb c dquote = false.
Proof.
  simpl. intros H. apply orb_true_iff in H as [H|H];
    apply Ascii.eqb_eq in H; subst c; reflexivity.
Qed.

Lemma read_quoted_double f rest :
  field_ends rest ->
  read_quoted (double_quotes f +:+ String dquote rest) = Some (f, rest).
Proof.
  intros Hrest. induction f as [|c f IH]; simpl.
  - rewrite ?Ascii.eqb_refl. destruct rest as [|c rest]; [reflexivity|].
    rewrite (field_ends_not_quote c rest Hrest). reflexivity.
  - destruct (Ascii.eqb c dquote) eqn:E; simpl.
    + rewrite ?Ascii.eqb_refl, IH. apply Ascii.eqb_eq in E. subst c.
      reflexivity.
    + rewrite E, IH. reflexivity.
Qed.

Lemma read_plain_field f rest :
  needs_quotes f = false -> field_ends rest ->
  read_plain (f +:+ rest) = (f, rest).
Proof.
  intros Hf Hrest. induction f as [|c f IH]; simpl.
  - destruct rest as [|c rest]; [reflexivity|]. simpl in *.
    rewrite Hrest. reflexivity.
  - simpl in Hf. apply orb_false_iff in Hf as [Hc Hf].
    unfold is_delimiter in Hc.
    apply orb_false_iff in Hc as [Hc _].
    apply orb_false_iff in Hc as [Hc Hlf].
    apply orb_false_iff in Hc as [_ Hcomma].
    rewrite Hcomma, Hlf, (IH Hf). reflexivity.
Qed.

Lemma read_field_escape f rest :
  field_ends rest ->
  read_field (escapeCsvField f +:+ rest) = Some (f, rest).
Proof.
  intros Hrest. unfold escapeCsvField.
  destruct (needs_quotes f) eqn:E.
  - simpl. rewrite ?Ascii.eqb_refl, append_assoc. simpl.
    apply read_quoted_double. exact Hrest.
  - destruct f as [|c f].
    + simpl. destruct rest as [|c rest]; [reflexivity|].
      unfold read_field. rewrite (field_ends_not_quote c rest Hrest).
      simpl in *. rewrite Hrest. reflexivity.
    + assert (Hq : Ascii.eqb c dquote = false).
      { simpl in E. apply orb_false_iff in E as [Hc _].
        unfold is_delimiter in Hc.
        apply orb_false_iff in Hc as [Hc _].
        apply orb_false_iff in Hc as [Hc _].
        apply orb_false_iff in Hc as [Hc _]. exact Hc. }
      change (String c f +:+ rest) with (String c (f +:+ rest)).
      unfold read_field. rewrite Hq.
      change (String c (f +:+ rest)) with (String c f +:+ rest).
      rewrite (read_plain_field _ _ E Hrest). reflexivity.
Qed.

Lemma join_cons sep x y l :
  join sep (x :: y :: l) = x +:+ sep +:+ join sep (y :: l).
Proof. reflexivity. Qed.

Lemma render_comma f f1 r rs :
  render_table ((f :: f1 :: r) :: rs) =
  escapeCsvField f +:+ String comma (render_table ((f1 :: r) :: rs)).
Proof.
  unfold render_table. cbn [map]. destruct rs as [|r2 rs].
  - cbn [map join String.concat]. reflexivity.
  - cbn [map]. rewrite !join_cons.
    change (join "," (escapeCsvField f :: escapeCsvField f1
                        :: map escapeCsvField r))
      with (escapeCsvField f +:+ "," +:+
            join "," (escapeCsvField f1 :: map escapeCsvField r)).
    rewrite !append_assoc. reflexivity.
Qed.

Lemma render_line_feed f r rs :
  render_table ([f] :: r :: rs) =
  escapeCsvField f +:+ String LF (render_table (r :: rs)).
Proof. reflexivity. Qed.

Lemma proper_intro table :
  table <> [] -> Forall (fun record => record <> []) table -> proper table.
Proof.
  induction table as [|record table IH]; [congruence|]. intros _ Hall.
  apply Forall_cons in Hall as [Hrecord Hall].
  assert (Htail : table = [] \/ proper table).
  { destruct table; [left; reflexivity | right; apply IH; [congruence|]].
    exact Hall. }
  clear IH Hall. destruct record as [|f r]; [congruence|]. clear Hrecord.
  revert f. induction r as [|f1 r IHr]; intros f.
  - destruct Htail as [-> | Htail]; [constructor|].
    destruct table; [inversion Htail|]. constructor. exact Htail.
  - constructor. apply IHr.
Qed.

Lemma append_empty_r (s : string) : s +:+ EmptyString = s.
Proof. induction s as [|c s IH]; simpl; [reflexivity | rewrite IH; reflexivity]. Qed.

Lemma read_records_render table :
  proper table ->
  forall fuel, (length (concat table) <= fuel)%nat ->
  read_records fuel (render_table table) = Some table.
Proof.
  induction 1 as [f | f r rs Hp IH | f f1 r rs Hp IH]; intros fuel Hfuel;
    (destruct fuel as [|fuel]; [simpl in Hfuel; lia|]).
  - unfold render_table. cbn [map join String.concat read_records].
    rewrite <- (append_empty_r (escapeCsvField f)) at 1.
    rewrite read_field_escape by exact I. reflexivity.
  - rewrite render_line_feed. cbn [read_records].
    rewrite read_field_escape by reflexivity.
    assert (Hc : Ascii.eqb LF comma = false) by reflexivity.
    rewrite Hc, Ascii.eqb_refl, IH by (simpl in *; lia). reflexivity.
  - rewrite render_comma. cbn [read_records].
    rewrite read_field_escape by reflexivity.
    rewrite Ascii.eqb_refl, IH by (simpl in *; lia). reflexivity.
Qed.

Lemma render_length table :
  proper table ->
  (length (concat table) <= S (String.length (render_table table)))%nat.
Proof.
  induction 1 as [f | f r rs Hp IH | f f1 r rs Hp IH].
  - simpl. lia.
  - rewrite render_line_feed, length_append.
    change (concat ([f] :: r :: rs)) with (f :: concat (r :: rs)).
    cbn [length String.length].
    apply le_n_S. eapply Nat.le_trans; [exact IH|]. lia.
  - rewrite render_comma, length_append.
    change (concat ((f :: f1 :: r) :: rs))
      with (f :: concat ((f1 :: r) :: rs)).
    cbn [length String.length].
    apply le_n_S. eapply Nat.le_trans; [exact IH|]. lia.
Qed.

Lemma read_render table : proper table -> read (render_table table) = Some table.
Proof.
  intros Hp. apply read_records_render; [exact Hp | apply render_length].
  exact Hp.
Qed.

(** The cells of a header need no quotes. *)
Lemma number_needs_no_quotes z : needs_quotes (String_of_number z) = false.
Proof.
  unfold String_of_number.
  pose proof (number_chars_print z) as H.
  induction (MiniJson.print_number z) as [|c s IH]; [reflexivity|].
  destruct H as [Hc Hs]. simpl. rewrite (IH Hs), orb_false_r.
  unfold MiniJson.is_number_char in Hc. unfold is_delimiter.
  apply orb_true_iff in Hc as [Hc|Hc].
  - apply Ascii.eqb_eq in Hc. subst c. reflexivity.
  - apply andb_true_iff in Hc as [Hlo Hhi].
    apply Nat.leb_le in Hlo, Hhi.
    repeat (apply orb_false_iff; split); apply Ascii.eqb_neq; intros ->;
      vm_compute in Hlo, Hhi; lia.
Qed.

Lemma headers_escape QUESTIONS :
  map escapeCsvField (headers QUESTIONS) = headers QUESTIONS.
Proof.
  unfold headers. rewrite !map_app, map_map.
  apply (f_equal2 app); [reflexivity|].
  apply (f_equal2 app); [|reflexivity].
  apply map_ext. intros id. unfold escapeCsvField.
  change (needs_quotes ("Q" +:+ String_of_number id))
    with (is_delimiter "Q" || needs_quotes (String_of_number id)).
  rewrite number_needs_no_quotes. reflexivity.
Qed.

(** X20. The export can be read back. When there is a summary to
    export, the text after the byte order mark, read as comma-separated
    fields with quoted fields and doubled quotes, gives the header and,
    for every student, the cells of the student's line, unchanged, also
    when a name holds commas, quotes or line breaks. So two exports with
    the same text come from the same cells. *)
Theorem exportCSV_reads_back QUESTIONS summaries rows :
  AdminPanel.exportCSV_rows QUESTIONS summaries = Some rows ->
  (exists text,
     csvContent QUESTIONS summaries = Some (BOM +:+ text) /\
     read text = Some (headers QUESTIONS :: map (cells) rows)) /\
  (forall summaries' rows',
     AdminPanel.exportCSV_rows QUESTIONS summaries' = Some rows' ->
     csvContent QUESTIONS summaries' = csvContent QUESTIONS summaries ->
     map cells rows' = map cells rows).
Proof.
  assert (Htext : forall ss rs,
    AdminPanel.exportCSV_rows QUESTIONS ss = Some rs ->
    csvContent QUESTIONS ss =
      Some (BOM +:+ render_table (headers QUESTIONS :: map cells rs)) /\
    read (render_table (headers QUESTIONS :: map cells rs)) =
      Some (headers QUESTIONS :: map cells rs)).
  { intros ss rs Hrs. split.
    - unfold csvContent. rewrite Hrs. unfold render_table. cbn [map].
      rewrite headers_escape, map_map. reflexivity.
    - apply read_render, proper_intro; [discriminate|].
      constructor; [discriminate|]. apply Forall_forall. intros record Hin.
      apply list_elem_of_fmap in Hin as (row & -> & _). discriminate. }
  intros Hrows. split.
  - eexists. apply Htext. exact Hrows.
  - intros ss rs Hrs Hsame.
    destruct (Htext _ _ Hrows) as [Hc Hr].
    destruct (Htext _ _ Hrs) as [Hc' Hr'].
    rewrite Hc, Hc' in Hsame. injection Hsame as Hsame.
    rewrite Hsame in Hr'. rewrite Hr in Hr'. injection Hr' as Heq.
    symmetry. exact Heq.
Qed.

Lemma exportCSV_scores_length (answers : JsMap.t Z) ids :
  forall scores total,
    length (fold_left
              (fun '(scores, totalScore) qid =>
                 match JsMap.get answers qid with
                 | Some score =>
                     ((scores ++ [Some score])%list, totalScore + score)
                 | None => ((scores ++ [None])%list, totalScore)
                 end) ids (scores, total)).1 =
    (length scores + length ids)%nat.
Proof.
  induction ids as [|qid ids IH]; intros scores total; simpl; [lia|].
  destruct (JsMap.get answers qid); rewrite IH, length_app; simpl; lia.
Qed.

(** X21. Every line of the export has one cell per column of the
    header, seven and one per question, whatever the student answered:
    a question without an answer takes an empty cell, and an answer to
    a question outside the question set takes none. *)
Theorem exportCSV_lines_match_header QUESTIONS (s : StudentSummary.t) :
  length (cells (AdminPanel.exportCSV_row QUESTIONS s)) =
    length (headers QUESTIONS) /\
  length (headers QUESTIONS) = (7 + length QUESTIONS)%nat.
Proof.
  assert (Hh : length (headers QUESTIONS) = (7 + length QUESTIONS)%nat).
  { unfold headers. rewrite !length_app, length_map.
    unfold AdminPanel.allQuestionIds.
    rewrite (Permutation_length (Array_sort_Permutation _ _)), length_map.
    simpl. lia. }
  split; [|exact Hh]. rewrite Hh.
  unfold cells, AdminPanel.exportCSV_row.
  pose proof (exportCSV_scores_length (StudentSummary.answers s)
                (AdminPanel.allQuestionIds QUESTIONS) [] 0) as Hlen.
  destruct (fold_left _ _ _) as [scores totalScore]. simpl in Hlen |- *.
  rewrite length_app, length_map, Hlen. simpl.
  unfold AdminPanel.allQuestionIds.
  rewrite (Permutation_length (Array_sort_Permutation _ _)), length_map.
  lia.
Qed.
End CsvFacts.

(** ** The application shell *)

Section AppFacts.
Import App.
Variable QUESTIONS : list Question.t.

Lemma handleHashChange_idempotent s :
  handleHashChange (handleHashChange s) = handleHashChange s.
Proof.
  unfold handleHashChange.
  destruct (String.eqb (hash s) "#admin") eqn:E; simpl; rewrite ?E;
    [reflexivity|].
  destruct s as [[] u i h]; simpl in *; rewrite ?E; reflexivity.
Qed.

Lemma effect_same fuel s : effect fuel s s = s.
Proof.
  destruct fuel; simpl; [reflexivity|].
  destruct (appState s); reflexivity.
Qed.

(** The effect settles: after at most two further renders the state no
    longer changes. *)
Lemma effect_settles fuel before after :
  (2 <= fuel)%nat ->
  effect fuel before after =
  if AppState_eqb (appState before) (appState after) then after
  else handleHashChange after.
Proof.
  intros Hfuel. destruct fuel as [|[|fuel]]; try lia.
  cbn [effect].
  destruct (AppState_eqb (appState before) (appState after)); [reflexivity|].
  destruct (AppState_eqb (appState after) (appState (handleHashChange after)));
    [reflexivity|].
  rewrite handleHashChange_idempotent. apply effect_same.
Qed.

Lemma mount_settled fuel h : (2 <= fuel)%nat -> settled QUESTIONS (mount fuel h).
Proof.
  intros Hfuel. unfold mount. rewrite effect_settles by exact Hfuel.
  unfold handleHashChange, settled. simpl.
  destruct (String.eqb_spec h "#admin") as [->|Hne]; simpl.
  - split_and!; try tauto; try lia. discriminate.
  - split_and!; try lia; try discriminate.
    split; [discriminate | intros ?; contradiction].
Qed.

Lemma step_settled fuel s e :
  (2 <= fuel)%nat -> settled QUESTIONS s ->
  settled QUESTIONS (step QUESTIONS fuel s e).
Proof.
  intros Hfuel (Hadmin & (Hlo & Hhi) & Huser).
  unfold step. rewrite effect_settles by exact Hfuel.
  destruct s as [st u i h]. simpl in *.
  destruct e as [user| | |h']; simpl.
  - unfold handleHashChange, settled. simpl.
    destruct (String.eqb_spec h "#admin") as [->|Hne];
      destruct st; simpl; rewrite ?String.eqb_refl;
      try (destruct (String.eqb_spec h "#admin"); [contradiction|]);
      simpl; split_and!; try tauto; try lia; try discriminate;
      try (split; [discriminate | intros ?; contradiction]);
      try (intros _; eexists; reflexivity);
      try (exfalso; destruct Hadmin as [H1 H2]; auto; discriminate).
  - unfold handleNextQuestion, handleHashChange, settled. simpl.
    destruct (Z.ltb_spec i (Z.of_nat (length QUESTIONS) - 1));
      destruct (String.eqb_spec h "#admin") as [->|Hne];
      destruct st; simpl; rewrite ?String.eqb_refl;
      try (destruct (String.eqb_spec h "#admin"); [contradiction|]);
      simpl; split_and!; try tauto; try lia; try discriminate;
      try (split; [discriminate | intros ?; contradiction]);
      try (exfalso; destruct Hadmin as [H1 H2]; auto; discriminate).
  - unfold resetApp, handleHashChange, settled. simpl.
    destruct (String.eqb_spec h "#admin") as [->|Hne];
      destruct st; simpl; rewrite ?String.eqb_refl;
      try (destruct (String.eqb_spec h "#admin"); [contradiction|]);
      simpl; split_and!; try tauto; try lia; try discriminate;
      try (split; [discriminate | intros ?; contradiction]);
      try (exfalso; destruct Hadmin as [H1 H2]; auto; discriminate).
  - unfold handleHashChange, settled. simpl.
    destruct (String.eqb_spec h' "#admin") as [->|Hne];
      destruct st; simpl; rewrite ?String.eqb_refl;
      try (destruct (String.eqb_spec h' "#admin"); [contradiction|]);
      simpl; split_and!; try tauto; try lia; try discriminate;
      try (split; [discriminate | intros ?; contradiction]).
Qed.

Lemma run_settled fuel events : forall s,
  (2 <= fuel)%nat -> settled QUESTIONS s ->
  settled QUESTIONS (run_events QUESTIONS fuel events s).
Proof.
  induction events as [|e events IH]; intros s Hfuel Hs; simpl; [exact Hs|].
  apply IH; [exact Hfuel|]. apply step_settled; assumption.
Qed.

Lemma step_fuel fuel s e :
  (2 <= fuel)%nat -> step QUESTIONS fuel s e = step QUESTIONS 2 s e.
Proof.
  intros Hfuel. unfold step. rewrite !effect_settles by lia. reflexivity.
Qed.

Lemma run_fuel fuel events : forall s,
  (2 <= fuel)%nat ->
  run_events QUESTIONS fuel events s = run_events QUESTIONS 2 events s.
Proof.
  induction events as [|e events IH]; intros s Hfuel; simpl; [reflexivity|].
  rewrite step_fuel by exact Hfuel. apply IH. exact Hfuel.
Qed.

Lemma effect_hash fuel : forall before after,
  hash (effect fuel before after) = hash after.
Proof.
  induction fuel as [|f IH]; intros before after; simpl; [reflexivity|].
  destruct (AppState_eqb _ _); [reflexivity|]. rewrite IH.
  unfold handleHashChange.
  destruct (String.eqb (hash after) "#admin"); [reflexivity|].
  destruct (appState after); reflexivity.
Qed.

(** The hash that the events leave. *)
Lemma run_hash fuel events : forall s,
  hash (run_events QUESTIONS fuel events s) =
  fold_left (fun h e => match e with HashChange h' => h' | _ => h end)
            events (hash s).
Proof.
  induction events as [|e events IH]; intros s; simpl; [reflexivity|].
  rewrite IH. f_equal. unfold step. rewrite effect_hash.
  destruct e; simpl; try reflexivity.
  - unfold handleNextQuestion. destruct (_ <? _); reflexivity.
  - unfold handleHashChange. simpl.
    destruct (String.eqb hash0 "#admin"); [reflexivity|].
    destruct (appState s); reflexivity.
Qed.

(** X22. The hash decides whether the admin screen is shown. Whatever
    events arrive in whatever order after the first render, the effect
    settles after at most two further renders, and then the application
    shows the admin screen exactly when the hash is [#admin], the hash
    being the one of the last hash change (or the one the page was opened
    with). No other event leads into or out of the admin screen. *)
Theorem hash_decides_admin_screen fuel events h :
  (2 <= fuel)%nat ->
  let s := run_events QUESTIONS fuel events (mount fuel h) in
  s = run_events QUESTIONS 2 events (mount 2 h) /\
  hash s = fold_left (fun h e => match e with HashChange h' => h' | _ => h end)
             events h /\
  (render QUESTIONS s = AdminScreen <-> hash s = "#admin").
Proof.
  intros Hfuel s.
  assert (Hs : settled QUESTIONS s)
    by (apply run_settled; [exact Hfuel | apply mount_settled; exact Hfuel]).
  split_and!.
  - unfold s. rewrite run_fuel by exact Hfuel. f_equal.
    unfold mount. rewrite !effect_settles by lia. reflexivity.
  - unfold s. rewrite run_hash. f_equal.
    unfold mount. rewrite effect_hash. unfold handleHashChange. simpl.
    destruct (String.eqb h "#admin"); reflexivity.
  - destruct Hs as (Hadmin & _ & _). rewrite <- Hadmin.
    unfold render. destruct (appState s); split; try discriminate;
      try reflexivity.
    destruct (currentUser s); discriminate.
Qed.

(** X23. The question screen always has a question to show. With a
    question set that is not empty, after any events the index is the
    position of a question, and whenever the question screen is shown it
    shows that question for a user, with a progress between one and the
    number of questions. *)
Theorem question_screen_has_a_question fuel events h :
  (2 <= fuel)%nat ->
  QUESTIONS <> [] ->
  let s := run_events QUESTIONS fuel events (mount fuel h) in
  0 <= currentQuestionIndex s < Z.of_nat (length QUESTIONS) /\
  (appState s = QUIZ -> is_Some (currentUser s)) /\
  forall question userId progress total,
    render QUESTIONS s = QuestionScreen question userId progress total ->
    is_Some question /\
    question = QUESTIONS !! Z.to_nat (currentQuestionIndex s) /\
    1 <= progress <= total.
Proof.
  intros Hfuel Hne s.
  assert (Hs : settled QUESTIONS s)
    by (apply run_settled; [exact Hfuel | apply mount_settled; exact Hfuel]).
  destruct Hs as (_ & (Hlo & Hhi) & Huser).
  assert (Hlen : 0 < Z.of_nat (length QUESTIONS))
    by (destruct QUESTIONS; [congruence | simpl; lia]).
  assert (Hidx : 0 <= currentQuestionIndex s < Z.of_nat (length QUESTIONS))
    by lia.
  split; [exact Hidx|]. split; [exact Huser|].
  intros question userId progress total. unfold render.
  destruct (appState s); try discriminate.
  destruct (currentUser s); [|discriminate].
  intros [= <- _ <- <-].
  destruct (Z.ltb_spec (currentQuestionIndex s) 0); [lia|].
  assert (Hq : is_Some (QUESTIONS !! Z.to_nat (currentQuestionIndex s))).
  { apply lookup_lt_is_Some. lia. }
  split; [|split; [|lia]].
  - destruct Hq as [q Hq]. exists q.
    rewrite <- Hq. clear. generalize (Z.to_nat (currentQuestionIndex s)).
    induction QUESTIONS as [|q0 qs IH]; intros [|n]; simpl; auto.
  - clear. generalize (Z.to_nat (currentQuestionIndex s)).
    induction QUESTIONS as [|q0 qs IH]; intros [|n]; simpl; auto.
Qed.

Lemma step_next_question s :
  appState s = QUIZ ->
  hash s <> "#admin" ->
  step QUESTIONS 2 s NextQuestion =
  if currentQuestionIndex s <? Z.of_nat (length QUESTIONS) - 1
  then mk QUIZ (currentUser s) (currentQuestionIndex s + 1) (hash s)
  else mk COMPLETED (currentUser s) (currentQuestionIndex s) (hash s).
Proof.
  intros Hquiz Hhash. unfold step. rewrite effect_settles by lia.
  unfold handle, handleNextQuestion, handleHashChange.
  destruct (_ <? _); simpl; rewrite Hquiz; simpl; [reflexivity|].
  destruct (String.eqb_spec (hash s) "#admin"); [contradiction|].
  reflexivity.
Qed.

Lemma step_completed s :
  appState s = COMPLETED ->
  Z.of_nat (length QUESTIONS) - 1 <= currentQuestionIndex s ->
  step QUESTIONS 2 s NextQuestion = s.
Proof.
  intros Hdone Hidx. unfold step. rewrite effect_settles by lia.
  unfold handle, handleNextQuestion.
  destruct (Z.ltb_spec (currentQuestionIndex s)
              (Z.of_nat (length QUESTIONS) - 1)); [lia|].
  simpl. rewrite Hdone. simpl. destruct s. simpl in *. congruence.
Qed.

(** Answers on the question screen, one after the other. *)
Lemma run_next_questions user i h :
  0 <= i < Z.of_nat (length QUESTIONS) ->
  h <> "#admin" ->
  forall k : nat,
    run_events QUESTIONS 2 (repeat NextQuestion k)
      (mk QUIZ (Some user) i h) =
    if i + Z.of_nat k <? Z.of_nat (length QUESTIONS)
    then mk QUIZ (Some user) (i + Z.of_nat k) h
    else mk COMPLETED (Some user) (Z.of_nat (length QUESTIONS) - 1) h.
Proof.
  intros Hi Hh k. induction k as [|k IH].
  - cbn [repeat run_events fold_left]. replace (i + Z.of_nat 0) with i by lia.
    destruct (Z.ltb_spec i (Z.of_nat (length QUESTIONS))); [reflexivity|lia].
  - replace (S k) with (k + 1)%nat by lia.
    rewrite repeat_app. unfold run_events in *. rewrite fold_left_app, IH.
    cbn [repeat fold_left].
    destruct (Z.ltb_spec (i + Z.of_nat k) (Z.of_nat (length QUESTIONS))).
    + rewrite step_next_question by (simpl; auto). cbn [currentQuestionIndex
        currentUser hash].
      replace (i + Z.of_nat (k + 1)) with (i + Z.of_nat k + 1) by lia.
      destruct (Z.ltb_spec (i + Z.of_nat k)
                  (Z.of_nat (length QUESTIONS) - 1));
        destruct (Z.ltb_spec (i + Z.of_nat k + 1)
                    (Z.of_nat (length QUESTIONS))); try lia;
        [reflexivity|].
      replace (i + Z.of_nat k) with (Z.of_nat (length QUESTIONS) - 1) by lia.
      reflexivity.
    + rewrite step_completed by (simpl; first [reflexivity | lia]).
      destruct (Z.ltb_spec (i + Z.of_nat (k + 1))
                  (Z.of_nat (length QUESTIONS))); [lia | reflexivity].
Qed.

(** X24. A quiz runs through the remaining questions, each once and in
    order. From the question screen at index [i], with the hash not
    [#admin], [k] answers lead to the question at index [i + k] as long as
    that is a question, for the same user; the answer to the last question
    leads to the completed screen, where further calls of the next-question
    handler change nothing. So a quiz from index [i] takes as many answers
    as there are questions from [i] on. *)
Theorem quiz_runs_through_remaining_questions user i h k :
  0 <= i < Z.of_nat (length QUESTIONS) ->
  h <> "#admin" ->
  let s := mk QUIZ (Some user) i h in
  let s' := run_events QUESTIONS 2 (repeat NextQuestion k) s in
  (i + Z.of_nat k < Z.of_nat (length QUESTIONS) ->
   s' = mk QUIZ (Some user) (i + Z.of_nat k) h /\
   render QUESTIONS s' =
     QuestionScreen (QUESTIONS !! Z.to_nat (i + Z.of_nat k)) (User.id user)
                    (i + Z.of_nat k + 1) (Z.of_nat (length QUESTIONS))) /\
  (Z.of_nat (length QUESTIONS) <= i + Z.of_nat k ->
   s' = mk COMPLETED (Some user) (Z.of_nat (length QUESTIONS) - 1) h /\
   render QUESTIONS s' = CompletedScreen).
Proof.
  intros Hi Hh. cbv zeta.
  pose proof (run_next_questions user i h Hi Hh) as Hrun.
  rewrite Hrun. split; intros Hk.
  - destruct (Z.ltb_spec (i + Z.of_nat k) (Z.of_nat (length QUESTIONS)));
      [|lia].
    split; [reflexivity|]. unfold render. simpl.
    destruct (Z.ltb_spec (i + Z.of_nat k) 0); [lia|]. f_equal.
    generalize (Z.to_nat (i + Z.of_nat k)). clear.
    induction QUESTIONS as [|q0 qs IH]; intros [|n]; simpl; auto.
  - destruct (Z.ltb_spec (i + Z.of_nat k) (Z.of_nat (length QUESTIONS)));
      [lia|].
    split; reflexivity.
Qed.

End AppFacts.

(** ** The concrete codec at the response collection *)

Section MiniJsonResponses.
Import MiniJson.
Local Arguments String.append : simpl nomatch.
Local Arguments expect : simpl never.
Local Arguments parse_string : simpl never.
Local Arguments parse_number : simpl never.
Local Arguments print_string : simpl never.
Local Arguments print_number : simpl never.





End MiniJsonResponses.

(** ** Closed examples of the further statements *)

Section FurtherExamples.
Local Existing Instance MiniJson.codec.




(** The local reads of the sample store. *)
Lemma local_reads_witness :
  let b := Sample.browser Sample.store_pending tt in
  Forall (fun r => valid_date Iso8601.getTime (Response.timestamp r))
         Sample.local_responses /\
  exists rows,
    Api.fetchAllResponses_local Iso8601.getTime b = (Ok (Api.LOCAL, rows), b) /\
    length rows = 4%nat /\
    StronglySorted
      (fun x y => not_older Iso8601.getTime (ApiRow.timestamp x)
                    (ApiRow.timestamp y)) rows.
Proof.
  intros b.
  assert (Hus : pending_users (localStorage b) = Some Sample.local_users)
    by (vm_compute; reflexivity).
  assert (Hrs : pending_responses (localStorage b) =
                Some Sample.local_responses) by (vm_compute; reflexivity).
  assert (Hvalid : Forall (fun r => valid_date Iso8601.getTime
                                      (Response.timestamp r))
                          Sample.local_responses).
  { unfold Sample.local_responses, valid_date.
    repeat (apply List.Forall_cons;
            [apply (bool_decide_unpack _); vm_compute; reflexivity|]).
    apply List.Forall_nil. }
  split; [exact Hvalid|].
  destruct (local_reads_are_newest_first Iso8601.getTime b
              Sample.local_users Sample.local_responses Hus Hrs Hvalid)
    as ((rows & Hrun & Hsorted & Hlen) & _).
  exists rows. split; [exact Hrun|]. split; [exact Hlen | exact Hsorted].
Defined.

(** The aggregator on rows that come newest first. *)
Lemma aggregator_latest_answer_witness :
  let rows := Fixture.rows_newest_first in
  let s := StudentSummary.mk 1 "Amy" "🐱" "3" "F" [(1, 5)] Sample.T2 in
  s ∈ AdminPanel.studentSummaries Iso8601.getTime rows /\
  exists row,
    row ∈ rows /\ AdminResponseView.score row = 5 /\
    AdminResponseView.timestamp row = Sample.T2.
Proof.
  intros rows s.
  assert (Hin : s ∈ AdminPanel.studentSummaries Iso8601.getTime rows)
    by (vm_compute; right; left).
  assert (Hsorted : StronglySorted
            (fun x y => not_older Iso8601.getTime
                          (AdminResponseView.timestamp x)
                          (AdminResponseView.timestamp y)) rows).
  { unfold rows, Fixture.rows_newest_first.
    repeat (apply SSorted_cons;
            [|repeat (apply List.Forall_cons;
                      [eexists _, _; split; [vm_compute; reflexivity|];
                       split; [vm_compute; reflexivity | vm_compute; discriminate]|]);
              apply List.Forall_nil]).
    apply SSorted_nil. }
  split; [exact Hin|].
  destruct (aggregator_latest_answer_wins Iso8601.getTime rows s 1 5
              Hsorted Hin eq_refl)
    as (row & Hrow & Hu & Hq & Hv & Hlatest).
  exists row. split; [exact Hrow|]. split; [exact Hv|].
  destruct (Hlatest (AdminResponseView.mk 1 "Amy" "🐱" "3" "F" 1
                       "I feel happy at school" 5 Sample.T2))
    as [<- | (a & c & Ha & Hc & Hle)];
    [right; left | reflexivity | reflexivity | reflexivity |].
  assert (Hmine : AdminResponseView.timestamp row = Sample.T2 \/
                  AdminResponseView.timestamp row = Sample.T1).
  { apply elem_of_cons in Hrow as [-> | Hrow]; [discriminate Hu|].
    apply elem_of_cons in Hrow as [-> | Hrow]; [left; reflexivity|].
    apply list_elem_of_singleton in Hrow as ->. right. reflexivity. }
  destruct Hmine as [H | H]; [exact H|].
  rewrite H in Ha. vm_compute in Ha, Hc. injection Ha as <-.
  injection Hc as <-. lia.
Defined.

(** The sync of the sample body: Ben, the second user of the body, gets
    key 2, and so does his answer. *)
Lemma sync_files_answers_witness :
  let db' := (Server.post_api_sync (Some Sample.local_users)
                (Some Sample.local_responses) Sample.sqlite).2 in
  Server.users db' !! 1%nat =
    Some (UserRow.mk 2 "Ben" "🐶" "4" "M" "2024-03-02 08:00:00") /\
  ApiRow.mk 2 "Ben" "🐶" "4" "M" 1 4 Sample.T2
  ∈ Routes.select_admin_responses db'.
Proof.
  intros db'.
  assert (Hff : fault_free (length Sample.local_users +
                            length Sample.local_responses) Sample.sqlite)
    by (apply no_faults_fault_free; constructor).
  assert (Hlast : forall i' u',
            Sample.local_users !! i' = Some u' ->
            User.id u' = User.id Sample.ben -> (i' <= 1)%nat).
  { intros i' u' Hi' _. apply lookup_lt_Some in Hi'. simpl in Hi'. lia. }
  destruct (sync_files_answers_under_their_author Sample.local_users
              Sample.local_responses Sample.sqlite 1 Sample.ben 1
              (Response.mk (Some 1709283901000) 1709283900000 1 4 Sample.T2)
              Hff eq_refl Hlast eq_refl eq_refl) as (Hrow & _ & Hin).
  split; [exact Hrow | exact Hin].
Defined.

(** An answer saved locally for a user who was registered on the server
    under key 2. *)
Lemma sync_unmapped_answer_witness :
  let r := Response.mk (Some 1709283905000) 2 3 1 Sample.T2 in
  let db' := (Server.post_api_sync (Some Sample.local_users) (Some [r])
                Fixture.sqlite_filled).2 in
  ApiRow.mk 2 "Ben" "🐶" "4" "M" 3 1 Sample.T2
  ∈ Routes.select_admin_responses db'.
Proof.
  intros r db'.
  assert (Hff : fault_free (length Sample.local_users + length [r])
                           Fixture.sqlite_filled) by (apply no_faults_fault_free; constructor).
  assert (Hnone : forall u, u ∈ Sample.local_users ->
                            User.id u <> Response.user_id r).
  { intros u Hu. apply elem_of_cons in Hu as [-> | Hu]; [discriminate|].
    apply list_elem_of_singleton in Hu as ->. discriminate. }
  destruct (sync_keeps_owner_of_unmapped_answer Sample.local_users [r]
              Fixture.sqlite_filled 0 r
              (UserRow.mk 2 "Ben" "🐶" "4" "M" "2024-03-01 09:05:00")
              Hff eq_refl Hnone ltac:(right; left) eq_refl) as [_ Hin].
  exact Hin.
Defined.

(** The sample store synced over a link that answers after 12 s, then
    over one that answers after 120 ms. *)
Lemma late_answer_witness :
  let b := Sample.browser Sample.store_pending Fixture.backend_late in
  exists b1 result b2,
    System.syncLocalToServer b = (Throw AbortError, b1) /\
    localStorage b1 = localStorage b /\
    System.syncLocalToServer (reconnected 120 b1) = (Ok result, b2) /\
    length (Server.users (Server.sqlite (world b2))) = 4%nat /\
    length (Server.responses (Server.sqlite (world b2))) = 8%nat.
Proof.
  intros b.
  assert (Hus : pending_users (localStorage b) = Some Sample.local_users)
    by (vm_compute; reflexivity).
  assert (Hrs : pending_responses (localStorage b) =
                Some Sample.local_responses) by (vm_compute; reflexivity).
  destruct (late_answer_makes_sync_upload_twice b Sample.local_users
              Sample.local_responses 120 Hus Hrs eq_refl eq_refl
              ltac:(simpl; lia) ltac:(constructor) ltac:(lia))
    as (b1 & urows1 & rrows1 & Hrun1 & Hls & _ & _ & Hall1 & Hlen1 &
        result & b2 & urows2 & rrows2 & Hrun2 & Husers & Hresps & Hall2 &
        Hlen2 & _).
  exists b1, result, b2. split; [exact Hrun1|]. split; [exact Hls|].
  split; [exact Hrun2|].
  apply Forall2_length in Hall1, Hall2.
  rewrite Husers, Hresps, !length_app, <- Hall1, <- Hall2, Hlen1, Hlen2.
  split; reflexivity.
Defined.

(** The summaries of rows in which the later row of user 1 carries
    another name, and the first row of user 2 has no avatar. *)
Lemma summary_profile_witness :
  let rows := Fixture.rows_newest_first in
  let s := StudentSummary.mk 2 "Ben" "🧑‍🎓" "4" "M" [(1, 4)]
             "2024-03-01T09:10:00.000Z" in
  s ∈ AdminPanel.studentSummaries Iso8601.getTime rows /\
  exists r0,
    List.find (fun row => AdminResponseView.user_id row =? 2) rows = Some r0 /\
    AdminResponseView.user_avatar r0 = "" /\
    StudentSummary.avatar s = "🧑‍🎓" /\
    StudentSummary.name s = AdminResponseView.user_name r0.
Proof.
  intros rows s.
  assert (Hin : s ∈ AdminPanel.studentSummaries Iso8601.getTime rows)
    by (vm_compute; left).
  split; [exact Hin|].
  destruct (summary_shows_profile_of_first_row Iso8601.getTime rows s Hin)
    as (r0 & Hfind & Hname & Havatar & _).
  exists r0. split; [exact Hfind|].
  assert (Hr0 : r0 = AdminResponseView.mk 2 "Ben" "" "4" "M" 1
                       "I feel happy at school" 4 "2024-03-01T09:10:00.000Z")
    by (vm_compute in Hfind; congruence).
  split; [rewrite Hr0; reflexivity|]. split; [reflexivity | exact Hname].
Defined.

(** The last activity of user 1 in rows that come oldest first. *)
Lemma last_timestamp_witness :
  let rows :=
    [AdminResponseView.mk 1 "Amy" "🐱" "3" "F" 1 "I feel happy at school" 2
       Sample.T1;
     AdminResponseView.mk 1 "Amy" "🐱" "3" "F" 2
       "I can calm down when I am upset" 5 Sample.T2] in
  let s := StudentSummary.mk 1 "Amy" "🐱" "3" "F" [(1, 2); (2, 5)]
             Sample.T2 in
  s ∈ AdminPanel.studentSummaries Iso8601.getTime rows /\
  exists row,
    row ∈ rows /\ AdminResponseView.timestamp row = Sample.T2.
Proof.
  intros rows s.
  assert (Hin : s ∈ AdminPanel.studentSummaries Iso8601.getTime rows)
    by (vm_compute; left).
  split; [exact Hin|].
  destruct (last_timestamp_is_latest_of_user Iso8601.getTime rows s Hin)
    as ((row & Hrow & _ & Hts) & _).
  exists row. split; [exact Hrow | exact Hts].
Defined.

(** The summaries of rows that come newest first. *)
Lemma summaries_most_recent_first_witness :
  let rows := Fixture.rows_newest_first in
  map StudentSummary.user_id
      (AdminPanel.studentSummaries Iso8601.getTime rows) = [2; 1] /\
  StronglySorted
    (fun s1 s2 => not_older Iso8601.getTime (StudentSummary.last_timestamp s1)
                    (StudentSummary.last_timestamp s2))
    (AdminPanel.studentSummaries Iso8601.getTime rows).
Proof.
  intros rows.
  assert (Hsorted : StronglySorted
            (fun x y => not_older Iso8601.getTime
                          (AdminResponseView.timestamp x)
                          (AdminResponseView.timestamp y)) rows).
  { unfold rows, Fixture.rows_newest_first.
    repeat (apply SSorted_cons;
            [|repeat (apply List.Forall_cons;
                      [eexists _, _; split; [vm_compute; reflexivity|];
                       split; [vm_compute; reflexivity | vm_compute; discriminate]|]);
              apply List.Forall_nil]).
    apply SSorted_nil. }
  split; [vm_compute; reflexivity|].
  exact (proj2 (summaries_are_most_recent_first Iso8601.getTime rows Hsorted)).
Defined.


(** The dashboard on a store whose responses were written half, with the
    backend out of reach. *)
Lemma clearing_recovers_witness :
  let b := Sample.browser Sample.store_corrupt Fixture.backend_down in
  let p := Panel.mk [] None None [] in
  pending_responses (localStorage b) = None /\
  (exists p1 b1,
     Panel.loadData Sample.QUESTIONS Iso8601.getTime p b = (Ok p1, b1) /\
     Panel.alerts p1 = [Panel.CannotLoad]) /\
  (exists p3 b3,
     Panel.handleClearLocal Sample.QUESTIONS Iso8601.getTime true p b =
       (Ok p3, b3) /\
     Panel.alerts p3 = [Panel.Cleared] /\
     Panel.dataSource p3 = Some Api.LOCAL).
Proof.
  intros b p.
  assert (Hbad : pending_responses (localStorage b) = None)
    by (vm_compute; reflexivity).
  split; [exact Hbad|].
  destruct (clearing_recovers_unreadable_store Sample.QUESTIONS
              Iso8601.getTime MiniJson_lawful p b eq_refl (or_intror Hbad))
    as ((p1 & b1 & Hload & Halerts & _) & _ &
        (p3 & b3 & Hclear & Hcleared & _ & Hsource & _)).
  split.
  - exists p1, b1. split; [exact Hload | exact Halerts].
  - exists p3, b3. split; [exact Hclear|].
    split; [exact Hcleared | exact Hsource].
Defined.

(** The dashboard over a link that answers after 3500 ms. *)
Lemma dashboard_indicators_witness :
  let b := Sample.browser Sample.store_pending
             (Server.mkBackend Fixture.sqlite_filled true 3500) in
  let p := Panel.mk [] None None [] in
  exists p' b',
    Panel.loadData Sample.QUESTIONS Iso8601.getTime p b = (Ok p', b') /\
    Panel.serverOnline p' = Some false /\
    Panel.dataSource p' = Some Api.DB /\
    length (Panel.rawData p') = 2%nat.
Proof.
  intros b p.
  destruct (dashboard_indicators_by_latency Sample.QUESTIONS Iso8601.getTime
              p b eq_refl eq_refl ltac:(simpl; lia))
    as (p' & b' & Hload & Honline & Hsource & Hrows & _).
  exists p', b'. split; [exact Hload|]. split; [exact Honline|].
  split; [exact Hsource|]. rewrite Hrows. vm_compute. reflexivity.
Defined.

(** The sync button on the sample store, the backend answering after
    120 ms. *)
Lemma handleSync_alert_witness :
  let b := Sample.browser Sample.store_pending Sample.backend in
  let p := Panel.mk [] None None [] in
  exists p' b',
    Panel.handleSync Sample.QUESTIONS Iso8601.getTime p b = (Ok p', b') /\
    Panel.alerts p' = [Panel.Synced 2 4] /\
    pending_users (localStorage b') = Some [] /\
    pending_responses (localStorage b') = Some [].
Proof.
  intros b p.
  assert (Hus : pending_users (localStorage b) = Some Sample.local_users)
    by (vm_compute; reflexivity).
  assert (Hrs : pending_responses (localStorage b) =
                Some Sample.local_responses) by (vm_compute; reflexivity).
  destruct (handleSync_alert Sample.QUESTIONS Iso8601.getTime MiniJson_lawful
              p b Sample.local_users Sample.local_responses Hus Hrs)
    as (p' & b' & Hrun & _ & Hsynced & _).
  exists p', b'. split; [exact Hrun|].
  apply Hsynced.
  - intros [H _]. discriminate H.
  - reflexivity.
  - simpl. lia.
  - apply no_faults_fault_free. constructor.
Defined.

(** The export of a student whose name holds a quote and a comma. *)
Lemma exportCSV_reads_back_witness :
  let rows := [AdminPanel.exportCSV_row Sample.QUESTIONS
                 Fixture.summary_quoted] in
  exists text,
    Csv.csvContent Sample.QUESTIONS [Fixture.summary_quoted] =
      Some (Csv.BOM +:+ text) /\
    Csv.read text =
      Some (Csv.headers Sample.QUESTIONS :: map Csv.cells rows) /\
    map Csv.cells rows =
      [["7"; StudentSummary.name Fixture.summary_quoted; "3"; "F"; Sample.T2;
        "5"; ""; "2"; "7"; "2/3"]].
Proof.
  intros rows.
  destruct (exportCSV_reads_back Sample.QUESTIONS [Fixture.summary_quoted]
              rows eq_refl) as ((text & Htext & Hread) & _).
  exists text. split; [exact Htext|]. split; [exact Hread|].
  vm_compute. reflexivity.
Defined.

(** A hash change to the admin screen in the middle of a quiz. *)
Lemma hash_decides_admin_screen_witness :
  let events := [App.UserCreated Sample.amy; App.HashChange "#admin";
                 App.NextQuestion] in
  App.render Sample.QUESTIONS
    (App.run_events Sample.QUESTIONS 3 events (App.mount 3 "")) = App.AdminScreen.
Proof.
  intros events.
  destruct (hash_decides_admin_screen Sample.QUESTIONS 3 events ""
              ltac:(lia)) as (_ & Hhash & Hadmin).
  apply Hadmin. rewrite Hhash. reflexivity.
Defined.

(** The second question of a quiz. *)
Lemma question_screen_witness :
  let events := [App.UserCreated Sample.amy; App.NextQuestion] in
  let s := App.run_events Sample.QUESTIONS 2 events (App.mount 2 "") in
  App.render Sample.QUESTIONS s =
    App.QuestionScreen
      (Some (Question.mk 2 "I can calm down when I am upset" "q2.png" None))
      1709283600000 2 3 /\
  0 <= App.currentQuestionIndex s < 3.
Proof.
  intros events s.
  destruct (question_screen_has_a_question Sample.QUESTIONS 2 events ""
              ltac:(lia) ltac:(discriminate)) as (Hidx & _).
  split; [reflexivity | exact Hidx].
Defined.

(** A quiz of the three sample questions. *)
Lemma quiz_run_witness :
  let s := App.mk App.QUIZ (Some Sample.amy) 0 "" in
  App.run_events Sample.QUESTIONS 2 (repeat App.NextQuestion 2) s =
    App.mk App.QUIZ (Some Sample.amy) 2 "" /\
  App.run_events Sample.QUESTIONS 2 (repeat App.NextQuestion 3) s =
    App.mk App.COMPLETED (Some Sample.amy) 2 "".
Proof.
  intros s.
  destruct (quiz_runs_through_remaining_questions Sample.QUESTIONS
              Sample.amy 0 "" 2 ltac:(simpl; lia) ltac:(discriminate))
    as [Hquiz _].
  destruct (quiz_runs_through_remaining_questions Sample.QUESTIONS
              Sample.amy 0 "" 3 ltac:(simpl; lia) ltac:(discriminate))
    as [_ Hdone].
  split.
  - apply Hquiz. simpl. lia.
  - apply Hdone. simpl. lia.
Defined.


(** The health probe over a link that answers after 3500 ms. *)
Lemma checkServerHealth_witness :
  let b := Sample.browser Sample.store_empty Fixture.backend_slow in
  exists b', Online.checkServerHealth b = (Ok false, b').
Proof.
  intros b.
  destruct (checkServerHealth_total Link.api_health b)
    as (online & b' & Hrun & _ & Hiff).
  exists b'. destruct online; [|exact Hrun].
  destruct (proj1 Hiff eq_refl) as (l & res & w' & Hreply & Hl & _).
  injection Hreply as <- _ _. lia.
Defined.

(** The admin listing of a database in which one response has no user. *)
Lemma admin_listing_witness :
  length (Routes.select_admin_responses Fixture.sqlite_filled) = 2%nat /\
  length (Server.responses Fixture.sqlite_filled) = 3%nat.
Proof.
  destruct (admin_listing_is_sorted_inner_join Fixture.sqlite_filled)
    as (_ & Hlen & _).
  split; [|reflexivity]. rewrite Hlen; [reflexivity|].
  apply (bool_decide_unpack _). vm_compute. reflexivity.
Defined.

(** The listing of user 1 in that database. *)
Lemma user_listing_witness :
  Routes.select_user_responses 1 Fixture.sqlite_filled ≡ₚ
    [Response.mk (Some 1) 1 2 5 "2024-03-01 09:01:00"].
Proof.
  exact (proj1 (user_listing_is_sorted_selection 1 Fixture.sqlite_filled)).
Defined.

(** A login at that database. *)
Lemma routes_only_append_witness :
  keys_distinct Fixture.sqlite_filled /\
  keys_distinct
    (Routes.post_api_login "Cleo" "🐰" "2" "F" Fixture.sqlite_filled).2 /\
  map UserRow.id
    (Server.users
       (Routes.post_api_login "Cleo" "🐰" "2" "F" Fixture.sqlite_filled).2) =
    [1; 2; 3].
Proof.
  assert (Hkeys : keys_distinct Fixture.sqlite_filled).
  { split; apply (bool_decide_unpack _); vm_compute; reflexivity. }
  destruct (routes_only_append_rows Fixture.sqlite_filled)
    as (_ & Hlogin & _).
  destruct (Hlogin "Cleo" "🐰" "2" "F") as [_ Hkept].
  split; [exact Hkeys|]. split; [exact (Hkept Hkeys) | reflexivity].
Defined.

(** The line of a student who answered two of the three questions. *)
Lemma exportCSV_lines_witness :
  length (Csv.cells (AdminPanel.exportCSV_row Sample.QUESTIONS
                       Fixture.summary_quoted)) = 10%nat.
Proof.
  destruct (exportCSV_lines_match_header Sample.QUESTIONS
              Fixture.summary_quoted) as [Hcells Hheaders].
  rewrite Hcells, Hheaders. reflexivity.
Defined.
End FurtherExamples.
